(** * emmy: Pedersen-EC commitments and the partial (OR) Schnorr proof

    A shallow embedding of
      - crypto/commitments/pedersen_ec.go
      - crypto/zkp/primitives/dlogproofs/partial_dlog_knowledge_ec.go
      - server/schnorr_ec.go and the pseudonymsys CA client
    together with the properties the specification states about them.

    Conventions of the embedding.
      - [*big.Int] values are [Z]; a struct field of pointer type that the
        constructors leave unset is an [option] ([None] is Go's nil), and
        reading through it is a run-time panic.
      - An argument of pointer type (a scalar, a group element, a triple, a
        message) is taken to be an object, not nil.
      - Methods with a pointer receiver are computations in a state monad
        over the receiver struct whose result is either a returned value
        together with the new struct, or a panic.
      - [common.GetRandomInt(max)] is not part of the sources at hand; every
        value it samples is passed to the method as an extra argument, and
        the theorems quantify over all values in [0, max).
      - The group ([dlog.ECDLog]) is not part of the sources at hand either;
        it is a record of operations, and the theorems that need algebra
        assume the laws of a cyclic group of order q on it. *)

From Stdlib Require Import ZArith List Bool Lia String.
From Stdlib Require Import Strings.Byte.
Import ListNotations.
Local Open Scope Z_scope.

(* ===================================================================== *)
(** ** Go run-time: panics and methods on a mutable receiver              *)
(* ===================================================================== *)

Module Go.

Inductive panic : Type :=
| NilPointerDereference
| DivisionByZero.

Inductive outcome (A : Type) : Type :=
| Returned (a : A)
| Panicked (p : panic).
Arguments Returned {A} a.
Arguments Panicked {A} p.

(** A method body: reads and writes the receiver [S], returns [A] or panics. *)
Definition M (S A : Type) : Type := S -> outcome (A * S).

Definition ret {S A} (a : A) : M S A := fun s => Returned (a, s).

Definition bind {S A B} (m : M S A) (k : A -> M S B) : M S B :=
  fun s => match m s with
           | Returned (a, s') => k a s'
           | Panicked p => Panicked p
           end.

Definition gets {S A} (f : S -> A) : M S A := fun s => Returned (f s, s).

Definition modify {S} (f : S -> S) : M S unit := fun s => Returned (tt, f s).

Definition throw {S A} (p : panic) : M S A := fun _ => Panicked p.

(** Reading through a possibly nil pointer. *)
Definition deref {S A} (p : option A) : M S A :=
  match p with
  | Some a => ret a
  | None => throw NilPointerDereference
  end.

(** [p == nil]. *)
Definition isNil {A} (p : option A) : bool :=
  match p with
  | Some _ => false
  | None => true
  end.

(** Sequencing of outcomes outside any receiver (plain function bodies). *)
Definition andThen {A B} (o : outcome A) (k : A -> outcome B) : outcome B :=
  match o with
  | Returned a => k a
  | Panicked p => Panicked p
  end.

Definition returns {A} (o : outcome A) : Prop := exists a, o = Returned a.

End Go.

Import Go.

Declare Scope go_scope.
Delimit Scope go_scope with go.
Notation "x <- m ;; k" := (bind m (fun x => k))
  (at level 61, m at next level, right associativity) : go_scope.
Notation "m ;;; k" := (bind m (fun _ => k))
  (at level 61, right associativity) : go_scope.
Notation "' pat <- m ;; k" :=
  (bind m (fun x => match x with pat => k end))
  (at level 61, pat pattern, m at next level, right associativity) : go_scope.
Notation "'call' x <- o ;; k" := (andThen o (fun x => k))
  (at level 61, x pattern, o at next level, right associativity) : go_scope.
Local Open Scope go_scope.

(* ===================================================================== *)
(** ** math/big                                                           *)
(* ===================================================================== *)

Module big.

(** [x.Cmp(y)]: -1, 0 or +1. *)
Definition Cmp (x y : Z) : Z :=
  match x ?= y with
  | Lt => -1
  | Eq => 0
  | Gt => 1
  end.

(** [new(big.Int).Xor(x, y)]: bitwise exclusive or. *)
Definition Xor (x y : Z) : Z := Z.lxor x y.

(** [z.Mod(x, y)]: Euclidean modulus; a zero modulus is a run-time panic. *)
Definition Mod (x y : Z) : outcome Z :=
  if y =? 0 then Panicked DivisionByZero else Returned (x mod Z.abs y).

Definition byte_of_N (n : N) : byte :=
  match Byte.of_N n with
  | Some b => b
  | None => x00
  end.

Fixpoint bytes_acc (fuel : nat) (n : N) (acc : list byte) : list byte :=
  match fuel with
  | O => acc
  | S fuel' =>
      if (n =? 0)%N then acc
      else bytes_acc fuel' (n / 256)%N (byte_of_N (n mod 256)%N :: acc)
  end.

(** [x.Bytes()]: the absolute value of x as a big-endian byte slice without
    leading zero bytes; the zero value gives the empty slice. *)
Definition Bytes (x : Z) : list byte :=
  let n := Z.abs_N x in
  bytes_acc (N.to_nat (N.size n)) n [].

(** [new(big.Int).SetBytes(buf)]: buf read as a big-endian unsigned integer. *)
Definition SetBytes (buf : list byte) : Z :=
  fold_left (fun acc b => acc * 256 + Z.of_N (Byte.to_N b)) buf 0.

End big.

(* ===================================================================== *)
(** ** types: group elements and triples                                  *)
(* ===================================================================== *)

Module types.

Record ECGroupElement : Type := NewECGroupElement { X : Z; Y : Z }.

(** [NewECTriple(a, b, c)] stores its arguments in the fields A, B, C. *)
Record ECTriple : Type := NewECTriple {
  A : ECGroupElement;
  B : ECGroupElement;
  C : ECGroupElement
}.

Inductive ProtocolType : Type := Sigma | ZKP | ZKPOK.

Definition ProtocolType_eqb (p q : ProtocolType) : bool :=
  match p, q with
  | Sigma, Sigma | ZKP, ZKP | ZKPOK, ZKPOK => true
  | _, _ => false
  end.

End types.

(* ===================================================================== *)
(** ** dlog: the elliptic-curve group the protocols are written against   *)
(* ===================================================================== *)

Module dlog.

(** The operations of [dlog.ECDLog] that the sources call, on affine
    coordinates, as in Go. *)
Record ECDLog : Type := {
  OrderOfSubgroup : Z;
  Exponentiate : Z -> Z -> Z -> Z * Z;
  ExponentiateBaseG : Z -> Z * Z;
  Multiply : Z -> Z -> Z -> Z -> Z * Z;
  Inverse : Z -> Z -> Z * Z
}.

Definition GetOrderOfSubgroup (d : ECDLog) : Z := OrderOfSubgroup d.

Section Points.
Variable d : ECDLog.

Definition elem (xy : Z * Z) : types.ECGroupElement :=
  types.NewECGroupElement (fst xy) (snd xy).

Definition exp (P : types.ECGroupElement) (k : Z) : types.ECGroupElement :=
  elem (Exponentiate d (types.X P) (types.Y P) k).

Definition baseExp (k : Z) : types.ECGroupElement :=
  elem (ExponentiateBaseG d k).

Definition mul (P Q : types.ECGroupElement) : types.ECGroupElement :=
  elem (Multiply d (types.X P) (types.Y P) (types.X Q) (types.Y Q)).

Definition inv (P : types.ECGroupElement) : types.ECGroupElement :=
  elem (Inverse d (types.X P) (types.Y P)).
End Points.

(** Modelled from the spec: the group package is an external collaborator,
    "a provided abstract cyclic group of prime order q" whose
    exponentiations "reduce internally".  The laws are required on the
    points of the group only and for non-negative exponents only. *)
Record Laws (d : ECDLog) : Type := {
  on_curve : types.ECGroupElement -> Prop;
  zero : types.ECGroupElement;
  order_pos : 0 < OrderOfSubgroup d;
  zero_on_curve : on_curve zero;
  mul_on_curve : forall P Q, on_curve P -> on_curve Q -> on_curve (mul d P Q);
  inv_on_curve : forall P, on_curve P -> on_curve (inv d P);
  exp_on_curve : forall P k, on_curve P -> 0 <= k -> on_curve (exp d P k);
  mul_comm : forall P Q, on_curve P -> on_curve Q -> mul d P Q = mul d Q P;
  mul_assoc : forall P Q R, on_curve P -> on_curve Q -> on_curve R ->
    mul d P (mul d Q R) = mul d (mul d P Q) R;
  mul_zero : forall P, on_curve P -> mul d P zero = P;
  mul_inv : forall P, on_curve P -> mul d P (inv d P) = zero;
  exp_add : forall P m n, on_curve P -> 0 <= m -> 0 <= n ->
    exp d P (m + n) = mul d (exp d P m) (exp d P n);
  exp_mul : forall P m n, on_curve P -> 0 <= m -> 0 <= n ->
    exp d (exp d P m) n = exp d P (m * n);
  exp_mod : forall P k, on_curve P -> 0 <= k ->
    exp d P (k mod OrderOfSubgroup d) = exp d P k
}.

End dlog.

(* ===================================================================== *)
(** ** commitments: Pedersen over an elliptic curve (pedersen_ec.go)      *)
(* ===================================================================== *)

Module commitments.

(** A Go [error] built by [errors.New]: its message. *)
Definition error : Type := string.

(** The one error of the package, built in GetCommitMsg. *)
Definition rangeError : error :=
  "the committed value needs to be in Z_q (order of a base point)"%string.

(** Committer first needs to know H (it gets it from the receiver).
    Then committer can commit to some value x - it sends to receiver
    c = g^x * h^r.  When decommitting, committer sends to receiver r, x;
    receiver checks whether c = g^x * h^r. *)
Module PedersenECCommitter.

Record t : Type := Build {
  dLog : dlog.ECDLog;
  h : option types.ECGroupElement;
  committedValue : option Z;
  r : option Z
}.

Definition set_h (v : option types.ECGroupElement) (c : t) : t :=
  Build (dLog c) v (committedValue c) (r c).
Definition set_committedValue (v : option Z) (c : t) : t :=
  Build (dLog c) (h c) v (r c).
Definition set_r (v : option Z) (c : t) : t :=
  Build (dLog c) (h c) (committedValue c) v.

(** Value h needs to be obtained from a receiver and then set in a
    committer. *)
Definition SetH (h' : types.ECGroupElement) : M t unit :=
  modify (set_h (Some h')).

(** [GetCommitMsg(val)]; [rnd] is the value sampled by
    [common.GetRandomInt(committer.dLog.OrderOfSubgroup)]. *)
Definition GetCommitMsg (val : Z) (rnd : Z)
  : M t (option types.ECGroupElement * option error) :=
  q <- gets (fun c => dlog.OrderOfSubgroup (dLog c)) ;;
  if (big.Cmp val q =? 1) || (big.Cmp val 0 =? -1) then
    let err := rangeError in
    ret (None, Some err)
  else
    (* c = g^x * h^r *)
    modify (set_r (Some rnd)) ;;;
    modify (set_committedValue (Some val)) ;;;
    d <- gets dLog ;;
    let '(x1, y1) := dlog.ExponentiateBaseG d val in
    hp <- gets h ;;
    h' <- deref hp ;;
    let '(x2, y2) := dlog.Exponentiate d (types.X h') (types.Y h') rnd in
    let '(c1, c2) := dlog.Multiply d x1 y1 x2 y2 in
    ret (Some (types.NewECGroupElement c1 c2), None).

(** It returns values x and r (commitment was c = g^x * g^r). *)
Definition GetDecommitMsg : M t (option Z * option Z) :=
  val <- gets committedValue ;;
  r' <- gets r ;;
  ret (val, r').

Definition VerifyTrapdoor (trapdoor : Z) : M t bool :=
  d <- gets dLog ;;
  let '(hx, hy) := dlog.ExponentiateBaseG d trapdoor in
  hp <- gets h ;;
  h' <- deref hp ;;
  if (big.Cmp hx (types.X h') =? 0) && (big.Cmp hy (types.Y h') =? 0) then
    ret true
  else
    ret false.

End PedersenECCommitter.

Module PedersenECReceiver.

Record t : Type := Build {
  dLog : dlog.ECDLog;
  a : option Z;
  h : option types.ECGroupElement;
  commitment : option types.ECGroupElement
}.

Definition set_commitment (v : option types.ECGroupElement) (s : t) : t :=
  Build (dLog s) (a s) (h s) v.

Definition GetH : M t (option types.ECGroupElement) := gets h.

Definition GetTrapdoor : M t (option Z) := gets a.

(** When receiver receives a commitment, it stores the value using
    SetCommitment method. *)
Definition SetCommitment (el : types.ECGroupElement) : M t unit :=
  modify (set_commitment (Some el)).

(** When receiver receives a decommitment, CheckDecommitment verifies it
    against the stored value (stored by SetCommitment). *)
Definition CheckDecommitment (r val : Z) : M t bool :=
  d <- gets dLog ;;
  let '(x1, y1) := dlog.ExponentiateBaseG d val in        (* g^x *)
  hp <- gets h ;;
  h' <- deref hp ;;
  let '(x2, y2) := dlog.Exponentiate d (types.X h') (types.Y h') r in (* h^r *)
  let '(c1, c2) := dlog.Multiply d x1 y1 x2 y2 in         (* g^x * h^r *)
  cp <- gets commitment ;;
  c <- deref cp ;;
  if (big.Cmp c1 (types.X c) =? 0) && (big.Cmp c2 (types.Y c) =? 0) then
    ret true
  else
    ret false.

End PedersenECReceiver.

Section Constructors.
(** [dlog.Curve] and [dlog.NewECDLog] belong to the group package. *)
Variable Curve : Type.
Variable NewECDLog : Curve -> dlog.ECDLog.

Definition NewPedersenECCommitter (curveType : Curve) : PedersenECCommitter.t :=
  let dLog := NewECDLog curveType in
  PedersenECCommitter.Build dLog None None None.

(** [rnd] is the value sampled by [common.GetRandomInt(dLog.OrderOfSubgroup)]. *)
Definition NewPedersenECReceiver (curve : Curve) (rnd : Z) : PedersenECReceiver.t :=
  let dLog := NewECDLog curve in
  let a := rnd in
  let '(x, y) := dlog.ExponentiateBaseG dLog a in
  PedersenECReceiver.Build dLog (Some a) (Some (types.NewECGroupElement x y)) None.
End Constructors.

End commitments.

(* ===================================================================== *)
(** ** dlogproofs: partial knowledge of one of two discrete logarithms
       (partial_dlog_knowledge_ec.go)                                     *)
(* ===================================================================== *)

Module dlogproofs.

(** Proving that it knows either secret1 such that a1^secret1 = b1 or
    secret2 such that a2^secret2 = b2. *)
Module PartialECDLogProver.

Record t : Type := Build {
  DLog : dlog.ECDLog;
  secret1 : option Z;
  a1 : option types.ECGroupElement;
  a2 : option types.ECGroupElement;
  r1 : option Z;
  c2 : option Z;
  z2 : option Z;
  ord : Z
}.

Definition set_a1 (v : option types.ECGroupElement) (p : t) : t :=
  Build (DLog p) (secret1 p) v (a2 p) (r1 p) (c2 p) (z2 p) (ord p).
Definition set_a2 (v : option types.ECGroupElement) (p : t) : t :=
  Build (DLog p) (secret1 p) (a1 p) v (r1 p) (c2 p) (z2 p) (ord p).
Definition set_secret1 (v : option Z) (p : t) : t :=
  Build (DLog p) v (a1 p) (a2 p) (r1 p) (c2 p) (z2 p) (ord p).
Definition set_r1 (v : option Z) (p : t) : t :=
  Build (DLog p) (secret1 p) (a1 p) (a2 p) v (c2 p) (z2 p) (ord p).
Definition set_c2 (v : option Z) (p : t) : t :=
  Build (DLog p) (secret1 p) (a1 p) (a2 p) (r1 p) v (z2 p) (ord p).
Definition set_z2 (v : option Z) (p : t) : t :=
  Build (DLog p) (secret1 p) (a1 p) (a2 p) (r1 p) (c2 p) v (ord p).
Definition set_ord (v : Z) (p : t) : t :=
  Build (DLog p) (secret1 p) (a1 p) (a2 p) (r1 p) (c2 p) (z2 p) v.

(** [rnd_r1], [rnd_c2], [rnd_z2] are the three values sampled by
    [common.GetRandomInt(prover.DLog.GetOrderOfSubgroup())], in this
    order, and [rnd_ord] the one sampled by
    [common.GetRandomInt(big.NewInt(2))]. *)
Definition GetProofRandomData (secret1' : Z)
    (a1' b1 a2' b2 : types.ECGroupElement)
    (rnd_r1 rnd_c2 rnd_z2 rnd_ord : Z)
  : M t (types.ECTriple * types.ECTriple) :=
  modify (set_a1 (Some a1')) ;;;
  modify (set_a2 (Some a2')) ;;;
  modify (set_secret1 (Some secret1')) ;;;
  let r1' := rnd_r1 in
  let c2' := rnd_c2 in
  let z2' := rnd_z2 in
  modify (set_r1 (Some r1')) ;;;
  modify (set_c2 (Some c2')) ;;;
  modify (set_z2 (Some z2')) ;;;
  d <- gets DLog ;;
  let '(x1X, x1Y) := dlog.Exponentiate d (types.X a1') (types.Y a1') r1' in
  let '(x2X, x2Y) := dlog.Exponentiate d (types.X a2') (types.Y a2') z2' in
  let '(b2ToC2X, b2ToC2Y) := dlog.Exponentiate d (types.X b2) (types.Y b2) c2' in
  let '(b2ToC2InvX, b2ToC2InvY) := dlog.Inverse d b2ToC2X b2ToC2Y in
  let '(x2X, x2Y) := dlog.Multiply d x2X x2Y b2ToC2InvX b2ToC2InvY in

  let x1 := types.NewECGroupElement x1X x1Y in
  let x2 := types.NewECGroupElement x2X x2Y in

  (* we need to make sure that the order does not reveal which secret
     we do know: *)
  let ord' := rnd_ord in
  let triple1 := types.NewECTriple x1 a1' b1 in
  let triple2 := types.NewECTriple x2 a2' b2 in

  if big.Cmp ord' 0 =? 0 then
    modify (set_ord 0) ;;;
    ret (triple1, triple2)
  else
    modify (set_ord 1) ;;;
    ret (triple2, triple1).

(** The four results are [*big.Int]; the stored [c2] and [z2] are read
    through when they are returned. *)
Definition GetProofData (challenge : Z) : M t (Z * Z * Z * Z) :=
  c2p <- gets c2 ;;
  c2' <- deref c2p ;;
  let c1 := big.Xor c2' challenge in

  s1p <- gets secret1 ;;
  s1 <- deref s1p ;;
  let z1 := c1 * s1 in
  r1p <- gets r1 ;;
  r1' <- deref r1p ;;
  let z1 := z1 + r1' in
  d <- gets DLog ;;
  z1 <- (fun p => call z <- big.Mod z1 (dlog.GetOrderOfSubgroup d) ;;
                  Returned (z, p)) ;;

  z2p <- gets z2 ;;
  z2' <- deref z2p ;;
  o <- gets ord ;;
  if o =? 0 then
    ret (c1, z1, c2', z2')
  else
    ret (c2', z2', c1, z1).

End PartialECDLogProver.

Definition NewPartialECDLogProver (d : dlog.ECDLog) : PartialECDLogProver.t :=
  PartialECDLogProver.Build d None None None None None None 0.

Module PartialECDLogVerifier.

Record t : Type := Build {
  DLog : dlog.ECDLog;
  triple1 : option types.ECTriple; (* contains x1, a1, b1 *)
  triple2 : option types.ECTriple; (* contains x2, a2, b2 *)
  challenge : option Z
}.

Definition set_triple1 (v : option types.ECTriple) (s : t) : t :=
  Build (DLog s) v (triple2 s) (challenge s).
Definition set_triple2 (v : option types.ECTriple) (s : t) : t :=
  Build (DLog s) (triple1 s) v (challenge s).
Definition set_challenge (v : option Z) (s : t) : t :=
  Build (DLog s) (triple1 s) (triple2 s) v.

Definition SetProofRandomData (triple1' triple2' : types.ECTriple) : M t unit :=
  modify (set_triple1 (Some triple1')) ;;;
  modify (set_triple2 (Some triple2')).

(** [rnd] is the value sampled by
    [common.GetRandomInt(verifier.DLog.GetOrderOfSubgroup())]. *)
Definition GetChallenge (rnd : Z) : M t Z :=
  let challenge' := rnd in
  modify (set_challenge (Some challenge')) ;;;
  ret challenge'.

Definition verifyTriple (triple : option types.ECTriple) (challenge' z : Z)
  : M t bool :=
  d <- gets DLog ;;
  tr <- deref triple ;;
  let '(left1, left2) :=
    dlog.Exponentiate d (types.X (types.B tr)) (types.Y (types.B tr)) z in
  let '(r1, r2) :=
    dlog.Exponentiate d (types.X (types.C tr)) (types.Y (types.C tr)) challenge' in
  let '(right1, right2) :=
    dlog.Multiply d r1 r2 (types.X (types.A tr)) (types.Y (types.A tr)) in
  ret ((big.Cmp left1 right1 =? 0) && (big.Cmp left2 right2 =? 0)).

Definition Verify (c1 z1 c2 z2 : Z) : M t bool :=
  let c := big.Xor c1 c2 in
  chp <- gets challenge ;;
  ch <- deref chp ;;
  if negb (big.Cmp c ch =? 0) then
    ret false
  else
    t1 <- gets triple1 ;;
    verified1 <- verifyTriple t1 c1 z1 ;;
    t2 <- gets triple2 ;;
    verified2 <- verifyTriple t2 c2 z2 ;;
    ret (verified1 && verified2).

End PartialECDLogVerifier.

Definition NewPartialECDLogVerifier (d : dlog.ECDLog) : PartialECDLogVerifier.t :=
  PartialECDLogVerifier.Build d None None None.

(** ProvePartialECDLogKnowledge demonstrates how prover can prove that he
    knows dlog_a2(b2) and the verifier does not know whether knowledge of
    dlog_a1(b1) or knowledge of dlog_a2(b2) was proved.
    The last five arguments are the values sampled along the run. *)
Definition ProvePartialECDLogKnowledge (d : dlog.ECDLog) (secret1 : Z)
    (a1 a2 b2 : types.ECGroupElement)
    (rnd_r1 rnd_c2 rnd_z2 rnd_ord rnd_e : Z) : outcome bool :=
  let prover := NewPartialECDLogProver d in
  let verifier := NewPartialECDLogVerifier d in

  let '(b1X, b1Y) :=
    dlog.Exponentiate (PartialECDLogProver.DLog prover)
                      (types.X a1) (types.Y a1) secret1 in
  let b1 := types.NewECGroupElement b1X b1Y in
  call ((triple1, triple2), prover) <-
    PartialECDLogProver.GetProofRandomData secret1 a1 b1 a2 b2
      rnd_r1 rnd_c2 rnd_z2 rnd_ord prover ;;

  call (_, verifier) <-
    PartialECDLogVerifier.SetProofRandomData triple1 triple2 verifier ;;
  call (challenge, verifier) <-
    PartialECDLogVerifier.GetChallenge rnd_e verifier ;;

  call ((c1, z1, c2, z2), prover) <-
    PartialECDLogProver.GetProofData challenge prover ;;
  call (verified, verifier) <-
    PartialECDLogVerifier.Verify c1 z1 c2 z2 verifier ;;

  Returned verified.

End dlogproofs.

(* ===================================================================== *)
(** ** protobuf: the wire messages the two handlers build and read        *)
(* ===================================================================== *)

Module pb.

(** Valid schema types (enums.proto). *)
Inductive SchemaType : Type :=
| PEDERSEN | PEDERSEN_EC | SCHNORR | SCHNORR_EC | CSPAILLIER
| PSEUDONYMSYS_CA | PSEUDONYMSYS_NYM_GEN | PSEUDONYMSYS_ISSUE_CREDENTIAL
| PSEUDONYMSYS_TRANSFER_CREDENTIAL | PSEUDONYMSYS_CA_EC
| PSEUDONYMSYS_NYM_GEN_EC | PSEUDONYMSYS_ISSUE_CREDENTIAL_EC
| PSEUDONYMSYS_TRANSFER_CREDENTIAL_EC | QR | QNR.

(** Valid schema variants (enums.proto); SIGMA is the default. *)
Inductive SchemaVariant : Type :=
| SchemaVariant_SIGMA | SchemaVariant_ZKP | SchemaVariant_ZKPOK.

Definition bytes : Type := list byte.

Inductive ECGroupElement : Type :=
| MkECGroupElement (X Y : bytes).

(** The alternatives of [Message.Content] that the handlers use, with the
    fields they set or read. *)
Inductive Content : Type :=
| Message_EcGroupElement (e : ECGroupElement)
| Message_SchnorrEcProofRandomData (X A B : option ECGroupElement)
| Message_SchnorrProofRandomData (X A B : bytes)
| Message_PedersenDecommitment (X R : bytes)
| Message_SchnorrProofData (Z Trapdoor : bytes)
| Message_Status (Success : bool)
| Message_Bigint (X1 : bytes)
| Message_PseudonymsysCaCertificate (BlindedA BlindedB R S : bytes).

Record Message : Type := MkMessage {
  ClientId : Z;
  Schema : SchemaType;
  Variant : SchemaVariant;
  GetContent : option Content
}.

(** A struct literal that sets [Content] only: the other fields take their
    zero values. *)
Definition WithContent (c : Content) : Message :=
  MkMessage 0 PEDERSEN SchemaVariant_SIGMA (Some c).

(** The generated getters are nil-safe: they answer nil on a nil message
    and on a message with another content. *)
Definition GetEcGroupElement (m : option Message) : option ECGroupElement :=
  match m with
  | Some (MkMessage _ _ _ (Some (Message_EcGroupElement e))) => Some e
  | _ => None
  end.

Definition GetSchnorrEcProofRandomData (m : option Message)
  : option (option ECGroupElement * option ECGroupElement * option ECGroupElement) :=
  match m with
  | Some (MkMessage _ _ _ (Some (Message_SchnorrEcProofRandomData x a b))) =>
      Some (x, a, b)
  | _ => None
  end.

Definition GetSchnorrProofData (m : option Message) : option (bytes * bytes) :=
  match m with
  | Some (MkMessage _ _ _ (Some (Message_SchnorrProofData z t))) => Some (z, t)
  | _ => None
  end.

Definition GetBigint (m : option Message) : option bytes :=
  match m with
  | Some (MkMessage _ _ _ (Some (Message_Bigint x1))) => Some x1
  | _ => None
  end.

Definition GetPseudonymsysCaCertificate (m : option Message)
  : option (bytes * bytes * bytes * bytes) :=
  match m with
  | Some (MkMessage _ _ _ (Some (Message_PseudonymsysCaCertificate a b r s))) =>
      Some (a, b, r, s)
  | _ => None
  end.

End pb.

(* ===================================================================== *)
(** ** Handlers as processes over a message stream                        *)
(* ===================================================================== *)

Module stream.

Definition error : Type := string.

(** A handler body: it ends with a result or a panic, or performs one
    stream operation and goes on with what the operation answers.
    [Send] is [s.send(msg, stream)], [Receive] is [s.receive(stream)],
    [Exchange] is the client's [c.getResponseTo(msg)]. *)
Inductive Proc (A : Type) : Type :=
| Done (a : A)
| Crash (p : panic)
| Send (m : pb.Message) (k : option error -> Proc A)
| Receive (k : option pb.Message * option error -> Proc A)
| Exchange (m : pb.Message) (k : option pb.Message * option error -> Proc A)
| OpenStream (k : unit -> Proc A)
| CloseStream (k : unit -> Proc A).
Arguments Done {A} a.
Arguments Crash {A} p.
Arguments Send {A} m k.
Arguments Receive {A} k.
Arguments Exchange {A} m k.
Arguments OpenStream {A} k.
Arguments CloseStream {A} k.

Fixpoint pbind {A B} (p : Proc A) (f : A -> Proc B) : Proc B :=
  match p with
  | Done a => f a
  | Crash e => Crash e
  | Send m k => Send m (fun r => pbind (k r) f)
  | Receive k => Receive (fun r => pbind (k r) f)
  | Exchange m k => Exchange m (fun r => pbind (k r) f)
  | OpenStream k => OpenStream (fun r => pbind (k r) f)
  | CloseStream k => CloseStream (fun r => pbind (k r) f)
  end.

(** [defer cleanup]: the cleanup runs when the body ends, by a return or
    by a panic. *)
Fixpoint deferred {A} (cleanup : forall B, Proc B -> Proc B) (p : Proc A) : Proc A :=
  match p with
  | Done a => cleanup A (Done a)
  | Crash e => cleanup A (Crash e)
  | Send m k => Send m (fun r => deferred cleanup (k r))
  | Receive k => Receive (fun r => deferred cleanup (k r))
  | Exchange m k => Exchange m (fun r => deferred cleanup (k r))
  | OpenStream k => OpenStream (fun r => deferred cleanup (k r))
  | CloseStream k => CloseStream (fun r => deferred cleanup (k r))
  end.

Definition send (m : pb.Message) : Proc (option error) := Send m Done.
Definition receive : Proc (option pb.Message * option error) := Receive Done.
Definition getResponseTo (m : pb.Message)
  : Proc (option pb.Message * option error) := Exchange m Done.
Definition openStream : Proc unit := OpenStream Done.
Definition closeStream {B} (p : Proc B) : Proc B := CloseStream (fun _ => p).

(** Running a step of plain Go code inside a handler. *)
Definition lift {A} (o : outcome A) : Proc A :=
  match o with
  | Returned a => Done a
  | Panicked p => Crash p
  end.

(** [sent p m]: on some run of [p] (some answers of the peer), the message
    [m] is handed to the stream. *)
Inductive sent {A} : Proc A -> pb.Message -> Prop :=
| sent_Send m k : sent (Send m k) m
| sent_Exchange m k : sent (Exchange m k) m
| sent_after_Send m k r m' : sent (k r) m' -> sent (Send m k) m'
| sent_after_Receive k r m' : sent (k r) m' -> sent (Receive k) m'
| sent_after_Exchange m k r m' : sent (k r) m' -> sent (Exchange m k) m'
| sent_after_OpenStream k r m' : sent (k r) m' -> sent (OpenStream k) m'
| sent_after_CloseStream k r m' : sent (k r) m' -> sent (CloseStream k) m'.

End stream.

Declare Scope proc_scope.
Delimit Scope proc_scope with proc.
Notation "x <- m ;; k" := (stream.pbind m (fun x => k))
  (at level 61, m at next level, right associativity) : proc_scope.
Notation "' pat <- m ;; k" :=
  (stream.pbind m (fun x => match x with pat => k end))
  (at level 61, pat pattern, m at next level, right associativity) : proc_scope.

(* ===================================================================== *)
(** ** server: the Schnorr-EC handler (server/schnorr_ec.go)              *)
(* ===================================================================== *)

Module server.
Import stream.
Local Open Scope proc_scope.

Section SchnorrEC.
(** [dlogproofs.SchnorrECVerifier] and the conversions of the [types]
    package are used by the handler but defined elsewhere; the handler
    is written against them. *)
Variable Curve : Type.
Variable SchnorrECVerifier : Type.
Variable NewSchnorrECVerifier : Curve -> types.ProtocolType -> SchnorrECVerifier.
Variable GetOpeningMsgReply :
  types.ECGroupElement -> M SchnorrECVerifier types.ECGroupElement.
Variable SetProofRandomData :
  types.ECGroupElement -> types.ECGroupElement -> types.ECGroupElement ->
  M SchnorrECVerifier unit.
Variable GetChallenge : M SchnorrECVerifier (Z * option Z).
Variable Verify : Z -> Z -> M SchnorrECVerifier bool.
Variable ToECGroupElement : option pb.ECGroupElement -> outcome types.ECGroupElement.
Variable ToPbECGroupElement : types.ECGroupElement -> pb.ECGroupElement.

(** The block run for ZKP and ZKPOK before the three moves: it either
    leaves the handler with an error or goes on with the next request. *)
Definition openingRound (req : option pb.Message) (verifier : SchnorrECVerifier)
  : Proc (error + option pb.Message * SchnorrECVerifier) :=
  let ecge := pb.GetEcGroupElement req in
  h <- lift (ToECGroupElement ecge) ;;
  '(commitment, verifier) <- lift (GetOpeningMsgReply h verifier) ;;
  let pb_ecge := ToPbECGroupElement commitment in

  let resp := pb.WithContent (pb.Message_EcGroupElement pb_ecge) in

  err <- send resp ;;
  match err with
  | Some e => Done (inl e)
  | None =>
      '(req, err) <- receive ;;
      match err with
      | Some e => Done (inl e)
      | None => Done (inr (req, verifier))
      end
  end.

Definition SchnorrEC (req : pb.Message) (protocolType : types.ProtocolType)
    (curve : Curve) : Proc (option error) :=
  let verifier := NewSchnorrECVerifier curve protocolType in
  first <- (if negb (types.ProtocolType_eqb protocolType types.Sigma) then
              (* ZKP, ZKPOK *)
              openingRound (Some req) verifier
            else Done (inr (Some req, verifier))) ;;
  match first with
  | inl e => Done (Some e)
  | inr (req, verifier) =>
      let sProofRandData := pb.GetSchnorrEcProofRandomData req in

      '(pX, pA, pB) <- lift (match sProofRandData with
                             | Some d => Returned d
                             | None => Panicked NilPointerDereference
                             end) ;;
      x <- lift (ToECGroupElement pX) ;;
      a <- lift (ToECGroupElement pA) ;;
      b <- lift (ToECGroupElement pB) ;;
      '(_, verifier) <- lift (SetProofRandomData x a b verifier) ;;

      (* r2 is nil in sigma protocol *)
      '((challenge, r2), verifier) <- lift (GetChallenge verifier) ;;
      let r2 := match r2 with
                | None => 0
                | Some r => r
                end in

      (* pb.PedersenDecommitment is used also for SigmaProtocol (where
         there is no r2) *)
      let resp := pb.WithContent
                    (pb.Message_PedersenDecommitment
                       (big.Bytes challenge) (big.Bytes r2)) in

      err <- send resp ;;
      match err with
      | Some e => Done (Some e)
      | None =>
          '(req, err) <- receive ;;
          match err with
          | Some e => Done (Some e)
          | None =>
              let sProofData := pb.GetSchnorrProofData req in
              '(pZ, pTrapdoor) <- lift (match sProofData with
                                        | Some d => Returned d
                                        | None => Panicked NilPointerDereference
                                        end) ;;
              let z := big.SetBytes pZ in
              let trapdoor := big.SetBytes pTrapdoor in
              '(valid, verifier) <- lift (Verify z trapdoor verifier) ;;

              let resp := pb.WithContent (pb.Message_Status valid) in

              err <- send resp ;;
              match err with
              | Some e => Done (Some e)
              | None => Done None
              end
          end
      end
  end.

End SchnorrEC.

End server.

(* ===================================================================== *)
(** ** client: the pseudonym-system CA client                             *)
(* ===================================================================== *)

Module pseudonymsys.

Record Pseudonym : Type := NewPseudonym { A : Z; B : Z }.

Record CACertificate : Type := NewCACertificate {
  BlindedA : Z;
  BlindedB : Z;
  R : Z;
  S : Z
}.

End pseudonymsys.

Module client.
Import stream.
Local Open Scope proc_scope.

Section PseudonymsysCAClient.
(** [dlogproofs.SchnorrProver] is defined elsewhere; the client holds one
    built by [NewSchnorrProver(group, types.Sigma)]. *)
Variable SchnorrProver : Type.
Variable GetProofRandomData : Z -> Z -> M SchnorrProver Z.
Variable GroupExp : SchnorrProver -> Z -> Z -> Z.
Variable GetProofData : Z -> M SchnorrProver (Z * option Z).

Record PseudonymsysCAClient : Type := Build {
  id : Z;
  prover : SchnorrProver
}.

(** The body of ObtainCertificate between [openStream] and the deferred
    [closeStream]. *)
Definition obtainCertificateBody (c : PseudonymsysCAClient)
    (userSecret : Z) (nym : pseudonymsys.Pseudonym)
  : Proc (option pseudonymsys.CACertificate * option error) :=
  '(x, prover) <- lift (GetProofRandomData userSecret (pseudonymsys.A nym) (prover c)) ;;
  let b := GroupExp prover (pseudonymsys.A nym) userSecret in
  let pRandomData :=
    pb.Message_SchnorrProofRandomData
      (big.Bytes x) (big.Bytes (pseudonymsys.A nym)) (big.Bytes b) in

  let initMsg :=
    pb.MkMessage (id c) pb.PSEUDONYMSYS_CA pb.SchemaVariant_SIGMA
                 (Some pRandomData) in
  '(resp, err) <- getResponseTo initMsg ;;
  match err with
  | Some e => Done (None, Some e)
  | None =>
      let ch := pb.GetBigint resp in
      x1 <- lift (match ch with
                  | Some x1 => Returned x1
                  | None => Panicked NilPointerDereference
                  end) ;;
      let challenge := big.SetBytes x1 in

      '((z, _), prover) <- lift (GetProofData challenge prover) ;;
      let trapdoor := 0 in
      let msg := pb.WithContent
                   (pb.Message_SchnorrProofData
                      (big.Bytes z) (big.Bytes trapdoor)) in

      '(resp, err) <- getResponseTo msg ;;
      match err with
      | Some e => Done (None, Some e)
      | None =>
          let cert := pb.GetPseudonymsysCaCertificate resp in
          '(cA, cB, cR, cS) <- lift (match cert with
                                     | Some d => Returned d
                                     | None => Panicked NilPointerDereference
                                     end) ;;
          let certificate :=
            pseudonymsys.NewCACertificate
              (big.SetBytes cA) (big.SetBytes cB)
              (big.SetBytes cR) (big.SetBytes cS) in
          Done (Some certificate, None)
      end
  end.

(** ObtainCertificate provides a certificate from trusted CA to the
    user.  Note that CA needs to know the user.  The certificate is
    then used for registering pseudonym (nym). *)
Definition ObtainCertificate (c : PseudonymsysCAClient)
    (userSecret : Z) (nym : pseudonymsys.Pseudonym)
  : Proc (option pseudonymsys.CACertificate * option error) :=
  _ <- openStream ;;
  deferred (@closeStream) (obtainCertificateBody c userSecret nym).

End PseudonymsysCAClient.

End client.

(* ===================================================================== *)
(** ** Sequences of method calls on one object                            *)
(* ===================================================================== *)

(** What a caller can do with a receiver or a partial-proof verifier once it
    is built: any sequence of calls of its methods, each with any
    arguments.  A panic in one call ends the sequence. *)
Module calls.

Inductive ReceiverCall : Type :=
| CallGetH
| CallGetTrapdoor
| CallSetCommitment (el : types.ECGroupElement)
| CallCheckDecommitment (r val : Z).

Definition receiverCall (c : ReceiverCall)
  : M commitments.PedersenECReceiver.t unit :=
  match c with
  | CallGetH => commitments.PedersenECReceiver.GetH ;;; ret tt
  | CallGetTrapdoor => commitments.PedersenECReceiver.GetTrapdoor ;;; ret tt
  | CallSetCommitment el => commitments.PedersenECReceiver.SetCommitment el
  | CallCheckDecommitment r val =>
      commitments.PedersenECReceiver.CheckDecommitment r val ;;; ret tt
  end.

Fixpoint receiverCalls (cs : list ReceiverCall)
  : M commitments.PedersenECReceiver.t unit :=
  match cs with
  | [] => ret tt
  | c :: cs' => receiverCall c ;;; receiverCalls cs'
  end.

(** [CallGetChallenge rnd]: a call of GetChallenge that samples [rnd]. *)
Inductive VerifierCall : Type :=
| CallSetProofRandomData (triple1 triple2 : types.ECTriple)
| CallGetChallenge (rnd : Z)
| CallVerify (c1 z1 c2 z2 : Z).

Definition verifierCall (c : VerifierCall)
  : M dlogproofs.PartialECDLogVerifier.t unit :=
  match c with
  | CallSetProofRandomData t1 t2 =>
      dlogproofs.PartialECDLogVerifier.SetProofRandomData t1 t2
  | CallGetChallenge rnd =>
      dlogproofs.PartialECDLogVerifier.GetChallenge rnd ;;; ret tt
  | CallVerify c1 z1 c2 z2 =>
      dlogproofs.PartialECDLogVerifier.Verify c1 z1 c2 z2 ;;; ret tt
  end.

Fixpoint verifierCalls (cs : list VerifierCall)
  : M dlogproofs.PartialECDLogVerifier.t unit :=
  match cs with
  | [] => ret tt
  | c :: cs' => verifierCall c ;;; verifierCalls cs'
  end.

Definition isSetProofRandomData (c : VerifierCall) : bool :=
  match c with
  | CallSetProofRandomData _ _ => true
  | _ => false
  end.

Definition isGetChallenge (c : VerifierCall) : bool :=
  match c with
  | CallGetChallenge _ => true
  | _ => false
  end.

End calls.

(* ===================================================================== *)
(** ** A small concrete group: the curve y^2 = x^3 + 2x + 2 over F_17     *)
(* ===================================================================== *)

(** The curve has 19 points, the point at infinity among them, so every
    other point generates it.  As in Go's crypto/elliptic, the point at infinity is
    written (0, 0) and a scalar is used through its magnitude.  The group
    serves to run the embedded code on concrete inputs. *)
Module toy.

Definition p : Z := 17.
Definition q : Z := 19.

Definition inv_mod (z : Z) : Z := (z ^ (p - 2)) mod p.

Definition isInfinity (x y : Z) : bool := (x =? 0) && (y =? 0).

Definition Add (x1 y1 x2 y2 : Z) : Z * Z :=
  if isInfinity x1 y1 then (x2, y2)
  else if isInfinity x2 y2 then (x1, y1)
  else if x1 =? x2 then
    if (y1 + y2) mod p =? 0 then (0, 0)
    else
      let lam := ((3 * x1 * x1 + 2) * inv_mod (2 * y1)) mod p in
      let x3 := (lam * lam - x1 - x2) mod p in
      (x3, (lam * (x1 - x3) - y1) mod p)
  else
    let lam := ((y2 - y1) * inv_mod (x2 - x1)) mod p in
    let x3 := (lam * lam - x1 - x2) mod p in
    (x3, (lam * (x1 - x3) - y1) mod p).

Definition Neg (x y : Z) : Z * Z :=
  if isInfinity x y then (0, 0) else (x, (- y) mod p).

Fixpoint ScalarMultNat (n : nat) (x y : Z) : Z * Z :=
  match n with
  | O => (0, 0)
  | S n' => let '(rx, ry) := ScalarMultNat n' x y in Add x y rx ry
  end.

Definition ScalarMult (x y k : Z) : Z * Z := ScalarMultNat (Z.abs_nat k) x y.

Definition curve : dlog.ECDLog := {|
  dlog.OrderOfSubgroup := q;
  dlog.Exponentiate := ScalarMult;
  dlog.ExponentiateBaseG := ScalarMult 5 1;
  dlog.Multiply := Add;
  dlog.Inverse := Neg
|}.

Definition G : types.ECGroupElement := types.NewECGroupElement 5 1.
Definition O : types.ECGroupElement := types.NewECGroupElement 0 0.

Definition elem_eqb (P Q : types.ECGroupElement) : bool :=
  (types.X P =? types.X Q) && (types.Y P =? types.Y Q).

(** The nineteen elements: k.G for k = 0 .. 18 (and 19.G = 0.G). *)
Definition points : list types.ECGroupElement :=
  map (fun k => dlog.exp curve G (Z.of_nat k)) (seq 0 19).

Definition on_curve (P : types.ECGroupElement) : Prop := In P points.

Definition mem (P : types.ECGroupElement) : bool := existsb (elem_eqb P) points.

Inductive Curve : Type := F17.

Definition NewECDLog (c : Curve) : dlog.ECDLog := curve.

(** A stand-in for the Schnorr verifier the server handler drives: it
    keeps the statement and the challenge, hands out a fixed challenge
    [e] (with commitment randomness [rc] outside the sigma protocol) and
    accepts iff a^z = x * b^e. *)
Record SchnorrECVerifier : Type := {
  protocolType : types.ProtocolType;
  stmt : option (types.ECGroupElement * types.ECGroupElement * types.ECGroupElement);
  challenge : option Z
}.

Definition NewSchnorrECVerifier (c : Curve) (pt : types.ProtocolType)
  : SchnorrECVerifier :=
  {| protocolType := pt; stmt := None; challenge := None |}.

Definition GetOpeningMsgReply (h : types.ECGroupElement)
  : M SchnorrECVerifier types.ECGroupElement :=
  ret (dlog.mul curve (dlog.baseExp curve 7) (dlog.exp curve h 3)).

Definition SetProofRandomData (x a b : types.ECGroupElement)
  : M SchnorrECVerifier unit :=
  modify (fun v => {| protocolType := protocolType v;
                      stmt := Some (x, a, b);
                      challenge := challenge v |}).

Definition GetChallenge : M SchnorrECVerifier (Z * option Z) :=
  modify (fun v => {| protocolType := protocolType v;
                      stmt := stmt v;
                      challenge := Some 7 |}) ;;;
  pt <- gets protocolType ;;
  if types.ProtocolType_eqb pt types.Sigma then ret (7, None)
  else ret (7, Some 3).

Definition Verify (z trapdoor : Z) : M SchnorrECVerifier bool :=
  st <- gets stmt ;;
  '(x, a, b) <- deref st ;;
  ch <- gets challenge ;;
  e <- deref ch ;;
  ret (elem_eqb (dlog.exp curve a z) (dlog.mul curve x (dlog.exp curve b e))).

Definition ToECGroupElement (e : option pb.ECGroupElement)
  : outcome types.ECGroupElement :=
  match e with
  | Some (pb.MkECGroupElement x y) =>
      Returned (types.NewECGroupElement (big.SetBytes x) (big.SetBytes y))
  | None => Panicked NilPointerDereference
  end.

Definition ToPbECGroupElement (e : types.ECGroupElement) : pb.ECGroupElement :=
  pb.MkECGroupElement (big.Bytes (types.X e)) (big.Bytes (types.Y e)).

(** A stand-in for the Schnorr prover of the CA client, over the
    multiplicative group modulo 23: the state is the nonce and secret. *)
Definition SchnorrProver : Type := (Z * Z)%type.

Definition GetProofRandomData (secret a : Z) : M SchnorrProver Z :=
  modify (fun _ => (5, secret)) ;;;
  ret ((a ^ 5) mod 23).

Definition GroupExp (_ : SchnorrProver) (a x : Z) : Z := (a ^ x) mod 23.

Definition GetProofData (challenge : Z) : M SchnorrProver (Z * option Z) :=
  st <- gets (fun s => s) ;;
  ret ((fst st + challenge * snd st) mod 11, None).

End toy.

(* ===================================================================== *)
(** ** Concrete objects on the small curve                                *)
(* ===================================================================== *)

Module concrete.
Import toy.

Definition P3 : types.ECGroupElement := dlog.exp curve G 3.

(** A committer that was given h = 6.G, and the receiver that made it. *)
Definition receiver : commitments.PedersenECReceiver.t :=
  commitments.NewPedersenECReceiver Curve NewECDLog F17 6.

Definition committer : commitments.PedersenECCommitter.t :=
  commitments.PedersenECCommitter.set_h
    (commitments.PedersenECReceiver.h receiver)
    (commitments.NewPedersenECCommitter Curve NewECDLog F17).

(** 4.G + 9.(6.G) = 58.G = 1.G *)
Definition receiverWithCommitment : commitments.PedersenECReceiver.t :=
  commitments.PedersenECReceiver.set_commitment (Some G) receiver.

Definition tripleG : types.ECTriple := types.NewECTriple G G P3.

Definition verifier : dlogproofs.PartialECDLogVerifier.t :=
  dlogproofs.PartialECDLogVerifier.Build curve (Some tripleG) (Some tripleG) (Some 9).

Definition request : pb.Message :=
  pb.MkMessage 1 pb.SCHNORR_EC pb.SchemaVariant_SIGMA
    (Some (pb.Message_SchnorrEcProofRandomData
             (Some (ToPbECGroupElement P3))
             (Some (ToPbECGroupElement G))
             (Some (ToPbECGroupElement P3)))).

Definition caClient : client.PseudonymsysCAClient SchnorrProver :=
  client.Build SchnorrProver 1 (0, 0).

Definition SchnorrEC :=
  server.SchnorrEC Curve SchnorrECVerifier NewSchnorrECVerifier
    GetOpeningMsgReply SetProofRandomData GetChallenge Verify
    ToECGroupElement ToPbECGroupElement.

Definition ObtainCertificate :=
  client.ObtainCertificate SchnorrProver GetProofRandomData GroupExp GetProofData.

End concrete.

(* ===================================================================== *)
(** ** Runs of a handler against a peer                                   *)
(* ===================================================================== *)

(** What a run of a handler shows on the stream, in order, and what the
    stream answers.  A run is driven by the list of answers: the error of
    each send, the message and error of each receive or exchange. *)
Module run.
Import stream.

Inductive Event : Type :=
| EvOpenStream
| EvCloseStream
| EvSend (m : pb.Message)
| EvReceive
| EvExchange (m : pb.Message).

Inductive Answer : Type :=
| AnsSend (err : option error)
| AnsMessage (resp : option pb.Message) (err : option error).

(** The events of the run and its end; the end is [None] when the answers
    run out, or do not fit the operation, before the handler is done. *)
Fixpoint exec {A} (p : Proc A) (answers : list Answer)
  : list Event * option (outcome A) :=
  match p with
  | Done a => ([], Some (Returned a))
  | Crash e => ([], Some (Panicked e))
  | Send m k =>
      match answers with
      | AnsSend err :: rest =>
          let '(evs, r) := exec (k err) rest in (EvSend m :: evs, r)
      | _ => ([EvSend m], None)
      end
  | Receive k =>
      match answers with
      | AnsMessage resp err :: rest =>
          let '(evs, r) := exec (k (resp, err)) rest in (EvReceive :: evs, r)
      | _ => ([EvReceive], None)
      end
  | Exchange m k =>
      match answers with
      | AnsMessage resp err :: rest =>
          let '(evs, r) := exec (k (resp, err)) rest in (EvExchange m :: evs, r)
      | _ => ([EvExchange m], None)
      end
  | OpenStream k =>
      let '(evs, r) := exec (k tt) answers in (EvOpenStream :: evs, r)
  | CloseStream k =>
      let '(evs, r) := exec (k tt) answers in (EvCloseStream :: evs, r)
  end.

(** The messages handed to the stream, in order. *)
Fixpoint messages (evs : list Event) : list pb.Message :=
  match evs with
  | [] => []
  | EvSend m :: evs' => m :: messages evs'
  | EvExchange m :: evs' => m :: messages evs'
  | _ :: evs' => messages evs'
  end.

End run.

(* ===================================================================== *)
(** ** protobuf: the numbers of the enumerations (enums.proto)            *)
(* ===================================================================== *)

Module pbnum.

Definition SchemaType_number (s : pb.SchemaType) : Z :=
  match s with
  | pb.PEDERSEN => 0
  | pb.PEDERSEN_EC => 1
  | pb.SCHNORR => 2
  | pb.SCHNORR_EC => 3
  | pb.CSPAILLIER => 4
  | pb.PSEUDONYMSYS_CA => 5
  | pb.PSEUDONYMSYS_NYM_GEN => 6
  | pb.PSEUDONYMSYS_ISSUE_CREDENTIAL => 7
  | pb.PSEUDONYMSYS_TRANSFER_CREDENTIAL => 8
  | pb.PSEUDONYMSYS_CA_EC => 9
  | pb.PSEUDONYMSYS_NYM_GEN_EC => 10
  | pb.PSEUDONYMSYS_ISSUE_CREDENTIAL_EC => 11
  | pb.PSEUDONYMSYS_TRANSFER_CREDENTIAL_EC => 12
  | pb.QR => 13
  | pb.QNR => 14
  end.

Definition SchemaVariant_number (v : pb.SchemaVariant) : Z :=
  match v with
  | pb.SchemaVariant_SIGMA => 0
  | pb.SchemaVariant_ZKP => 1
  | pb.SchemaVariant_ZKPOK => 2
  end.

End pbnum.

(* ===================================================================== *)
(** ** Sequences of method calls on a prover                              *)
(* ===================================================================== *)

Module provercalls.

(** A call of GetProofRandomData carries its arguments and its four
    samples. *)
Inductive ProverCall : Type :=
| CallGetProofRandomData (secret1 : Z) (a1 b1 a2 b2 : types.ECGroupElement)
    (rnd_r1 rnd_c2 rnd_z2 rnd_ord : Z)
| CallGetProofData (challenge : Z).

Definition proverCall (c : ProverCall) : M dlogproofs.PartialECDLogProver.t unit :=
  match c with
  | CallGetProofRandomData secret1 a1 b1 a2 b2 r1 c2 z2 ord =>
      dlogproofs.PartialECDLogProver.GetProofRandomData
        secret1 a1 b1 a2 b2 r1 c2 z2 ord ;;; ret tt
  | CallGetProofData challenge =>
      dlogproofs.PartialECDLogProver.GetProofData challenge ;;; ret tt
  end.

Fixpoint proverCalls (cs : list ProverCall) : M dlogproofs.PartialECDLogProver.t unit :=
  match cs with
  | [] => ret tt
  | c :: cs' => proverCall c ;;; proverCalls cs'
  end.

Definition isGetProofRandomData (c : ProverCall) : bool :=
  match c with
  | CallGetProofRandomData _ _ _ _ _ _ _ _ _ => true
  | CallGetProofData _ => false
  end.

(** The prover holds the secret and its three samples. *)
Definition proverReady (p : dlogproofs.PartialECDLogProver.t) : bool :=
  negb (isNil (dlogproofs.PartialECDLogProver.secret1 p))
  && negb (isNil (dlogproofs.PartialECDLogProver.r1 p))
  && negb (isNil (dlogproofs.PartialECDLogProver.c2 p))
  && negb (isNil (dlogproofs.PartialECDLogProver.z2 p)).

End provercalls.

Module receivercalls.

(** The argument of the last SetCommitment of a sequence of calls, or
    [init] when there is none. *)
Fixpoint lastCommitment (cs : list calls.ReceiverCall)
    (init : option types.ECGroupElement) : option types.ECGroupElement :=
  match cs with
  | [] => init
  | calls.CallSetCommitment el :: cs' => lastCommitment cs' (Some el)
  | _ :: cs' => lastCommitment cs' init
  end.

End receivercalls.

(* ===================================================================== *)
(** ** More concrete objects on the small curve                           *)
(* ===================================================================== *)

Module samples.
Import toy.

(** The transcript of an honest run: secret 7 for (G, 7.G), second
    statement (G, 3.G), samples r1 = 5, c2 = 11, z2 = 13, ord = 0. *)
Definition P7 : types.ECGroupElement := dlog.exp curve G 7.

Definition honestTriple1 : types.ECTriple :=
  types.NewECTriple (dlog.exp curve G 5) G P7.

Definition honestTriple2 : types.ECTriple :=
  types.NewECTriple
    (dlog.mul curve (dlog.exp curve G 13)
       (dlog.inv curve (dlog.exp curve concrete.P3 11)))
    G concrete.P3.

Definition honestVerifier (e : Z) : dlogproofs.PartialECDLogVerifier.t :=
  dlogproofs.PartialECDLogVerifier.Build curve
    (Some honestTriple1) (Some honestTriple2) (Some e).

Definition honestProver : dlogproofs.PartialECDLogProver.t :=
  dlogproofs.PartialECDLogProver.Build curve
    (Some 7) (Some G) (Some G) (Some 5) (Some 11) (Some 13) 0.

(** Messages of a peer of the server handler and of the CA client. *)
Definition proofDataMsg : pb.Message :=
  pb.WithContent (pb.Message_SchnorrProofData (big.Bytes 5) (big.Bytes 0)).

Definition openingRequest : pb.Message :=
  pb.MkMessage 1 pb.SCHNORR_EC pb.SchemaVariant_ZKP
    (Some (pb.Message_EcGroupElement (ToPbECGroupElement G))).

Definition statusMsg : pb.Message := pb.WithContent (pb.Message_Status true).

Definition bigintMsg : pb.Message :=
  pb.WithContent (pb.Message_Bigint (big.Bytes 4)).

Definition certificateMsg : pb.Message :=
  pb.WithContent
    (pb.Message_PseudonymsysCaCertificate
       (big.Bytes 2) (big.Bytes 3) (big.Bytes 5) (big.Bytes 7)).

Definition nym : pseudonymsys.Pseudonym := pseudonymsys.NewPseudonym 2 8.

End samples.

(* ===================================================================== *)
(** * Properties                                                          *)
(* ===================================================================== *)

(** ** The small curve is a cyclic group of order 19 *)

Module toy_facts.
Import toy.

Lemma elem_eqb_eq P Q : elem_eqb P Q = true -> P = Q.
Proof.
  destruct P as [x1 y1], Q as [x2 y2]; unfold elem_eqb; simpl.
  rewrite andb_true_iff, !Z.eqb_eq. intros [-> ->]. reflexivity.
Qed.

Lemma mem_on_curve P : mem P = true -> on_curve P.
Proof.
  unfold mem, on_curve. rewrite existsb_exists.
  intros [Q [HQ HE]]. apply elem_eqb_eq in HE. subst. exact HQ.
Qed.

Lemma all_points (f : types.ECGroupElement -> bool) :
  forallb f points = true -> forall P, on_curve P -> f P = true.
Proof. intros H P HP. rewrite forallb_forall in H. apply H, HP. Qed.

Lemma all_points2 (f : types.ECGroupElement -> types.ECGroupElement -> bool) :
  forallb (fun P => forallb (f P) points) points = true ->
  forall P Q, on_curve P -> on_curve Q -> f P Q = true.
Proof.
  intros H P Q HP HQ.
  apply (all_points (f P)); [| exact HQ].
  apply (all_points (fun P => forallb (f P) points)); assumption.
Qed.

Lemma zero_on_curve : on_curve O.
Proof. apply mem_on_curve. vm_compute. reflexivity. Qed.

Lemma mul_on_curve P Q :
  on_curve P -> on_curve Q -> on_curve (dlog.mul curve P Q).
Proof.
  intros HP HQ. apply mem_on_curve.
  apply (all_points2 (fun P Q => mem (dlog.mul curve P Q))); [| assumption ..].
  vm_compute. reflexivity.
Qed.

Lemma inv_on_curve P : on_curve P -> on_curve (dlog.inv curve P).
Proof.
  intros HP. apply mem_on_curve.
  apply (all_points (fun P => mem (dlog.inv curve P))); [| assumption].
  vm_compute. reflexivity.
Qed.

Lemma mul_comm P Q :
  on_curve P -> on_curve Q -> dlog.mul curve P Q = dlog.mul curve Q P.
Proof.
  intros HP HQ. apply elem_eqb_eq.
  apply (all_points2
           (fun P Q => elem_eqb (dlog.mul curve P Q) (dlog.mul curve Q P)));
    [| assumption ..].
  vm_compute. reflexivity.
Qed.

Lemma mul_assoc P Q R :
  on_curve P -> on_curve Q -> on_curve R ->
  dlog.mul curve P (dlog.mul curve Q R) = dlog.mul curve (dlog.mul curve P Q) R.
Proof.
  intros HP HQ HR. apply elem_eqb_eq.
  apply (all_points
           (fun R => elem_eqb (dlog.mul curve P (dlog.mul curve Q R))
                              (dlog.mul curve (dlog.mul curve P Q) R)));
    [| assumption].
  apply (all_points2
           (fun P Q => forallb
              (fun R => elem_eqb (dlog.mul curve P (dlog.mul curve Q R))
                                 (dlog.mul curve (dlog.mul curve P Q) R))
              points)); [| assumption ..].
  vm_compute. reflexivity.
Qed.

Lemma mul_zero P : on_curve P -> dlog.mul curve P O = P.
Proof.
  intros HP. apply elem_eqb_eq.
  apply (all_points (fun P => elem_eqb (dlog.mul curve P O) P)); [| assumption].
  vm_compute. reflexivity.
Qed.

Lemma mul_inv P : on_curve P -> dlog.mul curve P (dlog.inv curve P) = O.
Proof.
  intros HP. apply elem_eqb_eq.
  apply (all_points (fun P => elem_eqb (dlog.mul curve P (dlog.inv curve P)) O));
    [| assumption].
  vm_compute. reflexivity.
Qed.

(** Exponentiation is iterated multiplication. *)
Lemma exp_0 P : dlog.exp curve P 0 = O.
Proof. reflexivity. Qed.

Lemma exp_succ P k :
  0 <= k -> dlog.exp curve P (k + 1) = dlog.mul curve P (dlog.exp curve P k).
Proof.
  intros Hk. unfold dlog.exp, dlog.mul; simpl. unfold ScalarMult.
  replace (Z.abs_nat (k + 1)) with (S (Z.abs_nat k)) by lia.
  simpl. destruct (ScalarMultNat (Z.abs_nat k) (types.X P) (types.Y P)).
  reflexivity.
Qed.

Lemma exp_on_curve P k : on_curve P -> 0 <= k -> on_curve (dlog.exp curve P k).
Proof.
  intros HP Hk. revert k Hk.
  apply natlike_ind.
  - rewrite exp_0. apply zero_on_curve.
  - intros k Hk IH. unfold Z.succ. rewrite exp_succ by assumption.
    apply mul_on_curve; assumption.
Qed.

Lemma mul_zero_l P : on_curve P -> dlog.mul curve O P = P.
Proof.
  intros HP. rewrite mul_comm by (assumption || apply zero_on_curve).
  apply mul_zero, HP.
Qed.

Lemma exp_add P m n :
  on_curve P -> 0 <= m -> 0 <= n ->
  dlog.exp curve P (m + n) =
  dlog.mul curve (dlog.exp curve P m) (dlog.exp curve P n).
Proof.
  intros HP Hm Hn. revert m Hm.
  apply natlike_ind.
  - rewrite Z.add_0_l, exp_0, mul_zero_l; [reflexivity |].
    apply exp_on_curve; assumption.
  - intros m Hm IH. unfold Z.succ.
    replace (m + 1 + n) with ((m + n) + 1) by lia.
    rewrite !exp_succ by lia. rewrite IH.
    apply mul_assoc; try assumption; apply exp_on_curve; assumption.
Qed.

Lemma exp_zero_base k : 0 <= k -> dlog.exp curve O k = O.
Proof.
  revert k. apply natlike_ind.
  - reflexivity.
  - intros k Hk IH. unfold Z.succ. rewrite exp_succ by assumption.
    rewrite IH. reflexivity.
Qed.

Lemma exp_mul P m n :
  on_curve P -> 0 <= m -> 0 <= n ->
  dlog.exp curve (dlog.exp curve P m) n = dlog.exp curve P (m * n).
Proof.
  intros HP Hm Hn. revert n Hn.
  apply natlike_ind.
  - rewrite Z.mul_0_r. reflexivity.
  - intros n Hn IH. unfold Z.succ.
    rewrite exp_succ by assumption. rewrite IH.
    replace (m * (n + 1)) with (m + m * n) by lia.
    rewrite exp_add by (assumption || lia). reflexivity.
Qed.

Lemma exp_order P : on_curve P -> dlog.exp curve P q = O.
Proof.
  intros HP. apply elem_eqb_eq.
  apply (all_points (fun P => elem_eqb (dlog.exp curve P q) O)); [| assumption].
  vm_compute. reflexivity.
Qed.

Lemma exp_mod P k :
  on_curve P -> 0 <= k ->
  dlog.exp curve P (k mod dlog.OrderOfSubgroup curve) = dlog.exp curve P k.
Proof.
  intros HP Hk. change (dlog.OrderOfSubgroup curve) with q.
  assert (Hq : 0 < q) by (unfold q; lia).
  rewrite (Z.div_mod k q) at 2 by lia.
  pose proof (Z.mod_pos_bound k q Hq).
  pose proof (Z.div_pos k q Hk Hq).
  rewrite exp_add by (assumption || nia).
  rewrite <- exp_mul by (assumption || lia).
  rewrite exp_order by assumption.
  rewrite exp_zero_base by assumption.
  rewrite mul_zero_l; [reflexivity |].
  apply exp_on_curve; [assumption | lia].
Qed.

Lemma laws : dlog.Laws curve.
Proof.
  exact (dlog.Build_Laws curve on_curve O
           (eq_refl : (0 ?= dlog.OrderOfSubgroup curve) = Lt)
           zero_on_curve mul_on_curve inv_on_curve exp_on_curve
           mul_comm mul_assoc mul_zero mul_inv exp_add exp_mul exp_mod).
Defined.

Lemma G_on_curve : on_curve G.
Proof. apply mem_on_curve. vm_compute. reflexivity. Qed.

Lemma P3_on_curve : on_curve concrete.P3.
Proof. apply mem_on_curve. vm_compute. reflexivity. Qed.

End toy_facts.

(** ** Pedersen commitments *)

Ltac run := cbv [bind gets modify ret deref throw andThen].

Section BigFacts.

Lemma Cmp_eq_1 x y : (big.Cmp x y =? 1) = (y <? x).
Proof.
  unfold big.Cmp. rewrite Z.ltb_antisym, Z.leb_compare.
  destruct (x ?= y); reflexivity.
Qed.

Lemma Cmp_eq_m1 x y : (big.Cmp x y =? -1) = (x <? y).
Proof.
  unfold big.Cmp. unfold Z.ltb. destruct (x ?= y); reflexivity.
Qed.

Lemma Cmp_eq_0 x y : (big.Cmp x y =? 0) = (x =? y).
Proof.
  unfold big.Cmp. rewrite (Z.eqb_compare x y).
  destruct (x ?= y); reflexivity.
Qed.

End BigFacts.

Section Pedersen.
Import commitments.

(** The range check of GetCommitMsg, as the code has it: the value is
    rejected exactly when it is above q or below zero. *)
Lemma GetCommitMsg_rejected c val rnd :
  val < 0 \/ dlog.OrderOfSubgroup (PedersenECCommitter.dLog c) < val ->
  PedersenECCommitter.GetCommitMsg val rnd c =
  Returned ((None, Some rangeError), c).
Proof.
  intros H. unfold PedersenECCommitter.GetCommitMsg. run.
  rewrite Cmp_eq_1, Cmp_eq_m1.
  destruct (Z.ltb_spec (dlog.OrderOfSubgroup (PedersenECCommitter.dLog c)) val);
    [reflexivity |].
  destruct (Z.ltb_spec val 0); [reflexivity | lia].
Qed.

Lemma GetCommitMsg_accepted c val rnd :
  0 <= val <= dlog.OrderOfSubgroup (PedersenECCommitter.dLog c) ->
  PedersenECCommitter.GetCommitMsg val rnd c =
  match PedersenECCommitter.h c with
  | Some h =>
      Returned
        ((Some (dlog.mul (PedersenECCommitter.dLog c)
                  (dlog.baseExp (PedersenECCommitter.dLog c) val)
                  (dlog.exp (PedersenECCommitter.dLog c) h rnd)),
          None),
         PedersenECCommitter.Build (PedersenECCommitter.dLog c) (Some h)
           (Some val) (Some rnd))
  | None => Panicked NilPointerDereference
  end.
Proof.
  intros H. unfold PedersenECCommitter.GetCommitMsg. run.
  rewrite Cmp_eq_1, Cmp_eq_m1.
  destruct (Z.ltb_spec (dlog.OrderOfSubgroup (PedersenECCommitter.dLog c)) val);
    [lia |].
  destruct (Z.ltb_spec val 0); [lia |].
  destruct c as [d h cv r]; simpl.
  unfold dlog.mul, dlog.baseExp, dlog.exp, dlog.elem; simpl.
  destruct (dlog.ExponentiateBaseG d val) as [x1 y1].
  destruct h as [h |]; simpl; [| reflexivity].
  destruct (dlog.Exponentiate d (types.X h) (types.Y h) rnd) as [x2 y2]; simpl.
  destruct (dlog.Multiply d x1 y1 x2 y2) as [c1 c2]; reflexivity.
Qed.

(** C3, the code at the value q itself.  The range check compares with
    [Cmp(...) == 1], so the order q of the group, which is not in [0, q),
    passes it: with h set, GetCommitMsg(q) returns the commitment
    g^q * h^r and no error, and it stores q and r in the committer. *)
Theorem GetCommitMsg_order_accepted (c : PedersenECCommitter.t)
    (h : types.ECGroupElement) (rnd : Z) :
  let d := PedersenECCommitter.dLog c in
  let q := dlog.OrderOfSubgroup d in
  0 <= q ->
  PedersenECCommitter.h c = Some h ->
  PedersenECCommitter.GetCommitMsg q rnd c =
  Returned ((Some (dlog.mul d (dlog.baseExp d q) (dlog.exp d h rnd)), None),
            PedersenECCommitter.Build d (Some h) (Some q) (Some rnd)).
Proof.
  intros d q Hq Hh.
  rewrite GetCommitMsg_accepted by (fold d q; lia).
  rewrite Hh. reflexivity.
Qed.

Lemma CheckDecommitment_run (s : PedersenECReceiver.t)
    (h c : types.ECGroupElement) (r val : Z) :
  PedersenECReceiver.h s = Some h ->
  PedersenECReceiver.commitment s = Some c ->
  let d := PedersenECReceiver.dLog s in
  let opened := dlog.mul d (dlog.baseExp d val) (dlog.exp d h r) in
  PedersenECReceiver.CheckDecommitment r val s =
  Returned ((types.X opened =? types.X c) && (types.Y opened =? types.Y c), s).
Proof.
  intros Hh Hc d opened.
  unfold PedersenECReceiver.CheckDecommitment. run.
  subst opened. unfold dlog.mul, dlog.baseExp, dlog.exp, dlog.elem. fold d.
  destruct (dlog.ExponentiateBaseG d val) as [x1 y1].
  rewrite Hh; simpl.
  destruct (dlog.Exponentiate d (types.X h) (types.Y h) r) as [x2 y2]; simpl.
  destruct (dlog.Multiply d x1 y1 x2 y2) as [c1 c2]; simpl.
  rewrite Hc; simpl. rewrite !Cmp_eq_0.
  destruct ((c1 =? types.X c) && (c2 =? types.Y c)); reflexivity.
Qed.

(** C5: with a commitment stored, CheckDecommitment(r, val) returns a
    boolean and leaves the receiver as it was; the boolean is true exactly
    when g^val * h^r has the X and the Y of the stored commitment; a
    mismatch is the returned value false, not a panic. *)
Theorem CheckDecommitment_spec (s : PedersenECReceiver.t)
    (h c : types.ECGroupElement) (r val : Z) :
  PedersenECReceiver.h s = Some h ->
  PedersenECReceiver.commitment s = Some c ->
  let d := PedersenECReceiver.dLog s in
  let opened := dlog.mul d (dlog.baseExp d val) (dlog.exp d h r) in
  exists b : bool,
    PedersenECReceiver.CheckDecommitment r val s = Returned (b, s) /\
    (b = true <-> types.X opened = types.X c /\ types.Y opened = types.Y c) /\
    (b = false <-> ~ (types.X opened = types.X c /\ types.Y opened = types.Y c)).
Proof.
  intros Hh Hc d opened.
  eexists. split; [apply (CheckDecommitment_run s h c r val Hh Hc) |].
  fold d. fold opened.
  rewrite <- not_true_iff_false, andb_true_iff, !Z.eqb_eq.
  split; reflexivity.
Qed.

(** C4: commit and decommit round trip.  For 0 <= val < q, a committer
    that took h from the receiver's GetH commits to val with
    c = g^val * h^r, GetDecommitMsg gives back exactly (val, r), and the
    receiver that stored c accepts CheckDecommitment(r, val). *)
Theorem pedersen_round_trip (Curve : Type) (NewECDLog : Curve -> dlog.ECDLog)
    (curve : Curve) (a val rnd : Z) :
  let d := NewECDLog curve in
  0 <= val < dlog.OrderOfSubgroup d ->
  let receiver := NewPedersenECReceiver Curve NewECDLog curve a in
  let committer := NewPedersenECCommitter Curve NewECDLog curve in
  exists h c committer1 committer2 receiver1,
    PedersenECReceiver.GetH receiver = Returned (Some h, receiver) /\
    PedersenECCommitter.SetH h committer = Returned (tt, committer1) /\
    PedersenECCommitter.GetCommitMsg val rnd committer1 =
      Returned ((Some c, None), committer2) /\
    c = dlog.mul d (dlog.baseExp d val) (dlog.exp d h rnd) /\
    PedersenECCommitter.GetDecommitMsg committer2 =
      Returned ((Some val, Some rnd), committer2) /\
    PedersenECReceiver.SetCommitment c receiver = Returned (tt, receiver1) /\
    PedersenECReceiver.CheckDecommitment rnd val receiver1 =
      Returned (true, receiver1).
Proof.
  intros d Hval receiver committer.
  exists (dlog.baseExp d a).
  exists (dlog.mul d (dlog.baseExp d val) (dlog.exp d (dlog.baseExp d a) rnd)).
  do 3 eexists.
  split.
  { subst receiver. unfold NewPedersenECReceiver, dlog.baseExp, dlog.elem.
    fold d. destruct (dlog.ExponentiateBaseG d a); reflexivity. }
  split; [reflexivity |].
  split.
  { rewrite GetCommitMsg_accepted by (simpl; fold d; lia). reflexivity. }
  split; [reflexivity |].
  split; [reflexivity |].
  split; [reflexivity |].
  subst receiver. unfold NewPedersenECReceiver. fold d.
  unfold PedersenECReceiver.CheckDecommitment. run.
  unfold dlog.mul, dlog.baseExp, dlog.exp, dlog.elem; simpl.
  destruct (dlog.ExponentiateBaseG d a) as [hx hy]; simpl.
  destruct (dlog.ExponentiateBaseG d val) as [x1 y1]; simpl.
  destruct (dlog.Exponentiate d hx hy rnd) as [x2 y2]; simpl.
  destruct (dlog.Multiply d x1 y1 x2 y2) as [c1 c2]; simpl.
  rewrite !Cmp_eq_0, !Z.eqb_refl. reflexivity.
Qed.

(** C6 as the code has it: GetCommitMsg has no check that h was set.  On a
    committer without h it produces no commitment: a value below zero or
    above q gets the range error and the committer is unchanged; a value
    in [0, q) runs into the nil h, which is a run-time panic and not a
    returned error. *)
Theorem GetCommitMsg_without_h (c : PedersenECCommitter.t) (val rnd : Z) :
  PedersenECCommitter.h c = None ->
  let q := dlog.OrderOfSubgroup (PedersenECCommitter.dLog c) in
  (val < 0 \/ q < val ->
   PedersenECCommitter.GetCommitMsg val rnd c =
   Returned ((None, Some rangeError), c)) /\
  (0 <= val < q ->
   PedersenECCommitter.GetCommitMsg val rnd c = Panicked NilPointerDereference).
Proof.
  intros Hh q. split; intros Hval.
  - apply GetCommitMsg_rejected. exact Hval.
  - rewrite GetCommitMsg_accepted by (fold q; lia). rewrite Hh. reflexivity.
Qed.

Lemma receiverCall_keeps_key c s u s' :
  calls.receiverCall c s = Returned (u, s') ->
  PedersenECReceiver.dLog s' = PedersenECReceiver.dLog s /\
  PedersenECReceiver.a s' = PedersenECReceiver.a s /\
  PedersenECReceiver.h s' = PedersenECReceiver.h s.
Proof.
  destruct c as [| | el | r val]; simpl;
    unfold PedersenECReceiver.GetH, PedersenECReceiver.GetTrapdoor,
      PedersenECReceiver.SetCommitment, PedersenECReceiver.CheckDecommitment;
    run.
  - intros [= <- <-]. auto.
  - intros [= <- <-]. auto.
  - intros [= <- <-]. auto.
  - destruct (dlog.ExponentiateBaseG _ _) as [x1 y1].
    destruct (PedersenECReceiver.h s) as [h |] eqn:Eh; [| discriminate].
    destruct (dlog.Exponentiate _ _ _ _) as [x2 y2].
    destruct (dlog.Multiply _ _ _ _ _) as [c1 c2].
    destruct (PedersenECReceiver.commitment s) as [cm |]; [| discriminate].
    destruct (_ && _); intros [= <- <-]; auto.
Qed.

Lemma receiverCalls_keep_key cs : forall s u s',
  calls.receiverCalls cs s = Returned (u, s') ->
  PedersenECReceiver.dLog s' = PedersenECReceiver.dLog s /\
  PedersenECReceiver.a s' = PedersenECReceiver.a s /\
  PedersenECReceiver.h s' = PedersenECReceiver.h s.
Proof.
  induction cs as [| c cs IH]; intros s u s'; simpl.
  - intros [= <- <-]. auto.
  - unfold bind at 1.
    destruct (calls.receiverCall c s) as [[u1 s1] |] eqn:E1; [| discriminate].
    intros E2. apply receiverCall_keeps_key in E1. apply IH in E2.
    destruct E1 as (A1 & A2 & A3), E2 as (B1 & B2 & B3).
    repeat split; congruence.
Qed.

(** C9: the key of a receiver.  After NewPedersenECReceiver and any
    sequence of calls of the receiver's methods, GetH is g^a for the a
    that GetTrapdoor returns (the sampled one), no call having changed
    either; and a committer on the same curve that was given this h
    answers VerifyTrapdoor(a) with true. *)
Theorem receiver_key_invariant (Curve : Type) (NewECDLog : Curve -> dlog.ECDLog)
    (curve : Curve) (rnd : Z) (cs : list calls.ReceiverCall)
    (s : PedersenECReceiver.t) :
  let d := NewECDLog curve in
  let s0 := NewPedersenECReceiver Curve NewECDLog curve rnd in
  calls.receiverCalls cs s0 = Returned (tt, s) ->
  PedersenECReceiver.GetTrapdoor s = Returned (Some rnd, s) /\
  PedersenECReceiver.GetH s = Returned (Some (dlog.baseExp d rnd), s) /\
  PedersenECReceiver.a s = PedersenECReceiver.a s0 /\
  PedersenECReceiver.h s = PedersenECReceiver.h s0 /\
  forall committer,
    PedersenECCommitter.SetH (dlog.baseExp d rnd)
      (NewPedersenECCommitter Curve NewECDLog curve) = Returned (tt, committer) ->
    PedersenECCommitter.VerifyTrapdoor rnd committer = Returned (true, committer).
Proof.
  intros d s0 Hrun.
  apply receiverCalls_keep_key in Hrun. destruct Hrun as (_ & Ha & Hh).
  assert (Ha0 : PedersenECReceiver.a s0 = Some rnd).
  { subst s0. unfold NewPedersenECReceiver.
    destruct (dlog.ExponentiateBaseG _ _); reflexivity. }
  assert (Hh0 : PedersenECReceiver.h s0 = Some (dlog.baseExp d rnd)).
  { subst s0. unfold NewPedersenECReceiver, dlog.baseExp, dlog.elem. fold d.
    destruct (dlog.ExponentiateBaseG _ _); reflexivity. }
  unfold PedersenECReceiver.GetTrapdoor, PedersenECReceiver.GetH, gets.
  rewrite Ha, Hh, Ha0, Hh0.
  repeat (split; [reflexivity |]).
  intros committer [= <-].
  unfold PedersenECCommitter.VerifyTrapdoor. run.
  unfold NewPedersenECCommitter, PedersenECCommitter.set_h; simpl. fold d.
  unfold dlog.baseExp, dlog.elem.
  destruct (dlog.ExponentiateBaseG d rnd) as [hx hy]; simpl.
  rewrite !Cmp_eq_0, !Z.eqb_refl. reflexivity.
Qed.

End Pedersen.

(** ** The partial (OR) proof *)

Section Partial.
Import dlogproofs.

(** What the two triples of GetProofRandomData are, before the ordering
    bit places them. *)
Lemma GetProofRandomData_run (p : PartialECDLogProver.t) (secret1 : Z)
    (a1 b1 a2 b2 : types.ECGroupElement) (r1 c2 z2 ord : Z) :
  let d := PartialECDLogProver.DLog p in
  let triple1 := types.NewECTriple (dlog.exp d a1 r1) a1 b1 in
  let triple2 :=
    types.NewECTriple
      (dlog.mul d (dlog.exp d a2 z2) (dlog.inv d (dlog.exp d b2 c2))) a2 b2 in
  PartialECDLogProver.GetProofRandomData secret1 a1 b1 a2 b2 r1 c2 z2 ord p =
  Returned
    ((if ord =? 0 then (triple1, triple2) else (triple2, triple1)),
     PartialECDLogProver.Build d (Some secret1) (Some a1) (Some a2)
       (Some r1) (Some c2) (Some z2) (if ord =? 0 then 0 else 1)).
Proof.
  intros d triple1 triple2. subst triple1 triple2.
  unfold PartialECDLogProver.GetProofRandomData. run.
  rewrite Cmp_eq_0.
  unfold dlog.mul, dlog.inv, dlog.exp, dlog.elem; simpl. fold d.
  destruct (dlog.Exponentiate d (types.X a1) (types.Y a1) r1) as [x1X x1Y].
  destruct (dlog.Exponentiate d (types.X a2) (types.Y a2) z2) as [x2X x2Y].
  destruct (dlog.Exponentiate d (types.X b2) (types.Y b2) c2) as [bX bY].
  simpl.
  destruct (dlog.Inverse d bX bY) as [iX iY]. simpl.
  destruct (dlog.Multiply d x2X x2Y iX iY) as [mX mY]. simpl.
  destruct (ord =? 0); reflexivity.
Qed.

(** What GetProofData returns on a prover that holds its nonces. *)
Lemma GetProofData_run (p : PartialECDLogProver.t)
    (secret1 r1 c2 z2 challenge : Z) :
  let q := dlog.OrderOfSubgroup (PartialECDLogProver.DLog p) in
  q <> 0 ->
  PartialECDLogProver.secret1 p = Some secret1 ->
  PartialECDLogProver.r1 p = Some r1 ->
  PartialECDLogProver.c2 p = Some c2 ->
  PartialECDLogProver.z2 p = Some z2 ->
  let c1 := Z.lxor c2 challenge in
  let z1 := (c1 * secret1 + r1) mod Z.abs q in
  PartialECDLogProver.GetProofData challenge p =
  Returned
    ((if PartialECDLogProver.ord p =? 0 then (c1, z1, c2, z2)
      else (c2, z2, c1, z1)), p).
Proof.
  intros q Hq Hs Hr Hc Hz c1 z1. subst c1 z1.
  unfold PartialECDLogProver.GetProofData. run.
  rewrite Hc, Hs, Hr. simpl.
  unfold big.Mod, dlog.GetOrderOfSubgroup. fold q.
  destruct (Z.eqb_spec q 0) as [E | E]; [contradiction |].
  simpl. rewrite Hz. unfold big.Xor.
  destruct (PartialECDLogProver.ord p =? 0); reflexivity.
Qed.

Lemma verifyTriple_run (v : PartialECDLogVerifier.t) (tr : types.ECTriple)
    (c z : Z) :
  let d := PartialECDLogVerifier.DLog v in
  let lhs := dlog.exp d (types.B tr) z in
  let rhs := dlog.mul d (dlog.exp d (types.C tr) c) (types.A tr) in
  PartialECDLogVerifier.verifyTriple (Some tr) c z v =
  Returned ((types.X lhs =? types.X rhs) && (types.Y lhs =? types.Y rhs), v).
Proof.
  intros d lhs rhs. subst lhs rhs.
  unfold PartialECDLogVerifier.verifyTriple. run.
  unfold dlog.mul, dlog.exp, dlog.elem. fold d.
  destruct (dlog.Exponentiate d (types.X (types.B tr)) (types.Y (types.B tr)) z)
    as [l1 l2].
  destruct (dlog.Exponentiate d (types.X (types.C tr)) (types.Y (types.C tr)) c)
    as [r1 r2]. simpl.
  destruct (dlog.Multiply d r1 r2 (types.X (types.A tr)) (types.Y (types.A tr)))
    as [m1 m2]. simpl.
  rewrite !Cmp_eq_0. reflexivity.
Qed.

Lemma verifyTriple_holds (v : PartialECDLogVerifier.t) (tr : types.ECTriple)
    (c z : Z) :
  let d := PartialECDLogVerifier.DLog v in
  dlog.exp d (types.B tr) z = dlog.mul d (dlog.exp d (types.C tr) c) (types.A tr) ->
  PartialECDLogVerifier.verifyTriple (Some tr) c z v = Returned (true, v).
Proof.
  intros d H. rewrite verifyTriple_run. fold d. rewrite H.
  rewrite !Z.eqb_refl. reflexivity.
Qed.

(** Verify on a verifier that holds a challenge and both triples. *)
Lemma Verify_run (v : PartialECDLogVerifier.t) (t1 t2 : types.ECTriple)
    (e c1 z1 c2 z2 : Z) :
  PartialECDLogVerifier.challenge v = Some e ->
  PartialECDLogVerifier.triple1 v = Some t1 ->
  PartialECDLogVerifier.triple2 v = Some t2 ->
  exists b1 b2 : bool,
    PartialECDLogVerifier.verifyTriple (Some t1) c1 z1 v = Returned (b1, v) /\
    PartialECDLogVerifier.verifyTriple (Some t2) c2 z2 v = Returned (b2, v) /\
    PartialECDLogVerifier.Verify c1 z1 c2 z2 v =
    Returned ((if Z.lxor c1 c2 =? e then b1 && b2 else false), v).
Proof.
  intros He H1 H2.
  do 2 eexists. split; [apply verifyTriple_run |].
  split; [apply verifyTriple_run |].
  unfold PartialECDLogVerifier.Verify.
  unfold bind at 1, gets at 1. rewrite He.
  unfold bind at 1, deref at 1, ret at 1.
  rewrite Cmp_eq_0. unfold big.Xor.
  destruct (Z.lxor c1 c2 =? e); simpl; [| reflexivity].
  unfold bind at 1, gets at 1. rewrite H1.
  unfold bind at 1. rewrite verifyTriple_run.
  unfold bind at 1, gets at 1. rewrite H2.
  unfold bind at 1. rewrite verifyTriple_run.
  reflexivity.
Qed.

Lemma Verify_accepts (v : PartialECDLogVerifier.t) (t1 t2 : types.ECTriple)
    (e c1 z1 c2 z2 : Z) :
  let d := PartialECDLogVerifier.DLog v in
  PartialECDLogVerifier.challenge v = Some e ->
  PartialECDLogVerifier.triple1 v = Some t1 ->
  PartialECDLogVerifier.triple2 v = Some t2 ->
  Z.lxor c1 c2 = e ->
  dlog.exp d (types.B t1) z1 = dlog.mul d (dlog.exp d (types.C t1) c1) (types.A t1) ->
  dlog.exp d (types.B t2) z2 = dlog.mul d (dlog.exp d (types.C t2) c2) (types.A t2) ->
  PartialECDLogVerifier.Verify c1 z1 c2 z2 v = Returned (true, v).
Proof.
  intros d He H1 H2 Hx Ht1 Ht2.
  destruct (Verify_run v t1 t2 e c1 z1 c2 z2 He H1 H2) as (b1 & b2 & E1 & E2 & EV).
  rewrite verifyTriple_holds in E1 by exact Ht1.
  rewrite verifyTriple_holds in E2 by exact Ht2.
  injection E1 as <-. injection E2 as <-.
  rewrite EV, Hx, Z.eqb_refl. reflexivity.
Qed.

Section Algebra.
Variable d : dlog.ECDLog.
Variable L : dlog.Laws d.

Let q := dlog.OrderOfSubgroup d.
Let valid := dlog.on_curve d L.

(** The real branch: a^((c*s + r) mod q) = (a^s)^c * a^r. *)
Lemma real_branch a s r c :
  valid a -> 0 <= s -> 0 <= r -> 0 <= c ->
  dlog.exp d a ((c * s + r) mod Z.abs q) =
  dlog.mul d (dlog.exp d (dlog.exp d a s) c) (dlog.exp d a r).
Proof.
  intros Ha Hs Hr Hc.
  pose proof (dlog.order_pos d L) as Hq. fold q in Hq.
  rewrite Z.abs_eq by lia. unfold q.
  rewrite (dlog.exp_mod d L) by (assumption || nia).
  rewrite (dlog.exp_add d L) by (assumption || nia).
  rewrite (dlog.exp_mul d L) by assumption.
  rewrite (Z.mul_comm c s). reflexivity.
Qed.

(** The simulated branch: a^z = b^c * (a^z * (b^c)^-1). *)
Lemma simulated_branch a b z c :
  valid a -> valid b -> 0 <= z -> 0 <= c ->
  dlog.exp d a z =
  dlog.mul d (dlog.exp d b c)
    (dlog.mul d (dlog.exp d a z) (dlog.inv d (dlog.exp d b c))).
Proof.
  intros Ha Hb Hz Hc.
  assert (HP : valid (dlog.exp d a z)) by (apply dlog.exp_on_curve; assumption).
  assert (HQ : valid (dlog.exp d b c)) by (apply dlog.exp_on_curve; assumption).
  assert (HI : valid (dlog.inv d (dlog.exp d b c)))
    by (apply dlog.inv_on_curve; assumption).
  set (P := dlog.exp d a z) in *. set (Q := dlog.exp d b c) in *.
  rewrite (dlog.mul_comm d L Q) by (try apply dlog.mul_on_curve; assumption).
  rewrite <- (dlog.mul_assoc d L) by assumption.
  rewrite (dlog.mul_comm d L (dlog.inv d Q) Q) by assumption.
  rewrite (dlog.mul_inv d L) by assumption.
  rewrite (dlog.mul_zero d L) by assumption.
  reflexivity.
Qed.

End Algebra.

(** C1: completeness of the partial proof.  With b1 = a1^secret1 computed
    by the function itself, ProvePartialECDLogKnowledge returns true for
    every non-negative secret, all points a1, a2, b2 of the group, both
    values of the ordering bit and all sampled r1, c2, z2 and challenge e
    in [0, q). *)
Theorem partial_completeness (d : dlog.ECDLog) (L : dlog.Laws d)
    (secret1 : Z) (a1 a2 b2 : types.ECGroupElement)
    (r1 c2 z2 ord e : Z) :
  let q := dlog.OrderOfSubgroup d in
  0 <= secret1 ->
  dlog.on_curve d L a1 -> dlog.on_curve d L a2 -> dlog.on_curve d L b2 ->
  0 <= r1 < q -> 0 <= c2 < q -> 0 <= z2 < q ->
  0 <= ord < 2 ->
  0 <= e < q ->
  ProvePartialECDLogKnowledge d secret1 a1 a2 b2 r1 c2 z2 ord e = Returned true.
Proof.
  intros q Hs Ha1 Ha2 Hb2 Hr1 Hc2 Hz2 Hord He.
  pose proof (dlog.order_pos d L) as Hq. fold q in Hq.
  unfold ProvePartialECDLogKnowledge, NewPartialECDLogProver,
    NewPartialECDLogVerifier.
  simpl PartialECDLogProver.DLog.
  destruct (dlog.Exponentiate d (types.X a1) (types.Y a1) secret1)
    as [b1X b1Y] eqn:Eb1.
  assert (Hb1 : types.NewECGroupElement b1X b1Y = dlog.exp d a1 secret1).
  { unfold dlog.exp, dlog.elem. rewrite Eb1. reflexivity. }
  rewrite Hb1. clear Eb1 Hb1 b1X b1Y.
  rewrite GetProofRandomData_run. simpl PartialECDLogProver.DLog.
  assert (Hc1 : 0 <= Z.lxor c2 e) by (apply Z.lxor_nonneg; lia).
  assert (Hreal :
    dlog.exp d a1 ((Z.lxor c2 e * secret1 + r1) mod Z.abs q) =
    dlog.mul d (dlog.exp d (dlog.exp d a1 secret1) (Z.lxor c2 e))
               (dlog.exp d a1 r1))
    by (apply (real_branch d L); (assumption || lia)).
  assert (Hsim :
    dlog.exp d a2 z2 =
    dlog.mul d (dlog.exp d b2 c2)
      (dlog.mul d (dlog.exp d a2 z2) (dlog.inv d (dlog.exp d b2 c2))))
    by (apply (simulated_branch d L); (assumption || lia)).
  assert (Hx1 : Z.lxor (Z.lxor c2 e) c2 = e).
  { rewrite (Z.lxor_comm c2 e), Z.lxor_assoc, Z.lxor_nilpotent.
    apply Z.lxor_0_r. }
  assert (Hx2 : Z.lxor c2 (Z.lxor c2 e) = e).
  { rewrite <- Z.lxor_assoc, Z.lxor_nilpotent. apply Z.lxor_0_l. }
  destruct (ord =? 0) eqn:Eord; unfold andThen at 1;
    unfold PartialECDLogVerifier.SetProofRandomData,
      PartialECDLogVerifier.GetChallenge; run;
    unfold PartialECDLogVerifier.set_triple1,
      PartialECDLogVerifier.set_triple2,
      PartialECDLogVerifier.set_challenge;
    simpl PartialECDLogVerifier.DLog;
    simpl PartialECDLogVerifier.triple1;
    simpl PartialECDLogVerifier.triple2;
    simpl PartialECDLogVerifier.challenge;
    (rewrite (GetProofData_run _ secret1 r1 c2 z2 e);
       [| simpl; fold q; lia | reflexivity ..]);
    simpl PartialECDLogProver.ord; simpl PartialECDLogProver.DLog;
    fold q.
  - change (0 =? 0) with true. cbv iota beta.
    erewrite Verify_accepts;
      [reflexivity | simpl; first [reflexivity | assumption] ..].
  - change (1 =? 0) with false. cbv iota beta.
    erewrite Verify_accepts;
      [reflexivity | simpl; first [reflexivity | assumption] ..].
Qed.

(** C2: the challenge-XOR law.  Whatever the prover sampled and whichever
    way the ordering bit fell, the first and third results of GetProofData
    XOR to the challenge e, bit for bit; so on the verifier that stored
    the two triples and handed out e, the XOR test of Verify passes and
    its result is the conjunction of the two triple checks. *)
Theorem challenge_xor_law (p0 : PartialECDLogProver.t)
    (v0 : PartialECDLogVerifier.t) (secret1 : Z)
    (a1 b1 a2 b2 : types.ECGroupElement) (r1 c2 z2 ord e : Z) :
  dlog.OrderOfSubgroup (PartialECDLogProver.DLog p0) <> 0 ->
  exists t1 t2 p1 c1' z1' c2' z2' v1 v2 ok1 ok2,
    PartialECDLogProver.GetProofRandomData secret1 a1 b1 a2 b2 r1 c2 z2 ord p0 =
      Returned ((t1, t2), p1) /\
    PartialECDLogVerifier.SetProofRandomData t1 t2 v0 = Returned (tt, v1) /\
    PartialECDLogVerifier.GetChallenge e v1 = Returned (e, v2) /\
    PartialECDLogProver.GetProofData e p1 = Returned ((c1', z1', c2', z2'), p1) /\
    Z.lxor c1' c2' = e /\
    (forall i, Z.testbit e i = xorb (Z.testbit c1' i) (Z.testbit c2' i)) /\
    PartialECDLogVerifier.verifyTriple (Some t1) c1' z1' v2 = Returned (ok1, v2) /\
    PartialECDLogVerifier.verifyTriple (Some t2) c2' z2' v2 = Returned (ok2, v2) /\
    PartialECDLogVerifier.Verify c1' z1' c2' z2' v2 = Returned (ok1 && ok2, v2).
Proof.
  intros Hq.
  pose proof (GetProofRandomData_run p0 secret1 a1 b1 a2 b2 r1 c2 z2 ord) as HR.
  cbv zeta in HR.
  set (d := PartialECDLogProver.DLog p0) in *.
  set (p1 := PartialECDLogProver.Build d (Some secret1) (Some a1) (Some a2)
               (Some r1) (Some c2) (Some z2) (if ord =? 0 then 0 else 1)) in *.
  pose proof (GetProofData_run p1 secret1 r1 c2 z2 e Hq
                eq_refl eq_refl eq_refl eq_refl) as HD.
  cbv zeta in HD. simpl PartialECDLogProver.ord in HD.
  simpl PartialECDLogProver.DLog in HD.
  assert (Hx1 : Z.lxor (Z.lxor c2 e) c2 = e).
  { rewrite (Z.lxor_comm c2 e), Z.lxor_assoc, Z.lxor_nilpotent.
    apply Z.lxor_0_r. }
  assert (Hx2 : Z.lxor c2 (Z.lxor c2 e) = e).
  { rewrite <- Z.lxor_assoc, Z.lxor_nilpotent. apply Z.lxor_0_l. }
  destruct (ord =? 0).
  - change (0 =? 0) with true in HD. cbv iota in HD.
    match type of HR with _ = Returned ((?t1, ?t2), _) =>
      set (v2 := PartialECDLogVerifier.Build (PartialECDLogVerifier.DLog v0)
                   (Some t1) (Some t2) (Some e));
      destruct (Verify_run v2 t1 t2 e (Z.lxor c2 e)
                  ((Z.lxor c2 e * secret1 + r1) mod
                     Z.abs (dlog.OrderOfSubgroup d)) c2 z2
                  eq_refl eq_refl eq_refl) as (ok1 & ok2 & E1 & E2 & EV)
    end.
    rewrite Hx1, Z.eqb_refl in EV.
    do 8 eexists. exists v2, ok1, ok2.
    split; [exact HR |]. split; [reflexivity |]. split; [reflexivity |].
    split; [exact HD |]. split; [exact Hx1 |].
    split; [intros i; rewrite <- Hx1 at 1; apply Z.lxor_spec |].
    split; [exact E1 |]. split; [exact E2 | exact EV].
  - change (1 =? 0) with false in HD. cbv iota in HD.
    match type of HR with _ = Returned ((?t1, ?t2), _) =>
      set (v2 := PartialECDLogVerifier.Build (PartialECDLogVerifier.DLog v0)
                   (Some t1) (Some t2) (Some e));
      destruct (Verify_run v2 t1 t2 e c2 z2 (Z.lxor c2 e)
                  ((Z.lxor c2 e * secret1 + r1) mod
                     Z.abs (dlog.OrderOfSubgroup d))
                  eq_refl eq_refl eq_refl) as (ok1 & ok2 & E1 & E2 & EV)
    end.
    rewrite Hx2, Z.eqb_refl in EV.
    do 8 eexists. exists v2, ok1, ok2.
    split; [exact HR |]. split; [reflexivity |]. split; [reflexivity |].
    split; [exact HD |]. split; [exact Hx2 |].
    split; [intros i; rewrite <- Hx2 at 1; apply Z.lxor_spec |].
    split; [exact E1 |]. split; [exact E2 | exact EV].
Qed.

(** Verify and verifyTriple only read the verifier. *)
Lemma verifyTriple_reads (v v' : PartialECDLogVerifier.t)
    (t : option types.ECTriple) (c z : Z) (b : bool) :
  PartialECDLogVerifier.verifyTriple t c z v = Returned (b, v') -> v' = v.
Proof.
  destruct t as [tr |].
  - rewrite verifyTriple_run. intros [= _ <-]. reflexivity.
  - unfold PartialECDLogVerifier.verifyTriple. run. discriminate.
Qed.

Lemma Verify_reads (v v' : PartialECDLogVerifier.t) (c1 z1 c2 z2 : Z) (b : bool) :
  PartialECDLogVerifier.Verify c1 z1 c2 z2 v = Returned (b, v') -> v' = v.
Proof.
  unfold PartialECDLogVerifier.Verify.
  unfold bind at 1, gets at 1.
  destruct (PartialECDLogVerifier.challenge v) as [e |];
    unfold bind at 1, deref at 1; [| discriminate].
  unfold ret at 1.
  destruct (negb (big.Cmp (big.Xor c1 c2) e =? 0)).
  - intros [= _ <-]. reflexivity.
  - unfold bind at 1, gets at 1. unfold bind at 1.
    destruct (PartialECDLogVerifier.verifyTriple _ c1 z1 v)
      as [[b1 w1] |] eqn:E1; [| discriminate].
    apply verifyTriple_reads in E1. subst w1.
    unfold bind at 1, gets at 1. unfold bind at 1.
    destruct (PartialECDLogVerifier.verifyTriple _ c2 z2 v)
      as [[b2 w2] |] eqn:E2; [| discriminate].
    apply verifyTriple_reads in E2. subst w2.
    intros [= _ <-]. reflexivity.
Qed.

Lemma CheckDecommitment_reads (s s' : commitments.PedersenECReceiver.t)
    (r val : Z) (b : bool) :
  commitments.PedersenECReceiver.CheckDecommitment r val s = Returned (b, s') ->
  s' = s.
Proof.
  unfold commitments.PedersenECReceiver.CheckDecommitment. run.
  destruct (dlog.ExponentiateBaseG _ _) as [x1 y1].
  destruct (commitments.PedersenECReceiver.h s) as [h |]; [| discriminate].
  destruct (dlog.Exponentiate _ _ _ _) as [x2 y2].
  destruct (dlog.Multiply _ _ _ _ _) as [m1 m2].
  destruct (commitments.PedersenECReceiver.commitment s) as [cm |];
    [| discriminate].
  destruct (_ && _); intros [= _ <-]; reflexivity.
Qed.

(** C8: verification is idempotent and only reads.  On a verifier that
    holds the challenge and both triples, Verify returns a boolean and the
    unchanged verifier, and a second call with the same four scalars
    returns the same boolean; the same holds for CheckDecommitment on a
    receiver that holds a commitment.  Whenever either call returns at
    all, on any state, the state it leaves is the one it found. *)
Theorem verify_idempotent_pure (v : PartialECDLogVerifier.t)
    (t1 t2 : types.ECTriple) (e c1 z1 c2 z2 : Z)
    (s : commitments.PedersenECReceiver.t) (h c : types.ECGroupElement)
    (r val : Z) :
  PartialECDLogVerifier.challenge v = Some e ->
  PartialECDLogVerifier.triple1 v = Some t1 ->
  PartialECDLogVerifier.triple2 v = Some t2 ->
  commitments.PedersenECReceiver.h s = Some h ->
  commitments.PedersenECReceiver.commitment s = Some c ->
  (exists b : bool,
      PartialECDLogVerifier.Verify c1 z1 c2 z2 v = Returned (b, v) /\
      (first <- PartialECDLogVerifier.Verify c1 z1 c2 z2 ;;
       second <- PartialECDLogVerifier.Verify c1 z1 c2 z2 ;;
       ret (first, second)) v = Returned ((b, b), v)) /\
  (exists b : bool,
      commitments.PedersenECReceiver.CheckDecommitment r val s = Returned (b, s) /\
      (first <- commitments.PedersenECReceiver.CheckDecommitment r val ;;
       second <- commitments.PedersenECReceiver.CheckDecommitment r val ;;
       ret (first, second)) s = Returned ((b, b), s)) /\
  (forall w w' x1 y1 x2 y2 b,
      PartialECDLogVerifier.Verify x1 y1 x2 y2 w = Returned (b, w') -> w' = w) /\
  (forall u u' x y b,
      commitments.PedersenECReceiver.CheckDecommitment x y u = Returned (b, u') ->
      u' = u).
Proof.
  intros He H1 H2 Hh Hc.
  split; [| split; [| split]].
  - destruct (Verify_run v t1 t2 e c1 z1 c2 z2 He H1 H2)
      as (b1 & b2 & _ & _ & EV).
    eexists. split; [exact EV |].
    unfold bind. rewrite EV, EV. reflexivity.
  - pose proof (CheckDecommitment_run s h c r val Hh Hc) as E.
    cbv zeta in E.
    eexists. split; [exact E |].
    unfold bind. rewrite E, E. reflexivity.
  - intros w w' x1 y1 x2 y2 b. apply Verify_reads.
  - intros u u' x y b. apply CheckDecommitment_reads.
Qed.

(** Which fields of the verifier are still nil after a call. *)
Lemma verifierCall_fields (c : calls.VerifierCall)
    (v v' : PartialECDLogVerifier.t) (u : unit) :
  calls.verifierCall c v = Returned (u, v') ->
  isNil (PartialECDLogVerifier.triple1 v') =
    isNil (PartialECDLogVerifier.triple1 v) && negb (calls.isSetProofRandomData c) /\
  isNil (PartialECDLogVerifier.triple2 v') =
    isNil (PartialECDLogVerifier.triple2 v) && negb (calls.isSetProofRandomData c) /\
  isNil (PartialECDLogVerifier.challenge v') =
    isNil (PartialECDLogVerifier.challenge v) && negb (calls.isGetChallenge c).
Proof.
  destruct c as [t1 t2 | rnd | c1 z1 c2 z2]; simpl.
  - unfold PartialECDLogVerifier.SetProofRandomData. run.
    intros [= <- <-]. simpl. rewrite !andb_false_r, andb_true_r. auto.
  - unfold PartialECDLogVerifier.GetChallenge. run.
    intros [= <- <-]. simpl. rewrite !andb_false_r, !andb_true_r. auto.
  - unfold bind at 1.
    destruct (PartialECDLogVerifier.Verify c1 z1 c2 z2 v) as [[b w] |] eqn:E;
      [| discriminate].
    apply Verify_reads in E. subst w. unfold ret. intros [= <- <-].
    rewrite !andb_true_r. auto.
Qed.

Lemma verifierCalls_fields (cs : list calls.VerifierCall) :
  forall (v v' : PartialECDLogVerifier.t) (u : unit),
  calls.verifierCalls cs v = Returned (u, v') ->
  isNil (PartialECDLogVerifier.triple1 v') =
    isNil (PartialECDLogVerifier.triple1 v)
    && negb (existsb calls.isSetProofRandomData cs) /\
  isNil (PartialECDLogVerifier.triple2 v') =
    isNil (PartialECDLogVerifier.triple2 v)
    && negb (existsb calls.isSetProofRandomData cs) /\
  isNil (PartialECDLogVerifier.challenge v') =
    isNil (PartialECDLogVerifier.challenge v)
    && negb (existsb calls.isGetChallenge cs).
Proof.
  induction cs as [| c cs IH]; intros v v' u; simpl.
  - unfold ret. intros [= <- <-]. rewrite !andb_true_r. auto.
  - unfold bind at 1.
    destruct (calls.verifierCall c v) as [[u1 v1] |] eqn:E1; [| discriminate].
    intros E2. apply verifierCall_fields in E1. apply IH in E2.
    destruct E1 as (A1 & A2 & A3), E2 as (B1 & B2 & B3).
    rewrite B1, B2, B3, A1, A2, A3, !negb_orb, !andb_assoc. auto.
Qed.

(** C10: Verify under the call order.  After any sequence of calls on a
    new verifier that contains a SetProofRandomData and a GetChallenge,
    Verify returns a boolean for all four scalars and leaves the verifier
    as it was.  Without them the fields are nil: a sequence with no
    GetChallenge leaves the challenge nil and Verify panics on it, and a
    sequence with no SetProofRandomData leaves the triples nil and Verify
    panics on them as soon as the XOR test passes. *)
Theorem Verify_total_after_setup (d : dlog.ECDLog)
    (cs : list calls.VerifierCall) (v : PartialECDLogVerifier.t)
    (c1 z1 c2 z2 : Z) :
  calls.verifierCalls cs (NewPartialECDLogVerifier d) = Returned (tt, v) ->
  (existsb calls.isSetProofRandomData cs = true ->
   existsb calls.isGetChallenge cs = true ->
   exists b : bool,
     PartialECDLogVerifier.Verify c1 z1 c2 z2 v = Returned (b, v)) /\
  (existsb calls.isGetChallenge cs = false ->
   PartialECDLogVerifier.challenge v = None /\
   PartialECDLogVerifier.Verify c1 z1 c2 z2 v = Panicked NilPointerDereference) /\
  (existsb calls.isSetProofRandomData cs = false ->
   PartialECDLogVerifier.triple1 v = None /\
   PartialECDLogVerifier.triple2 v = None /\
   (PartialECDLogVerifier.challenge v = Some (Z.lxor c1 c2) ->
    PartialECDLogVerifier.Verify c1 z1 c2 z2 v = Panicked NilPointerDereference)).
Proof.
  intros Hrun. apply verifierCalls_fields in Hrun.
  simpl in Hrun. destruct Hrun as (H1 & H2 & H3).
  split; [| split].
  - intros Hs Hg. rewrite Hs in H1, H2. rewrite Hg in H3. simpl in *.
    destruct (PartialECDLogVerifier.triple1 v) as [t1 |] eqn:E1; [| discriminate].
    destruct (PartialECDLogVerifier.triple2 v) as [t2 |] eqn:E2; [| discriminate].
    destruct (PartialECDLogVerifier.challenge v) as [e |] eqn:E3; [| discriminate].
    destruct (Verify_run v t1 t2 e c1 z1 c2 z2 E3 E1 E2) as (b1 & b2 & _ & _ & EV).
    eexists. exact EV.
  - intros Hg. rewrite Hg in H3. simpl in H3.
    destruct (PartialECDLogVerifier.challenge v) as [e |] eqn:E3; [discriminate |].
    split; [reflexivity |].
    unfold PartialECDLogVerifier.Verify. run. rewrite E3. reflexivity.
  - intros Hs. rewrite Hs in H1, H2. simpl in H1, H2.
    destruct (PartialECDLogVerifier.triple1 v) as [t1 |] eqn:E1; [discriminate |].
    destruct (PartialECDLogVerifier.triple2 v) as [t2 |] eqn:E2; [discriminate |].
    split; [reflexivity |]. split; [reflexivity |].
    intros E3.
    unfold PartialECDLogVerifier.Verify. run. rewrite E3.
    rewrite Cmp_eq_0. unfold big.Xor. rewrite Z.eqb_refl.
    change (negb true) with false. cbv iota beta.
    rewrite E1. unfold PartialECDLogVerifier.verifyTriple. run.
    reflexivity.
Qed.

End Partial.

(** ** The wire fields of the sigma protocol *)

Section Wire.
Import stream.

Lemma sent_Done_inv {A} (a : A) m : sent (Done a) m -> False.
Proof. intros H. inversion H. Qed.

Lemma sent_Crash_inv {A} p m : sent (@Crash A p) m -> False.
Proof. intros H. inversion H. Qed.

Lemma sent_Send_inv {A} m (k : option error -> Proc A) m' :
  sent (Send m k) m' -> m' = m \/ exists r, sent (k r) m'.
Proof. intros H. inversion H; subst; eauto. Qed.

Lemma sent_Exchange_inv {A} m (k : option pb.Message * option error -> Proc A) m' :
  sent (Exchange m k) m' -> m' = m \/ exists r, sent (k r) m'.
Proof. intros H. inversion H; subst; eauto. Qed.

Lemma sent_Receive_inv {A} (k : option pb.Message * option error -> Proc A) m' :
  sent (Receive k) m' -> exists r, sent (k r) m'.
Proof. intros H. inversion H; subst; eauto. Qed.

Lemma sent_OpenStream_inv {A} (k : unit -> Proc A) m' :
  sent (OpenStream k) m' -> exists r, sent (k r) m'.
Proof. intros H. inversion H; subst; eauto. Qed.

Lemma sent_CloseStream_inv {A} (k : unit -> Proc A) m' :
  sent (CloseStream k) m' -> exists r, sent (k r) m'.
Proof. intros H. inversion H; subst; eauto. Qed.

(** A step of plain code sends nothing. *)
Lemma sent_lift_inv {A B} (o : outcome A) (f : A -> Proc B) m :
  sent (pbind (lift o) f) m -> exists a, o = Returned a /\ sent (f a) m.
Proof.
  destruct o as [a | p]; simpl; intros H.
  - eauto.
  - inversion H.
Qed.

(** The deferred closeStream sends nothing. *)
Lemma sent_deferred_closeStream {A} (p : Proc A) m :
  sent (deferred (@closeStream) p) m -> sent p m.
Proof.
  induction p as [a | e | m0 k IH | k IH | m0 k IH | k IH | k IH];
    simpl; intros H.
  - apply sent_CloseStream_inv in H. destruct H as [_ H]. inversion H.
  - apply sent_CloseStream_inv in H. destruct H as [_ H]. inversion H.
  - apply sent_Send_inv in H. destruct H as [-> | [r H]].
    + constructor.
    + eapply sent_after_Send, IH, H.
  - apply sent_Receive_inv in H. destruct H as [r H].
    eapply sent_after_Receive, IH, H.
  - apply sent_Exchange_inv in H. destruct H as [-> | [r H]].
    + constructor.
    + eapply sent_after_Exchange, IH, H.
  - apply sent_OpenStream_inv in H. destruct H as [r H].
    eapply sent_after_OpenStream, IH, H.
  - apply sent_CloseStream_inv in H. destruct H as [r H].
    eapply sent_after_CloseStream, IH, H.
Qed.

Lemma Bytes_0 : big.Bytes 0 = [].
Proof. reflexivity. Qed.

Example Bytes_65537 : big.Bytes 65537 = [x01; x00; x01]%byte.
Proof. reflexivity. Qed.

Example Bytes_magnitude : big.Bytes (-258) = [x01; x02]%byte.
Proof. reflexivity. Qed.

Example SetBytes_Bytes_65537 : big.SetBytes (big.Bytes 65537) = 65537.
Proof. reflexivity. Qed.

Lemma SetBytes_nil : big.SetBytes [] = 0.
Proof. reflexivity. Qed.

Variable Curve : Type.
Variable SchnorrECVerifier : Type.
Variable NewSchnorrECVerifier : Curve -> types.ProtocolType -> SchnorrECVerifier.
Variable GetOpeningMsgReply :
  types.ECGroupElement -> M SchnorrECVerifier types.ECGroupElement.
Variable SetProofRandomData :
  types.ECGroupElement -> types.ECGroupElement -> types.ECGroupElement ->
  M SchnorrECVerifier unit.
Variable GetChallenge : M SchnorrECVerifier (Z * option Z).
Variable Verify : Z -> Z -> M SchnorrECVerifier bool.
Variable ToECGroupElement : option pb.ECGroupElement -> outcome types.ECGroupElement.
Variable ToPbECGroupElement : types.ECGroupElement -> pb.ECGroupElement.

Variable SchnorrProver : Type.
Variable GetProofRandomData : Z -> Z -> M SchnorrProver Z.
Variable GroupExp : SchnorrProver -> Z -> Z -> Z.
Variable GetProofData : Z -> M SchnorrProver (Z * option Z).

Let SchnorrEC :=
  server.SchnorrEC Curve SchnorrECVerifier NewSchnorrECVerifier
    GetOpeningMsgReply SetProofRandomData GetChallenge Verify
    ToECGroupElement ToPbECGroupElement.

Let ObtainCertificate :=
  client.ObtainCertificate SchnorrProver GetProofRandomData GroupExp GetProofData.

(** C7: the optional wire fields of the sigma protocol are zero.  The
    verifier's GetChallenge gives no randomness in the sigma protocol (r2
    is nil).  Then the server handler, run in that protocol on a request
    with the prover's random data, sends the challenge in a
    PedersenDecommitment whose R field is the empty byte string, the zero
    scalar, and every PedersenDecommitment it sends on any run has this R.
    And the CA client, which runs the sigma protocol, answers the challenge
    with a SchnorrProofData whose Trapdoor field is the zero scalar, and
    every SchnorrProofData it sends on any run has this Trapdoor. *)
Theorem sigma_mode_zero_fields (req m2 : pb.Message) (curve : Curve)
    (pX pA pB : option pb.ECGroupElement) (x a b : types.ECGroupElement)
    (v1 v2 v3 : SchnorrECVerifier) (ch : Z) (r2 : option Z)
    (Zb Tb : pb.bytes) (valid : bool)
    (c : client.PseudonymsysCAClient SchnorrProver) (userSecret : Z)
    (nym : pseudonymsys.Pseudonym) (m1 m3 : pb.Message)
    (xr z : Z) (t : option Z) (p1 p2 : SchnorrProver)
    (X1 cA cB cR cS : pb.bytes) :
  (forall x a b v1 ch r2 v2,
      SetProofRandomData x a b (NewSchnorrECVerifier curve types.Sigma) =
        Returned (tt, v1) ->
      GetChallenge v1 = Returned ((ch, r2), v2) ->
      r2 = None) ->
  pb.GetContent req = Some (pb.Message_SchnorrEcProofRandomData pX pA pB) ->
  ToECGroupElement pX = Returned x ->
  ToECGroupElement pA = Returned a ->
  ToECGroupElement pB = Returned b ->
  SetProofRandomData x a b (NewSchnorrECVerifier curve types.Sigma) =
    Returned (tt, v1) ->
  GetChallenge v1 = Returned ((ch, r2), v2) ->
  pb.GetContent m2 = Some (pb.Message_SchnorrProofData Zb Tb) ->
  Verify (big.SetBytes Zb) (big.SetBytes Tb) v2 = Returned (valid, v3) ->
  GetProofRandomData userSecret (pseudonymsys.A nym) (client.prover _ c) =
    Returned (xr, p1) ->
  pb.GetContent m1 = Some (pb.Message_Bigint X1) ->
  GetProofData (big.SetBytes X1) p1 = Returned ((z, t), p2) ->
  pb.GetContent m3 = Some (pb.Message_PseudonymsysCaCertificate cA cB cR cS) ->
  run.exec (SchnorrEC req types.Sigma curve)
    [run.AnsSend None; run.AnsMessage (Some m2) None; run.AnsSend None] =
    ([run.EvSend
        (pb.WithContent (pb.Message_PedersenDecommitment (big.Bytes ch) []));
      run.EvReceive;
      run.EvSend (pb.WithContent (pb.Message_Status valid))],
     Some (Returned None)) /\
  (forall m X R,
      sent (SchnorrEC req types.Sigma curve) m ->
      pb.GetContent m = Some (pb.Message_PedersenDecommitment X R) ->
      R = [] /\ big.SetBytes R = 0) /\
  run.exec (ObtainCertificate c userSecret nym)
    [run.AnsMessage (Some m1) None; run.AnsMessage (Some m3) None] =
    ([run.EvOpenStream;
      run.EvExchange
        (pb.MkMessage (client.id _ c) pb.PSEUDONYMSYS_CA pb.SchemaVariant_SIGMA
           (Some (pb.Message_SchnorrProofRandomData (big.Bytes xr)
                    (big.Bytes (pseudonymsys.A nym))
                    (big.Bytes (GroupExp p1 (pseudonymsys.A nym) userSecret)))));
      run.EvExchange
        (pb.WithContent (pb.Message_SchnorrProofData (big.Bytes z) []));
      run.EvCloseStream],
     Some (Returned
             (Some (pseudonymsys.NewCACertificate (big.SetBytes cA)
                      (big.SetBytes cB) (big.SetBytes cR) (big.SetBytes cS)),
              None))) /\
  (forall m Zb Trapdoor,
      sent (ObtainCertificate c userSecret nym) m ->
      pb.GetContent m = Some (pb.Message_SchnorrProofData Zb Trapdoor) ->
      Trapdoor = [] /\ big.SetBytes Trapdoor = 0).
Proof.
  intros Hsigma Hreq HX HA HB Hset Hch Hm2 Hver Hxr Hm1 Hz Hm3.
  assert (Hr2 : r2 = None) by exact (Hsigma x a b v1 ch r2 v2 Hset Hch).
  subst r2.
  split; [| split; [| split]].
  - destruct req as [cid sch var cont]. simpl in Hreq. subst cont.
    destruct m2 as [cid2 sch2 var2 cont2]. simpl in Hm2. subst cont2.
    unfold SchnorrEC, server.SchnorrEC. simpl.
    rewrite HX. simpl. rewrite HA. simpl. rewrite HB. simpl.
    rewrite Hset. simpl. rewrite Hch. simpl.
    rewrite Hver. reflexivity.
  - intros m X R Hsent Hm.
    unfold SchnorrEC, server.SchnorrEC in Hsent. simpl in Hsent.
    apply sent_lift_inv in Hsent. destruct Hsent as [[[qX qA] qB] [_ Hsent]].
    apply sent_lift_inv in Hsent. destruct Hsent as [x' [_ Hsent]].
    apply sent_lift_inv in Hsent. destruct Hsent as [a' [_ Hsent]].
    apply sent_lift_inv in Hsent. destruct Hsent as [b' [_ Hsent]].
    apply sent_lift_inv in Hsent. destruct Hsent as [[[] w1] [Hset' Hsent]].
    apply sent_lift_inv in Hsent.
    destruct Hsent as [[[ch' r2'] w2] [Hch' Hsent]].
    rewrite (Hsigma x' a' b' w1 ch' r2' w2 Hset' Hch') in Hsent.
    simpl in Hsent.
    apply sent_Send_inv in Hsent. destruct Hsent as [-> | [err Hsent]].
    + simpl in Hm. injection Hm as _ <-. split; reflexivity.
    + destruct err as [e |]; simpl in Hsent;
        [apply sent_Done_inv in Hsent; contradiction |].
      apply sent_Receive_inv in Hsent. destruct Hsent as [[req' err] Hsent].
      destruct err as [e |]; simpl in Hsent;
        [apply sent_Done_inv in Hsent; contradiction |].
      apply sent_lift_inv in Hsent. destruct Hsent as [[pZ pT] [_ Hsent]].
      apply sent_lift_inv in Hsent. destruct Hsent as [[valid' w3] [_ Hsent]].
      simpl in Hsent.
      apply sent_Send_inv in Hsent. destruct Hsent as [-> | [err Hsent]].
      * simpl in Hm. discriminate.
      * destruct err; simpl in Hsent; apply sent_Done_inv in Hsent; contradiction.
  - destruct m1 as [cid1 sch1 var1 cont1]. simpl in Hm1. subst cont1.
    destruct m3 as [cid3 sch3 var3 cont3]. simpl in Hm3. subst cont3.
    unfold ObtainCertificate, client.ObtainCertificate,
      client.obtainCertificateBody.
    rewrite Hxr. simpl. rewrite Hz. reflexivity.
  - intros m Zb' Trapdoor Hsent Hm.
    unfold ObtainCertificate, client.ObtainCertificate in Hsent.
    simpl in Hsent.
    apply sent_OpenStream_inv in Hsent. destruct Hsent as [_ Hsent].
    apply sent_deferred_closeStream in Hsent.
    unfold client.obtainCertificateBody in Hsent.
    apply sent_lift_inv in Hsent. destruct Hsent as [[x0 prover] [_ Hsent]].
    simpl in Hsent.
    apply sent_Exchange_inv in Hsent. destruct Hsent as [-> | [[resp err] Hsent]].
    + simpl in Hm. discriminate.
    + destruct err as [e |]; simpl in Hsent;
        [apply sent_Done_inv in Hsent; contradiction |].
      apply sent_lift_inv in Hsent. destruct Hsent as [x1 [_ Hsent]].
      apply sent_lift_inv in Hsent. destruct Hsent as [[[z0 t0] prover'] [_ Hsent]].
      simpl in Hsent.
      apply sent_Exchange_inv in Hsent.
      destruct Hsent as [-> | [[resp' err] Hsent]].
      * simpl in Hm. injection Hm as _ <-. split; reflexivity.
      * destruct err as [e |]; simpl in Hsent;
          [apply sent_Done_inv in Hsent; contradiction |].
        apply sent_lift_inv in Hsent.
        destruct Hsent as [[[[dA dB] dR] dS] [_ Hsent]].
        apply sent_Done_inv in Hsent. contradiction.
Qed.

End Wire.

(** ** The theorems at concrete inputs, on the small curve *)

Section Instances.
Import toy concrete.

Lemma partial_completeness_witness :
  (0 <= 7 /\ on_curve G /\ on_curve G /\ on_curve P3 /\
   0 <= 5 < 19 /\ 0 <= 11 < 19 /\ 0 <= 13 < 19 /\ 0 <= 1 < 2 /\ 0 <= 9 < 19) /\
  dlogproofs.ProvePartialECDLogKnowledge curve 7 G G P3 5 11 13 1 9 =
  Returned true.
Proof.
  assert (HG : on_curve G) by exact toy_facts.G_on_curve.
  assert (HP : on_curve P3) by exact toy_facts.P3_on_curve.
  split.
  - repeat split; solve [lia | assumption].
  - apply (partial_completeness curve toy_facts.laws);
      solve [assumption | unfold dlog.OrderOfSubgroup, curve, q; lia].
Defined.

Lemma challenge_xor_law_witness :
  dlog.OrderOfSubgroup
    (dlogproofs.PartialECDLogProver.DLog (dlogproofs.NewPartialECDLogProver curve))
    <> 0 /\
  exists t1 t2 p1 c1 z1 c2 z2,
    dlogproofs.PartialECDLogProver.GetProofRandomData 7 G P3 G P3 5 11 13 1
      (dlogproofs.NewPartialECDLogProver curve) = Returned ((t1, t2), p1) /\
    dlogproofs.PartialECDLogProver.GetProofData 9 p1 =
      Returned ((c1, z1, c2, z2), p1) /\
    Z.lxor c1 c2 = 9.
Proof.
  assert (Hq : dlog.OrderOfSubgroup
                 (dlogproofs.PartialECDLogProver.DLog
                    (dlogproofs.NewPartialECDLogProver curve)) <> 0)
    by (simpl; unfold q; lia).
  split; [exact Hq |].
  destruct (challenge_xor_law (dlogproofs.NewPartialECDLogProver curve)
              (dlogproofs.NewPartialECDLogVerifier curve)
              7 G P3 G P3 5 11 13 1 9 Hq)
    as (t1 & t2 & p1 & c1 & z1 & c2 & z2 & v1 & v2 & ok1 & ok2 &
        E1 & _ & _ & E2 & E3 & _).
  exists t1, t2, p1, c1, z1, c2, z2. auto.
Defined.

Lemma GetCommitMsg_order_accepted_witness :
  0 <= 19 /\
  commitments.PedersenECCommitter.h committer = Some (dlog.baseExp curve 6) /\
  commitments.PedersenECCommitter.GetCommitMsg 19 9 committer =
  Returned
    ((Some (dlog.mul curve (dlog.baseExp curve 19)
              (dlog.exp curve (dlog.baseExp curve 6) 9)), None),
     commitments.PedersenECCommitter.Build curve
       (Some (dlog.baseExp curve 6)) (Some 19) (Some 9)).
Proof.
  split; [lia |]. split; [reflexivity |].
  apply (GetCommitMsg_order_accepted committer (dlog.baseExp curve 6) 9).
  - simpl. unfold q. lia.
  - reflexivity.
Defined.

Lemma pedersen_round_trip_witness :
  0 <= 4 < dlog.OrderOfSubgroup (NewECDLog F17) /\
  exists h c committer1 committer2 receiver1,
    commitments.PedersenECReceiver.GetH receiver = Returned (Some h, receiver) /\
    commitments.PedersenECCommitter.SetH h
      (commitments.NewPedersenECCommitter Curve NewECDLog F17) =
      Returned (tt, committer1) /\
    commitments.PedersenECCommitter.GetCommitMsg 4 9 committer1 =
      Returned ((Some c, None), committer2) /\
    c = dlog.mul curve (dlog.baseExp curve 4) (dlog.exp curve h 9) /\
    commitments.PedersenECCommitter.GetDecommitMsg committer2 =
      Returned ((Some 4, Some 9), committer2) /\
    commitments.PedersenECReceiver.SetCommitment c receiver =
      Returned (tt, receiver1) /\
    commitments.PedersenECReceiver.CheckDecommitment 9 4 receiver1 =
      Returned (true, receiver1).
Proof.
  assert (H : 0 <= 4 < dlog.OrderOfSubgroup (NewECDLog F17))
    by (simpl; unfold q; lia).
  split; [exact H |].
  exact (pedersen_round_trip Curve NewECDLog F17 6 4 9 H).
Defined.

Lemma CheckDecommitment_spec_witness :
  commitments.PedersenECReceiver.h receiverWithCommitment =
    Some (dlog.baseExp curve 6) /\
  commitments.PedersenECReceiver.commitment receiverWithCommitment = Some G /\
  exists b : bool,
    commitments.PedersenECReceiver.CheckDecommitment 9 4 receiverWithCommitment =
      Returned (b, receiverWithCommitment).
Proof.
  split; [reflexivity |]. split; [reflexivity |].
  destruct (CheckDecommitment_spec receiverWithCommitment
              (dlog.baseExp curve 6) G 9 4 eq_refl eq_refl) as (b & E & _).
  exists b. exact E.
Defined.

(** C6 as stated fails: on a new committer, GetCommitMsg(0) does not
    return an error; it panics on the nil h. *)
Lemma GetCommitMsg_before_SetH_no_error :
  commitments.PedersenECCommitter.GetCommitMsg 0 0
    (commitments.NewPedersenECCommitter Curve NewECDLog F17) =
    Panicked NilPointerDereference /\
  ~ (exists (e : commitments.error) (c' : commitments.PedersenECCommitter.t),
       commitments.PedersenECCommitter.GetCommitMsg 0 0
         (commitments.NewPedersenECCommitter Curve NewECDLog F17) =
       Returned ((None, Some e), c')).
Proof.
  assert (E : commitments.PedersenECCommitter.GetCommitMsg 0 0
                (commitments.NewPedersenECCommitter Curve NewECDLog F17) =
              Panicked NilPointerDereference).
  { rewrite GetCommitMsg_accepted by (simpl; unfold q; lia). reflexivity. }
  split; [exact E |].
  intros (e & c' & H). rewrite E in H. discriminate H.
Qed.

Lemma GetCommitMsg_without_h_witness :
  commitments.PedersenECCommitter.h
    (commitments.NewPedersenECCommitter Curve NewECDLog F17) = None /\
  0 <= 3 < 19 /\
  commitments.PedersenECCommitter.GetCommitMsg 3 5
    (commitments.NewPedersenECCommitter Curve NewECDLog F17) =
  Panicked NilPointerDereference.
Proof.
  split; [reflexivity |]. split; [lia |].
  apply (GetCommitMsg_without_h
           (commitments.NewPedersenECCommitter Curve NewECDLog F17) 3 5 eq_refl).
  simpl. unfold q. lia.
Defined.

Lemma sigma_mode_zero_fields_witness :
  (forall x a b v1 ch r2 v2,
      SetProofRandomData x a b (NewSchnorrECVerifier F17 types.Sigma) =
        Returned (tt, v1) ->
      GetChallenge v1 = Returned ((ch, r2), v2) ->
      r2 = None) /\
  run.exec (SchnorrEC request types.Sigma F17)
    [run.AnsSend None; run.AnsMessage (Some samples.proofDataMsg) None;
     run.AnsSend None] =
    ([run.EvSend
        (pb.WithContent (pb.Message_PedersenDecommitment (big.Bytes 7) []));
      run.EvReceive; run.EvSend samples.statusMsg],
     Some (Returned None)) /\
  run.exec (ObtainCertificate caClient 3 samples.nym)
    [run.AnsMessage (Some samples.bigintMsg) None;
     run.AnsMessage (Some samples.certificateMsg) None] =
    ([run.EvOpenStream;
      run.EvExchange
        (pb.MkMessage 1 pb.PSEUDONYMSYS_CA pb.SchemaVariant_SIGMA
           (Some (pb.Message_SchnorrProofRandomData (big.Bytes 9) (big.Bytes 2)
                    (big.Bytes 8))));
      run.EvExchange
        (pb.WithContent (pb.Message_SchnorrProofData (big.Bytes 6) []));
      run.EvCloseStream],
     Some (Returned (Some (pseudonymsys.NewCACertificate 2 3 5 7), None))) /\
  (forall m X R,
      stream.sent (SchnorrEC request types.Sigma F17) m ->
      pb.GetContent m = Some (pb.Message_PedersenDecommitment X R) ->
      R = [] /\ big.SetBytes R = 0) /\
  (forall m Zb Trapdoor,
      stream.sent (ObtainCertificate caClient 3 samples.nym) m ->
      pb.GetContent m = Some (pb.Message_SchnorrProofData Zb Trapdoor) ->
      Trapdoor = [] /\ big.SetBytes Trapdoor = 0).
Proof.
  assert (Hsigma : forall x a b v1 ch r2 v2,
             SetProofRandomData x a b (NewSchnorrECVerifier F17 types.Sigma) =
               Returned (tt, v1) ->
             GetChallenge v1 = Returned ((ch, r2), v2) ->
             r2 = None).
  { intros x a b v1 ch r2 v2 H1 H2.
    unfold SetProofRandomData, NewSchnorrECVerifier, modify in H1.
    injection H1 as <-.
    unfold GetChallenge in H2. cbv [bind gets modify ret] in H2. simpl in H2.
    injection H2 as _ <- _. reflexivity. }
  split; [exact Hsigma |].
  destruct (sigma_mode_zero_fields Curve SchnorrECVerifier
              NewSchnorrECVerifier GetOpeningMsgReply SetProofRandomData
              GetChallenge Verify ToECGroupElement ToPbECGroupElement
              SchnorrProver GetProofRandomData GroupExp GetProofData
              request samples.proofDataMsg F17
              (Some (ToPbECGroupElement P3)) (Some (ToPbECGroupElement G))
              (Some (ToPbECGroupElement P3))
              P3 G P3
              (Build_SchnorrECVerifier types.Sigma (Some (P3, G, P3)) None)
              (Build_SchnorrECVerifier types.Sigma (Some (P3, G, P3)) (Some 7))
              (Build_SchnorrECVerifier types.Sigma (Some (P3, G, P3)) (Some 7))
              7 None (big.Bytes 5) (big.Bytes 0) true
              caClient 3 samples.nym samples.bigintMsg samples.certificateMsg
              9 6 None (5, 3) (5, 3)
              (big.Bytes 4) (big.Bytes 2) (big.Bytes 3) (big.Bytes 5) (big.Bytes 7)
              Hsigma eq_refl eq_refl eq_refl eq_refl eq_refl eq_refl eq_refl
              eq_refl eq_refl eq_refl eq_refl eq_refl)
    as (Hserver & Hall1 & Hclient & Hall2).
  split; [exact Hserver |]. split; [exact Hclient |].
  split; [exact Hall1 | exact Hall2].
Defined.

Lemma verify_idempotent_pure_witness :
  dlogproofs.PartialECDLogVerifier.challenge verifier = Some 9 /\
  dlogproofs.PartialECDLogVerifier.triple1 verifier = Some tripleG /\
  dlogproofs.PartialECDLogVerifier.triple2 verifier = Some tripleG /\
  commitments.PedersenECReceiver.h receiverWithCommitment =
    Some (dlog.baseExp curve 6) /\
  commitments.PedersenECReceiver.commitment receiverWithCommitment = Some G /\
  (exists b : bool,
      dlogproofs.PartialECDLogVerifier.Verify 1 2 8 4 verifier =
        Returned (b, verifier) /\
      (first <- dlogproofs.PartialECDLogVerifier.Verify 1 2 8 4 ;;
       second <- dlogproofs.PartialECDLogVerifier.Verify 1 2 8 4 ;;
       ret (first, second)) verifier = Returned ((b, b), verifier)).
Proof.
  repeat (split; [reflexivity |]).
  exact (proj1 (verify_idempotent_pure verifier tripleG tripleG 9 1 2 8 4
                  receiverWithCommitment (dlog.baseExp curve 6) G 9 4
                  eq_refl eq_refl eq_refl eq_refl eq_refl)).
Defined.

Lemma receiver_key_invariant_witness :
  calls.receiverCalls
    [calls.CallGetH; calls.CallSetCommitment G; calls.CallCheckDecommitment 9 4;
     calls.CallGetTrapdoor]
    (commitments.NewPedersenECReceiver Curve NewECDLog F17 6) =
    Returned (tt, receiverWithCommitment) /\
  commitments.PedersenECReceiver.GetTrapdoor receiverWithCommitment =
    Returned (Some 6, receiverWithCommitment) /\
  commitments.PedersenECReceiver.GetH receiverWithCommitment =
    Returned (Some (dlog.baseExp curve 6), receiverWithCommitment).
Proof.
  assert (H : calls.receiverCalls
                [calls.CallGetH; calls.CallSetCommitment G;
                 calls.CallCheckDecommitment 9 4; calls.CallGetTrapdoor]
                (commitments.NewPedersenECReceiver Curve NewECDLog F17 6) =
              Returned (tt, receiverWithCommitment)) by reflexivity.
  split; [exact H |].
  destruct (receiver_key_invariant Curve NewECDLog F17 6 _ _ H)
    as (E1 & E2 & _).
  split; [exact E1 | exact E2].
Defined.

Lemma Verify_total_after_setup_witness :
  calls.verifierCalls
    [calls.CallSetProofRandomData tripleG tripleG; calls.CallGetChallenge 9]
    (dlogproofs.NewPartialECDLogVerifier curve) = Returned (tt, verifier) /\
  exists b : bool,
    dlogproofs.PartialECDLogVerifier.Verify 1 2 8 4 verifier =
    Returned (b, verifier).
Proof.
  assert (H : calls.verifierCalls
                [calls.CallSetProofRandomData tripleG tripleG;
                 calls.CallGetChallenge 9]
                (dlogproofs.NewPartialECDLogVerifier curve) =
              Returned (tt, verifier)) by reflexivity.
  split; [exact H |].
  exact (proj1 (Verify_total_after_setup curve _ verifier 1 2 8 4 H)
           eq_refl eq_refl).
Defined.

End Instances.

(** ** More on the Pedersen committer and receiver *)

Section MorePedersen.
Import commitments.

Lemma CheckDecommitment_same_state (s s' : PedersenECReceiver.t)
    (r val : Z) (b : bool) :
  PedersenECReceiver.CheckDecommitment r val s = Returned (b, s') -> s' = s.
Proof.
  unfold PedersenECReceiver.CheckDecommitment. run.
  destruct (dlog.ExponentiateBaseG _ _) as [x1 y1].
  destruct (PedersenECReceiver.h s) as [h |]; [| discriminate].
  destruct (dlog.Exponentiate _ _ _ _) as [x2 y2].
  destruct (dlog.Multiply _ _ _ _ _) as [m1 m2].
  destruct (PedersenECReceiver.commitment s) as [cm |]; [| discriminate].
  destruct (_ && _); intros [= _ <-]; reflexivity.
Qed.

(** X1: the range check of GetCommitMsg.  An error is returned exactly for
    val < 0 or val > q; it is the range error, no commitment comes with it
    and the committer is left as it was. *)
Theorem GetCommitMsg_error_iff (c : PedersenECCommitter.t) (val rnd : Z) :
  let q := dlog.OrderOfSubgroup (PedersenECCommitter.dLog c) in
  ((val < 0 \/ q < val) <->
   exists res e c',
     PedersenECCommitter.GetCommitMsg val rnd c = Returned ((res, Some e), c')) /\
  (forall res e c',
     PedersenECCommitter.GetCommitMsg val rnd c = Returned ((res, Some e), c') ->
     res = None /\ e = rangeError /\ c' = c).
Proof.
  intros q.
  destruct (Z_lt_dec val 0) as [Hneg | Hnn];
    [| destruct (Z_lt_dec q val) as [Hbig | Hin]].
  - rewrite GetCommitMsg_rejected by auto. split.
    + split; [eauto | auto].
    + intros res e c' [= <- <- <-]. auto.
  - rewrite GetCommitMsg_rejected by (fold q; auto). split.
    + split; [eauto | auto].
    + intros res e c' [= <- <- <-]. auto.
  - rewrite GetCommitMsg_accepted by (fold q; lia).
    destruct (PedersenECCommitter.h c) as [hh |]; split;
      try (split; [lia | intros (res & e & c' & H); discriminate H]);
      intros res e c' H; discriminate H.
Qed.

(** X2: VerifyTrapdoor.  With h set it returns a boolean and leaves the
    committer as it was, and the boolean is true exactly when g^trapdoor
    has the coordinates of h; without h it panics. *)
Theorem VerifyTrapdoor_spec (c : PedersenECCommitter.t) (trapdoor : Z) :
  let d := PedersenECCommitter.dLog c in
  match PedersenECCommitter.h c with
  | Some h =>
      exists b : bool,
        PedersenECCommitter.VerifyTrapdoor trapdoor c = Returned (b, c) /\
        (b = true <->
         types.X (dlog.baseExp d trapdoor) = types.X h /\
         types.Y (dlog.baseExp d trapdoor) = types.Y h)
  | None =>
      PedersenECCommitter.VerifyTrapdoor trapdoor c = Panicked NilPointerDereference
  end.
Proof.
  intros d. unfold PedersenECCommitter.VerifyTrapdoor. run. fold d.
  unfold dlog.baseExp, dlog.elem.
  destruct (dlog.ExponentiateBaseG d trapdoor) as [hx hy]; simpl.
  destruct (PedersenECCommitter.h c) as [h |]; [| reflexivity].
  rewrite !Cmp_eq_0.
  destruct (Z.eqb_spec hx (types.X h)) as [E1 | E1];
    destruct (Z.eqb_spec hy (types.Y h)) as [E2 | E2]; simpl;
    eexists; (split; [reflexivity |]); split; intros H;
    try discriminate; try reflexivity; try tauto.
Qed.

(** X3: which opening GetDecommitMsg gives.  After an accepted commitment
    to (v1, r1), a second GetCommitMsg(v2) with sample r2 replaces the
    stored opening when v2 passes the range check and leaves it alone when
    v2 is rejected. *)
Theorem GetDecommitMsg_latest_accepted (c : PedersenECCommitter.t)
    (h : types.ECGroupElement) (v1 r1 v2 r2 : Z) :
  let q := dlog.OrderOfSubgroup (PedersenECCommitter.dLog c) in
  PedersenECCommitter.h c = Some h ->
  0 <= v1 <= q ->
  exists c',
    (PedersenECCommitter.GetCommitMsg v1 r1 ;;;
     PedersenECCommitter.GetCommitMsg v2 r2 ;;;
     PedersenECCommitter.GetDecommitMsg) c =
    Returned ((if (v2 <? 0) || (q <? v2) then (Some v1, Some r1)
               else (Some v2, Some r2)), c').
Proof.
  intros q Hh Hv1.
  unfold bind at 1. rewrite GetCommitMsg_accepted by (fold q; lia).
  rewrite Hh.
  set (c1 := PedersenECCommitter.Build (PedersenECCommitter.dLog c) (Some h)
               (Some v1) (Some r1)).
  unfold bind at 1.
  destruct (Z.ltb_spec v2 0) as [Hneg | Hnn];
    [| destruct (Z.ltb_spec q v2) as [Hbig | Hin]]; simpl orb.
  - rewrite GetCommitMsg_rejected by auto. eexists. reflexivity.
  - rewrite GetCommitMsg_rejected by (simpl; fold q; auto).
    eexists. reflexivity.
  - rewrite GetCommitMsg_accepted by (simpl; fold q; lia).
    simpl. eexists. reflexivity.
Qed.

Lemma receiverCalls_commitment (cs : list calls.ReceiverCall) :
  forall (s s' : PedersenECReceiver.t) (u : unit),
  calls.receiverCalls cs s = Returned (u, s') ->
  PedersenECReceiver.commitment s' =
  receivercalls.lastCommitment cs (PedersenECReceiver.commitment s).
Proof.
  induction cs as [| c cs IH]; intros s s' u; simpl.
  - unfold ret. intros [= _ <-]. reflexivity.
  - unfold bind at 1.
    destruct (calls.receiverCall c s) as [[u1 s1] |] eqn:E1; [| discriminate].
    intros E2. apply IH in E2. rewrite E2. clear E2.
    destruct c as [| | el | r val]; simpl in E1.
    + unfold PedersenECReceiver.GetH in E1. cbv [bind gets ret] in E1.
      injection E1 as _ <-. reflexivity.
    + unfold PedersenECReceiver.GetTrapdoor in E1. cbv [bind gets ret] in E1.
      injection E1 as _ <-. reflexivity.
    + unfold PedersenECReceiver.SetCommitment, modify in E1.
      injection E1 as _ <-. reflexivity.
    + unfold bind in E1.
      destruct (PedersenECReceiver.CheckDecommitment r val s) as [[b w] |] eqn:E;
        [| discriminate].
      apply CheckDecommitment_same_state in E. subst w.
      unfold ret in E1. injection E1 as _ <-. reflexivity.
Qed.

(** X4: which commitment the receiver checks.  After NewPedersenECReceiver
    and any sequence of calls of the receiver's methods, CheckDecommitment
    compares g^val * h^r, h being g^a for the sampled a, with the argument
    of the last SetCommitment of the sequence; when the sequence has no
    SetCommitment it panics on the nil commitment. *)
Theorem CheckDecommitment_latest_commitment (Curve : Type)
    (NewECDLog : Curve -> dlog.ECDLog) (curve : Curve) (rnd : Z)
    (cs : list calls.ReceiverCall) (s : PedersenECReceiver.t) (r val : Z) :
  let d := NewECDLog curve in
  let opened :=
    dlog.mul d (dlog.baseExp d val) (dlog.exp d (dlog.baseExp d rnd) r) in
  calls.receiverCalls cs (NewPedersenECReceiver Curve NewECDLog curve rnd) =
    Returned (tt, s) ->
  match receivercalls.lastCommitment cs None with
  | Some c =>
      exists b : bool,
        PedersenECReceiver.CheckDecommitment r val s = Returned (b, s) /\
        (b = true <->
         types.X opened = types.X c /\ types.Y opened = types.Y c)
  | None =>
      PedersenECReceiver.CheckDecommitment r val s =
      Panicked NilPointerDereference
  end.
Proof.
  intros d opened Hrun.
  pose proof (receiverCalls_commitment _ _ _ _ Hrun) as Hc.
  apply receiverCalls_keep_key in Hrun. destruct Hrun as (Hd & _ & Hh).
  assert (Hd0 : PedersenECReceiver.dLog
                  (NewPedersenECReceiver Curve NewECDLog curve rnd) = d).
  { unfold NewPedersenECReceiver. fold d.
    destruct (dlog.ExponentiateBaseG d rnd); reflexivity. }
  assert (Hh0 : PedersenECReceiver.h
                  (NewPedersenECReceiver Curve NewECDLog curve rnd) =
                Some (dlog.baseExp d rnd)).
  { unfold NewPedersenECReceiver, dlog.baseExp, dlog.elem. fold d.
    destruct (dlog.ExponentiateBaseG d rnd); reflexivity. }
  assert (Hc0 : PedersenECReceiver.commitment
                  (NewPedersenECReceiver Curve NewECDLog curve rnd) = None).
  { unfold NewPedersenECReceiver.
    destruct (dlog.ExponentiateBaseG (NewECDLog curve) rnd); reflexivity. }
  rewrite Hd0 in Hd. rewrite Hh0 in Hh. rewrite Hc0 in Hc.
  destruct (receivercalls.lastCommitment cs None) as [c |].
  - pose proof (CheckDecommitment_run s (dlog.baseExp d rnd) c r val Hh Hc) as E.
    cbv zeta in E. rewrite Hd in E. fold opened in E.
    eexists. split; [exact E |].
    rewrite andb_true_iff, !Z.eqb_eq. reflexivity.
  - unfold PedersenECReceiver.CheckDecommitment. run. rewrite Hd.
    destruct (dlog.ExponentiateBaseG d val) as [x1 y1]; simpl.
    rewrite Hh; simpl.
    destruct (dlog.Exponentiate d _ _ r) as [x2 y2]; simpl.
    destruct (dlog.Multiply d x1 y1 x2 y2) as [m1 m2]; simpl.
    rewrite Hc. reflexivity.
Qed.

End MorePedersen.

(** ** Commitments as powers of the generator *)

Section CommitmentAlgebra.
Import commitments.

Variable d : dlog.ECDLog.
Variable L : dlog.Laws d.
Variable G : types.ECGroupElement.
Hypothesis G_valid : dlog.on_curve d L G.
Hypothesis base_is_G : forall k, 0 <= k -> dlog.baseExp d k = dlog.exp d G k.

(** g^v * (g^a)^r = g^((v + a*r) mod q) *)
Lemma commitment_exponent (a v r : Z) :
  0 <= a -> 0 <= v -> 0 <= r ->
  dlog.mul d (dlog.baseExp d v) (dlog.exp d (dlog.baseExp d a) r) =
  dlog.exp d G ((v + a * r) mod dlog.OrderOfSubgroup d).
Proof.
  intros Ha Hv Hr.
  rewrite !base_is_G by assumption.
  rewrite (dlog.exp_mul d L) by assumption.
  rewrite <- (dlog.exp_add d L) by (assumption || nia).
  rewrite (dlog.exp_mod d L) by (assumption || nia).
  reflexivity.
Qed.

Lemma four_swap (A B C D : types.ECGroupElement) :
  dlog.on_curve d L A -> dlog.on_curve d L B ->
  dlog.on_curve d L C -> dlog.on_curve d L D ->
  dlog.mul d (dlog.mul d A B) (dlog.mul d C D) =
  dlog.mul d (dlog.mul d A C) (dlog.mul d B D).
Proof.
  intros HA HB HC HD.
  assert (HCD : dlog.on_curve d L (dlog.mul d C D))
    by (apply dlog.mul_on_curve; assumption).
  assert (HBD : dlog.on_curve d L (dlog.mul d B D))
    by (apply dlog.mul_on_curve; assumption).
  rewrite <- (dlog.mul_assoc d L A B) by assumption.
  rewrite (dlog.mul_assoc d L B C D) by assumption.
  rewrite (dlog.mul_comm d L B C) by assumption.
  rewrite <- (dlog.mul_assoc d L C B D) by assumption.
  rewrite (dlog.mul_assoc d L A C) by assumption.
  reflexivity.
Qed.

End CommitmentAlgebra.

Section Equivocation.
Import commitments.

(** X5: the trapdoor opens a commitment to other values.  Let the
    receiver have trapdoor a and let the committer, holding the receiver's
    h, commit to v with sample r.  Then the receiver that stored this
    commitment accepts every pair (r', v') of non-negative scalars with
    v' + a*r' = v + a*r modulo q. *)
Theorem trapdoor_equivocation (Curve : Type) (NewECDLog : Curve -> dlog.ECDLog)
    (curve : Curve) (L : dlog.Laws (NewECDLog curve)) (G : types.ECGroupElement)
    (a v r v' r' : Z) :
  let d := NewECDLog curve in
  let q := dlog.OrderOfSubgroup d in
  dlog.on_curve d L G ->
  (forall k, 0 <= k -> dlog.baseExp d k = dlog.exp d G k) ->
  0 <= a -> 0 <= v <= q -> 0 <= r -> 0 <= v' -> 0 <= r' ->
  (v' + a * r') mod q = (v + a * r) mod q ->
  exists c committer' receiver',
    PedersenECCommitter.GetCommitMsg v r
      (PedersenECCommitter.set_h (Some (dlog.baseExp d a))
         (NewPedersenECCommitter Curve NewECDLog curve)) =
      Returned ((Some c, None), committer') /\
    PedersenECReceiver.GetH (NewPedersenECReceiver Curve NewECDLog curve a) =
      Returned (Some (dlog.baseExp d a),
                NewPedersenECReceiver Curve NewECDLog curve a) /\
    (PedersenECReceiver.SetCommitment c ;;;
     PedersenECReceiver.CheckDecommitment r' v')
      (NewPedersenECReceiver Curve NewECDLog curve a) =
    Returned (true, receiver').
Proof.
  intros d q HG Hbase Ha Hv Hr Hv' Hr' Heq.
  assert (Hh : PedersenECReceiver.h (NewPedersenECReceiver Curve NewECDLog curve a)
               = Some (dlog.baseExp d a)).
  { unfold NewPedersenECReceiver, dlog.baseExp, dlog.elem. fold d.
    destruct (dlog.ExponentiateBaseG d a); reflexivity. }
  assert (Hd : PedersenECReceiver.dLog (NewPedersenECReceiver Curve NewECDLog curve a)
               = d).
  { unfold NewPedersenECReceiver. fold d.
    destruct (dlog.ExponentiateBaseG d a); reflexivity. }
  do 3 eexists. split; [| split].
  - rewrite GetCommitMsg_accepted by (simpl; fold d q; lia). simpl. reflexivity.
  - unfold PedersenECReceiver.GetH, gets. rewrite Hh. reflexivity.
  - unfold bind, PedersenECReceiver.SetCommitment, modify.
    erewrite CheckDecommitment_run;
      [| simpl; exact Hh | simpl; reflexivity].
    simpl PedersenECReceiver.dLog. rewrite Hd. fold d.
    rewrite !(commitment_exponent d L G HG Hbase) by lia.
    fold q. rewrite Heq, !Z.eqb_refl. reflexivity.
Qed.

(** X6: commitments multiply.  With h a point of the group, the product
    of the commitments to (v1, r1) and to (v2, r2) is the commitment to
    (v1 + v2, r1 + r2): a receiver that stored the product accepts the
    opening (r1 + r2, v1 + v2). *)
Theorem commitments_multiply (d : dlog.ECDLog) (L : dlog.Laws d)
    (G h : types.ECGroupElement) (s : PedersenECReceiver.t)
    (v1 r1 v2 r2 : Z) :
  dlog.on_curve d L G ->
  (forall k, 0 <= k -> dlog.baseExp d k = dlog.exp d G k) ->
  dlog.on_curve d L h ->
  0 <= v1 -> 0 <= r1 -> 0 <= v2 -> 0 <= r2 ->
  PedersenECReceiver.dLog s = d ->
  PedersenECReceiver.h s = Some h ->
  let commit := fun v r => dlog.mul d (dlog.baseExp d v) (dlog.exp d h r) in
  dlog.mul d (commit v1 r1) (commit v2 r2) = commit (v1 + v2) (r1 + r2) /\
  exists s',
    (PedersenECReceiver.SetCommitment (dlog.mul d (commit v1 r1) (commit v2 r2)) ;;;
     PedersenECReceiver.CheckDecommitment (r1 + r2) (v1 + v2)) s =
    Returned (true, s').
Proof.
  intros HG Hbase Hh Hv1 Hr1 Hv2 Hr2 Hd Hs commit.
  assert (E : dlog.mul d (commit v1 r1) (commit v2 r2) = commit (v1 + v2) (r1 + r2)).
  { subst commit. cbv beta.
    rewrite !Hbase by lia.
    rewrite (four_swap d L) by (apply dlog.exp_on_curve; assumption).
    rewrite <- !(dlog.exp_add d L) by assumption.
    reflexivity. }
  split; [exact E |].
  eexists. unfold bind, PedersenECReceiver.SetCommitment, modify.
  erewrite CheckDecommitment_run; [| simpl; exact Hs | simpl; reflexivity].
  simpl PedersenECReceiver.dLog. rewrite Hd, E. subst commit. cbv beta.
  rewrite !Z.eqb_refl. reflexivity.
Qed.

End Equivocation.

(** ** More on the partial proof *)

Section MorePartial.
Import dlogproofs.

Lemma Verify_xor_mismatch_aux (v : PartialECDLogVerifier.t) (e c1 z1 c2 z2 : Z) :
  PartialECDLogVerifier.challenge v = Some e ->
  Z.lxor c1 c2 <> e ->
  PartialECDLogVerifier.Verify c1 z1 c2 z2 v = Returned (false, v).
Proof.
  intros He Hx. unfold PartialECDLogVerifier.Verify. run. rewrite He.
  rewrite Cmp_eq_0. unfold big.Xor.
  destruct (Z.eqb_spec (Z.lxor c1 c2) e) as [E | E]; [contradiction |].
  reflexivity.
Qed.

(** X7: what Verify decides.  On a verifier that holds the challenge e and
    both triples (x_i, a_i, b_i), Verify(c1, z1, c2, z2) returns true
    exactly when c1 xor c2 = e and, for both i, a_i^z_i has the coordinates
    of b_i^c_i * x_i. *)
Theorem Verify_true_iff (v : PartialECDLogVerifier.t) (t1 t2 : types.ECTriple)
    (e c1 z1 c2 z2 : Z) :
  PartialECDLogVerifier.challenge v = Some e ->
  PartialECDLogVerifier.triple1 v = Some t1 ->
  PartialECDLogVerifier.triple2 v = Some t2 ->
  let d := PartialECDLogVerifier.DLog v in
  let holds := fun (t : types.ECTriple) (c z : Z) =>
    types.X (dlog.exp d (types.B t) z) =
      types.X (dlog.mul d (dlog.exp d (types.C t) c) (types.A t)) /\
    types.Y (dlog.exp d (types.B t) z) =
      types.Y (dlog.mul d (dlog.exp d (types.C t) c) (types.A t)) in
  exists b : bool,
    PartialECDLogVerifier.Verify c1 z1 c2 z2 v = Returned (b, v) /\
    (b = true <-> Z.lxor c1 c2 = e /\ holds t1 c1 z1 /\ holds t2 c2 z2).
Proof.
  intros He H1 H2 d holds.
  destruct (Verify_run v t1 t2 e c1 z1 c2 z2 He H1 H2) as (b1 & b2 & E1 & E2 & EV).
  rewrite verifyTriple_run in E1. rewrite verifyTriple_run in E2.
  injection E1 as E1. injection E2 as E2. fold d in E1, E2.
  eexists. split; [exact EV |].
  subst holds. cbv beta. rewrite <- E1, <- E2.
  destruct (Z.eqb_spec (Z.lxor c1 c2) e) as [Hx | Hx].
  - rewrite !andb_true_iff, !Z.eqb_eq. tauto.
  - split; [discriminate | tauto].
Qed.

(** X8: a transcript whose challenges do not XOR to e is refused before
    the triples are looked at: Verify returns false, not a panic, also on a
    verifier that was never given triples. *)
Theorem Verify_xor_mismatch (v : PartialECDLogVerifier.t) (e c1 z1 c2 z2 : Z) :
  PartialECDLogVerifier.challenge v = Some e ->
  Z.lxor c1 c2 <> e ->
  PartialECDLogVerifier.Verify c1 z1 c2 z2 v = Returned (false, v).
Proof.
  intros He Hx. unfold PartialECDLogVerifier.Verify. run. rewrite He.
  rewrite Cmp_eq_0. unfold big.Xor.
  destruct (Z.eqb_spec (Z.lxor c1 c2) e) as [E | E]; [contradiction |].
  reflexivity.
Qed.

(** X9: the simulated branch needs no secret.  For all points a2, b2 of
    the group and all non-negative samples c2, z2, the triple that
    GetProofRandomData builds for (a2, b2) passes verifyTriple with
    (c2, z2), whatever secret1, a1, b1, r1 are. *)
Theorem simulated_triple_verifies (d : dlog.ECDLog) (L : dlog.Laws d)
    (p : PartialECDLogProver.t) (v : PartialECDLogVerifier.t)
    (secret1 : Z) (a1 b1 a2 b2 : types.ECGroupElement) (r1 c2 z2 ord : Z) :
  PartialECDLogProver.DLog p = d ->
  PartialECDLogVerifier.DLog v = d ->
  dlog.on_curve d L a2 -> dlog.on_curve d L b2 ->
  0 <= c2 -> 0 <= z2 ->
  exists t1 t2 p',
    PartialECDLogProver.GetProofRandomData secret1 a1 b1 a2 b2 r1 c2 z2 ord p =
      Returned ((t1, t2), p') /\
    let t := if ord =? 0 then t2 else t1 in
    types.B t = a2 /\ types.C t = b2 /\
    PartialECDLogVerifier.verifyTriple (Some t) c2 z2 v = Returned (true, v).
Proof.
  intros Hp Hv Ha2 Hb2 Hc2 Hz2.
  rewrite GetProofRandomData_run. rewrite Hp.
  destruct (ord =? 0); do 3 eexists; (split; [reflexivity |]); cbv zeta;
    (split; [reflexivity |]); (split; [reflexivity |]);
    apply verifyTriple_holds; rewrite Hv; simpl;
    apply (simulated_branch d L); assumption.
Qed.

(** X10: the real branch's answer and its ranges.  For q > 0 and
    non-negative c2 and e, GetProofData answers the real branch with the
    challenge c = c2 xor e, which is non-negative and below every power of
    two that bounds c2 and e, and with the response
    z = (c * secret1 + r1) mod q, which lies in [0, q). *)
Theorem GetProofData_ranges (p : PartialECDLogProver.t)
    (secret1 r1 c2 z2 e n : Z) :
  let q := dlog.OrderOfSubgroup (PartialECDLogProver.DLog p) in
  0 < q ->
  PartialECDLogProver.secret1 p = Some secret1 ->
  PartialECDLogProver.r1 p = Some r1 ->
  PartialECDLogProver.c2 p = Some c2 ->
  PartialECDLogProver.z2 p = Some z2 ->
  0 <= c2 < 2 ^ n -> 0 <= e < 2 ^ n ->
  exists c z,
    PartialECDLogProver.GetProofData e p =
      Returned ((if PartialECDLogProver.ord p =? 0 then (c, z, c2, z2)
                 else (c2, z2, c, z)), p) /\
    c = Z.lxor c2 e /\
    z = (c * secret1 + r1) mod q /\
    0 <= c < 2 ^ n /\ 0 <= z < q.
Proof.
  intros q Hq Hs Hr Hc Hz Hc2 He.
  exists (Z.lxor c2 e), ((Z.lxor c2 e * secret1 + r1) mod q).
  split; [| split; [reflexivity | split; [reflexivity |]]].
  - rewrite (GetProofData_run p secret1 r1 c2 z2 e)
      by (assumption || (fold q; lia)).
    fold q. rewrite (Z.abs_eq q) by lia. reflexivity.
  - split; [| apply Z.mod_pos_bound; exact Hq].
    assert (H0 : 0 <= Z.lxor c2 e) by (apply Z.lxor_nonneg; lia).
    split; [exact H0 |].
    destruct (Z.eq_dec (Z.lxor c2 e) 0) as [E0 | E0]; [rewrite E0; lia |].
    assert (Hn : 0 <= n).
    { destruct (Z_lt_dec n 0) as [Hneg | Hnn]; [| lia].
      rewrite Z.pow_neg_r in Hc2 by assumption. lia. }
    apply Z.log2_lt_pow2; [lia |].
    pose proof (Z.log2_lxor c2 e (proj1 Hc2) (proj1 He)) as Hl.
    assert (Hlc : Z.log2 c2 < n).
    { destruct (Z.eq_dec c2 0) as [-> | Hc0].
      - simpl. destruct (Z.eq_dec n 0) as [-> | Hn0]; [| lia].
        simpl in He. assert (e = 0) by lia. subst e.
        rewrite Z.lxor_0_r in E0. contradiction.
      - apply Z.log2_lt_pow2; lia. }
    assert (Hle : Z.log2 e < n).
    { destruct (Z.eq_dec e 0) as [-> | He0].
      - simpl. destruct (Z.eq_dec n 0) as [-> | Hn0]; [| lia].
        simpl in Hc2. assert (c2 = 0) by lia. subst c2.
        rewrite Z.lxor_0_r in E0. contradiction.
      - apply Z.log2_lt_pow2; lia. }
    lia.
Qed.

(** X11: GetProofData does not use up the nonce.  It leaves the prover
    as it was, so two calls with challenges e and e' answer with the same
    r1, and the two responses of the real branch give away the secret
    times the difference of the challenges:
    z - z' = (c - c') * secret1 modulo q. *)
Theorem GetProofData_nonce_reuse (p : PartialECDLogProver.t)
    (secret1 r1 c2 z2 e e' : Z) :
  let q := dlog.OrderOfSubgroup (PartialECDLogProver.DLog p) in
  0 < q ->
  PartialECDLogProver.secret1 p = Some secret1 ->
  PartialECDLogProver.r1 p = Some r1 ->
  PartialECDLogProver.c2 p = Some c2 ->
  PartialECDLogProver.z2 p = Some z2 ->
  exists c z c' z',
    (first <- PartialECDLogProver.GetProofData e ;;
     second <- PartialECDLogProver.GetProofData e' ;;
     ret (first, second)) p =
    Returned
      ((if PartialECDLogProver.ord p =? 0
        then ((c, z, c2, z2), (c', z', c2, z2))
        else ((c2, z2, c, z), (c2, z2, c', z'))), p) /\
    c = Z.lxor c2 e /\ c' = Z.lxor c2 e' /\
    (z - z') mod q = ((c - c') * secret1) mod q.
Proof.
  intros q Hq Hs Hr Hc Hz.
  exists (Z.lxor c2 e), ((Z.lxor c2 e * secret1 + r1) mod q).
  exists (Z.lxor c2 e'), ((Z.lxor c2 e' * secret1 + r1) mod q).
  split; [| split; [reflexivity | split; [reflexivity |]]].
  - unfold bind.
    rewrite (GetProofData_run p secret1 r1 c2 z2 e)
      by (assumption || (fold q; lia)).
    rewrite (GetProofData_run p secret1 r1 c2 z2 e')
      by (assumption || (fold q; lia)).
    fold q. rewrite (Z.abs_eq q) by lia.
    destruct (PartialECDLogProver.ord p =? 0); reflexivity.
  - rewrite <- Zminus_mod. f_equal. ring.
Qed.

(** X13: the ordering bit moves triples and answers together.  With the
    same samples, a run with ord = 0 and a run with ord <> 0 return the
    same two triples in opposite order, and GetProofData then returns the
    same two pairs (c, z) in opposite order, so that in both runs the i-th
    pair belongs to the i-th triple. *)
Theorem ordering_bit_swaps_both (p : PartialECDLogProver.t) (secret1 : Z)
    (a1 b1 a2 b2 : types.ECGroupElement) (r1 c2 z2 ord e : Z) :
  dlog.OrderOfSubgroup (PartialECDLogProver.DLog p) <> 0 ->
  ord <> 0 ->
  exists tA tB p0 p1 cA zA cB zB,
    PartialECDLogProver.GetProofRandomData secret1 a1 b1 a2 b2 r1 c2 z2 0 p =
      Returned ((tA, tB), p0) /\
    PartialECDLogProver.GetProofRandomData secret1 a1 b1 a2 b2 r1 c2 z2 ord p =
      Returned ((tB, tA), p1) /\
    PartialECDLogProver.GetProofData e p0 = Returned ((cA, zA, cB, zB), p0) /\
    PartialECDLogProver.GetProofData e p1 = Returned ((cB, zB, cA, zA), p1) /\
    PartialECDLogProver.ord p0 = 0 /\ PartialECDLogProver.ord p1 = 1.
Proof.
  intros Hq Hord.
  rewrite !GetProofRandomData_run.
  change (0 =? 0) with true.
  destruct (Z.eqb_spec ord 0) as [E | _]; [contradiction |].
  do 8 eexists.
  split; [reflexivity |]. split; [reflexivity |].
  split.
  { rewrite (GetProofData_run _ secret1 r1 c2 z2 e);
      [| exact Hq | reflexivity ..].
    reflexivity. }
  split.
  { rewrite (GetProofData_run _ secret1 r1 c2 z2 e);
      [| exact Hq | reflexivity ..].
    reflexivity. }
  split; reflexivity.
Qed.

Lemma Verify_true_xor (v v' : PartialECDLogVerifier.t) (e c1 z1 c2 z2 : Z) :
  PartialECDLogVerifier.challenge v = Some e ->
  PartialECDLogVerifier.Verify c1 z1 c2 z2 v = Returned (true, v') ->
  Z.lxor c1 c2 = e.
Proof.
  intros He HV.
  destruct (Z.eq_dec (Z.lxor c1 c2) e) as [E | E]; [exact E |].
  rewrite (Verify_xor_mismatch_aux v e c1 z1 c2 z2 He E) in HV.
  discriminate HV.
Qed.

(** X14: two accepted answers to different challenges differ in a branch.
    If Verify accepts (c1, z1, c2, z2) under the challenge e and
    (c1', z1', c2', z2') under a challenge e' <> e, then c1 <> c1' or
    c2 <> c2': one of the two branches was answered for two different
    challenges. *)
Theorem accepted_challenges_differ (v v' w w' : PartialECDLogVerifier.t)
    (e e' c1 z1 c2 z2 c1' z1' c2' z2' : Z) :
  PartialECDLogVerifier.challenge v = Some e ->
  PartialECDLogVerifier.challenge v' = Some e' ->
  e <> e' ->
  PartialECDLogVerifier.Verify c1 z1 c2 z2 v = Returned (true, w) ->
  PartialECDLogVerifier.Verify c1' z1' c2' z2' v' = Returned (true, w') ->
  c1 <> c1' \/ c2 <> c2'.
Proof.
  intros He He' Hne HV HV'.
  apply (Verify_true_xor v w e) in HV; [| exact He].
  apply (Verify_true_xor v' w' e') in HV'; [| exact He'].
  destruct (Z.eq_dec c1 c1') as [E1 | E1]; [| left; exact E1].
  right. intros E2. apply Hne. rewrite <- HV, <- HV', E1, E2. reflexivity.
Qed.

Lemma GetProofData_reads (p p' : PartialECDLogProver.t) (e : Z) res :
  PartialECDLogProver.GetProofData e p = Returned (res, p') -> p' = p.
Proof.
  unfold PartialECDLogProver.GetProofData. run.
  destruct (PartialECDLogProver.c2 p); [| discriminate].
  destruct (PartialECDLogProver.secret1 p); [| discriminate].
  destruct (PartialECDLogProver.r1 p); [| discriminate].
  destruct (big.Mod _ _); [| discriminate].
  destruct (PartialECDLogProver.z2 p); [| discriminate].
  destruct (PartialECDLogProver.ord p =? 0); intros [= _ <-]; reflexivity.
Qed.

Lemma proverCall_state (c : provercalls.ProverCall)
    (p p' : PartialECDLogProver.t) (u : unit) :
  provercalls.proverCall c p = Returned (u, p') ->
  PartialECDLogProver.DLog p' = PartialECDLogProver.DLog p /\
  (provercalls.isGetProofRandomData c = true -> provercalls.proverReady p' = true) /\
  (provercalls.isGetProofRandomData c = false -> p' = p).
Proof.
  destruct c as [s a1 b1 a2 b2 r1 c2 z2 ord | e]; simpl.
  - unfold bind at 1. rewrite GetProofRandomData_run. unfold ret.
    intros [= _ <-]. simpl. repeat split; auto. discriminate.
  - unfold bind at 1.
    destruct (PartialECDLogProver.GetProofData e p) as [[res p1] |] eqn:E;
      [| discriminate].
    apply GetProofData_reads in E. subst p1. unfold ret.
    intros [= _ <-]. repeat split; auto. discriminate.
Qed.

Lemma proverCalls_state (cs : list provercalls.ProverCall) :
  forall (p p' : PartialECDLogProver.t) (u : unit),
  provercalls.proverCalls cs p = Returned (u, p') ->
  PartialECDLogProver.DLog p' = PartialECDLogProver.DLog p /\
  (existsb provercalls.isGetProofRandomData cs = true -> provercalls.proverReady p' = true) /\
  (existsb provercalls.isGetProofRandomData cs = false -> p' = p).
Proof.
  induction cs as [| c cs IH]; intros p p' u; simpl.
  - unfold ret. intros [= _ <-]. repeat split; auto. discriminate.
  - unfold bind at 1.
    destruct (provercalls.proverCall c p) as [[u1 p1] |] eqn:E1; [| discriminate].
    intros E2. apply proverCall_state in E1. apply IH in E2.
    destruct E1 as (A1 & A2 & A3), E2 as (B1 & B2 & B3).
    split; [congruence |].
    destruct (provercalls.isGetProofRandomData c); simpl.
    + split; [| discriminate]. intros _.
      destruct (existsb provercalls.isGetProofRandomData cs).
      * apply B2. reflexivity.
      * rewrite (B3 eq_refl). apply A2. reflexivity.
    + split.
      * exact B2.
      * intros H. rewrite (B3 H). apply A3. reflexivity.
Qed.

(** X12: GetProofData under the call order.  After any sequence of calls
    on a new prover that contains a GetProofRandomData, GetProofData
    returns four scalars for every challenge and leaves the prover as it
    was (the order q of the group being non-zero); after a sequence that
    contains none, it panics on the nil c2. *)
Theorem GetProofData_total_after_setup (d : dlog.ECDLog)
    (cs : list provercalls.ProverCall) (p : PartialECDLogProver.t) (e : Z) :
  dlog.OrderOfSubgroup d <> 0 ->
  provercalls.proverCalls cs (NewPartialECDLogProver d) = Returned (tt, p) ->
  (existsb provercalls.isGetProofRandomData cs = true ->
   exists res, PartialECDLogProver.GetProofData e p = Returned (res, p)) /\
  (existsb provercalls.isGetProofRandomData cs = false ->
   PartialECDLogProver.GetProofData e p = Panicked NilPointerDereference).
Proof.
  intros Hq Hrun. apply proverCalls_state in Hrun.
  destruct Hrun as (Hd & Hready & Hsame). simpl in Hd.
  split.
  - intros Hs. specialize (Hready Hs). unfold provercalls.proverReady in Hready.
    destruct (PartialECDLogProver.secret1 p) as [s |] eqn:E1; [| discriminate].
    destruct (PartialECDLogProver.r1 p) as [r |] eqn:E2; [| discriminate].
    destruct (PartialECDLogProver.c2 p) as [c |] eqn:E3; [| discriminate].
    destruct (PartialECDLogProver.z2 p) as [z |] eqn:E4; [| discriminate].
    eexists. apply (GetProofData_run p s r c z e); try assumption.
    rewrite Hd. exact Hq.
  - intros Hs. rewrite (Hsame Hs). reflexivity.
Qed.

End MorePartial.

(** ** Runs of the server handler *)

Section ServerRuns.
Import stream run.

Lemma exec_lift {A B} (o : outcome A) (f : A -> Proc B) (answers : list Answer) :
  exec (pbind (lift o) f) answers =
  match o with
  | Returned a => exec (f a) answers
  | Panicked p => ([], Some (Panicked p))
  end.
Proof. destruct o; reflexivity. Qed.

Lemma exec_finished_Send {A} (m : pb.Message) (k : option error -> Proc A)
    (answers : list Answer) (evs : list Event) (r : outcome A) :
  exec (Send m k) answers = (evs, Some r) ->
  exists err rest evs',
    answers = AnsSend err :: rest /\ evs = EvSend m :: evs' /\
    exec (k err) rest = (evs', Some r).
Proof.
  simpl. destruct answers as [| [err | resp err] rest]; try discriminate.
  destruct (exec (k err) rest) as [evs' r'] eqn:E.
  intros [= <- ->]. eauto 6.
Qed.

Lemma exec_finished_Receive {A}
    (k : option pb.Message * option error -> Proc A)
    (answers : list Answer) (evs : list Event) (r : outcome A) :
  exec (Receive k) answers = (evs, Some r) ->
  exists resp err rest evs',
    answers = AnsMessage resp err :: rest /\ evs = EvReceive :: evs' /\
    exec (k (resp, err)) rest = (evs', Some r).
Proof.
  simpl. destruct answers as [| [err | resp err] rest]; try discriminate.
  destruct (exec (k (resp, err)) rest) as [evs' r'] eqn:E.
  intros [= <- ->]. eauto 7.
Qed.

Lemma exec_finished_Exchange {A} (m : pb.Message)
    (k : option pb.Message * option error -> Proc A)
    (answers : list Answer) (evs : list Event) (r : outcome A) :
  exec (Exchange m k) answers = (evs, Some r) ->
  exists resp err rest evs',
    answers = AnsMessage resp err :: rest /\ evs = EvExchange m :: evs' /\
    exec (k (resp, err)) rest = (evs', Some r).
Proof.
  simpl. destruct answers as [| [err | resp err] rest]; try discriminate.
  destruct (exec (k (resp, err)) rest) as [evs' r'] eqn:E.
  intros [= <- ->]. eauto 7.
Qed.

Lemma exec_finished_lift {A B} (o : outcome A) (f : A -> Proc B)
    (answers : list Answer) (evs : list Event) (r : outcome B) :
  exec (pbind (lift o) f) answers = (evs, Some r) ->
  (exists a, o = Returned a /\ exec (f a) answers = (evs, Some r)) \/
  (exists p, o = Panicked p /\ evs = [] /\ r = Panicked p).
Proof.
  rewrite exec_lift. destruct o as [a | p].
  - eauto.
  - intros [= <- <-]. eauto.
Qed.

Variable Curve : Type.
Variable SchnorrECVerifier : Type.
Variable NewSchnorrECVerifier : Curve -> types.ProtocolType -> SchnorrECVerifier.
Variable GetOpeningMsgReply :
  types.ECGroupElement -> M SchnorrECVerifier types.ECGroupElement.
Variable SetProofRandomData :
  types.ECGroupElement -> types.ECGroupElement -> types.ECGroupElement ->
  M SchnorrECVerifier unit.
Variable GetChallenge : M SchnorrECVerifier (Z * option Z).
Variable Verify : Z -> Z -> M SchnorrECVerifier bool.
Variable ToECGroupElement : option pb.ECGroupElement -> outcome types.ECGroupElement.
Variable ToPbECGroupElement : types.ECGroupElement -> pb.ECGroupElement.

Let SchnorrEC :=
  server.SchnorrEC Curve SchnorrECVerifier NewSchnorrECVerifier
    GetOpeningMsgReply SetProofRandomData GetChallenge Verify
    ToECGroupElement ToPbECGroupElement.

(** X15: a whole run of the sigma protocol.  When the request carries the
    prover's random data, the stream reports no error and the peer answers
    the challenge with proof data (Z, Trapdoor), the handler sends the
    challenge message (X = challenge bytes, R = bytes of r2, or of zero for
    a nil r2), then a Status whose Success is what the verifier's Verify
    says about the two decoded scalars, and returns no error. *)
Theorem SchnorrEC_sigma_run (req m2 : pb.Message) (curve : Curve)
    (pX pA pB : option pb.ECGroupElement) (x a b : types.ECGroupElement)
    (v1 v2 v3 : SchnorrECVerifier) (ch : Z) (r2 : option Z)
    (Zb Tb : pb.bytes) (valid : bool) :
  pb.GetContent req = Some (pb.Message_SchnorrEcProofRandomData pX pA pB) ->
  ToECGroupElement pX = Returned x ->
  ToECGroupElement pA = Returned a ->
  ToECGroupElement pB = Returned b ->
  SetProofRandomData x a b (NewSchnorrECVerifier curve types.Sigma) =
    Returned (tt, v1) ->
  GetChallenge v1 = Returned ((ch, r2), v2) ->
  pb.GetContent m2 = Some (pb.Message_SchnorrProofData Zb Tb) ->
  Verify (big.SetBytes Zb) (big.SetBytes Tb) v2 = Returned (valid, v3) ->
  exec (SchnorrEC req types.Sigma curve)
    [AnsSend None; AnsMessage (Some m2) None; AnsSend None] =
  ([EvSend (pb.WithContent
              (pb.Message_PedersenDecommitment (big.Bytes ch)
                 (big.Bytes (match r2 with Some r => r | None => 0 end))));
    EvReceive;
    EvSend (pb.WithContent (pb.Message_Status valid))],
   Some (Returned None)).
Proof.
  intros Hreq HX HA HB Hset Hch Hm2 Hver.
  destruct req as [cid sch var cont]. simpl in Hreq. subst cont.
  destruct m2 as [cid2 sch2 var2 cont2]. simpl in Hm2. subst cont2.
  unfold SchnorrEC, server.SchnorrEC. simpl.
  rewrite HX. simpl. rewrite HA. simpl. rewrite HB. simpl.
  rewrite Hset. simpl. rewrite Hch. simpl.
  rewrite Hver. simpl.
  destruct r2; reflexivity.
Qed.

(** X16: messages of the wrong kind.  In the sigma protocol a request that
    does not carry the prover's random data makes the handler panic on the
    nil result of the getter: it sends nothing and returns no error; and an
    answer to the challenge that does not carry proof data makes it panic
    after the challenge was sent, so that no Status is sent. *)
Theorem SchnorrEC_wrong_message_panics (req : pb.Message) (curve : Curve)
    (answers : list Answer) :
  (pb.GetSchnorrEcProofRandomData (Some req) = None ->
   exec (SchnorrEC req types.Sigma curve) answers =
   ([], Some (Panicked NilPointerDereference))) /\
  (forall pX pA pB x a b v1 ch r2 v2 resp rest,
     pb.GetContent req = Some (pb.Message_SchnorrEcProofRandomData pX pA pB) ->
     ToECGroupElement pX = Returned x ->
     ToECGroupElement pA = Returned a ->
     ToECGroupElement pB = Returned b ->
     SetProofRandomData x a b (NewSchnorrECVerifier curve types.Sigma) =
       Returned (tt, v1) ->
     GetChallenge v1 = Returned ((ch, r2), v2) ->
     pb.GetSchnorrProofData resp = None ->
     answers = AnsSend None :: AnsMessage resp None :: rest ->
     exec (SchnorrEC req types.Sigma curve) answers =
     ([EvSend (pb.WithContent
                 (pb.Message_PedersenDecommitment (big.Bytes ch)
                    (big.Bytes (match r2 with Some r => r | None => 0 end))));
       EvReceive],
      Some (Panicked NilPointerDereference))).
Proof.
  split.
  - intros Hreq. unfold SchnorrEC, server.SchnorrEC.
    cbn [negb types.ProtocolType_eqb pbind].
    rewrite Hreq. reflexivity.
  - intros pX pA pB x a b v1 ch r2 v2 resp rest Hreq HX HA HB Hset Hch Hresp ->.
    destruct req as [cid sch var cont]. simpl in Hreq. subst cont.
    unfold SchnorrEC, server.SchnorrEC. simpl.
    rewrite HX. simpl. rewrite HA. simpl. rewrite HB. simpl.
    rewrite Hset. simpl. rewrite Hch. simpl.
    rewrite Hresp. simpl.
    destruct r2; reflexivity.
Qed.

(** X17: stream errors end the handler.  In the sigma protocol, an error
    of the send of the challenge, of the receive that follows it, or of the
    send of the Status is returned as it is, and nothing is sent after it. *)
Theorem SchnorrEC_stream_errors (req m2 : pb.Message) (curve : Curve)
    (pX pA pB : option pb.ECGroupElement) (x a b : types.ECGroupElement)
    (v1 v2 v3 : SchnorrECVerifier) (ch : Z) (r2 : option Z)
    (Zb Tb : pb.bytes) (valid : bool) (e : error)
    (resp : option pb.Message) (rest : list Answer) :
  pb.GetContent req = Some (pb.Message_SchnorrEcProofRandomData pX pA pB) ->
  ToECGroupElement pX = Returned x ->
  ToECGroupElement pA = Returned a ->
  ToECGroupElement pB = Returned b ->
  SetProofRandomData x a b (NewSchnorrECVerifier curve types.Sigma) =
    Returned (tt, v1) ->
  GetChallenge v1 = Returned ((ch, r2), v2) ->
  pb.GetContent m2 = Some (pb.Message_SchnorrProofData Zb Tb) ->
  Verify (big.SetBytes Zb) (big.SetBytes Tb) v2 = Returned (valid, v3) ->
  let challengeMsg :=
    pb.WithContent
      (pb.Message_PedersenDecommitment (big.Bytes ch)
         (big.Bytes (match r2 with Some r => r | None => 0 end))) in
  exec (SchnorrEC req types.Sigma curve) (AnsSend (Some e) :: rest) =
    ([EvSend challengeMsg], Some (Returned (Some e))) /\
  exec (SchnorrEC req types.Sigma curve)
    (AnsSend None :: AnsMessage resp (Some e) :: rest) =
    ([EvSend challengeMsg; EvReceive], Some (Returned (Some e))) /\
  exec (SchnorrEC req types.Sigma curve)
    (AnsSend None :: AnsMessage (Some m2) None :: AnsSend (Some e) :: rest) =
    ([EvSend challengeMsg; EvReceive;
      EvSend (pb.WithContent (pb.Message_Status valid))],
     Some (Returned (Some e))).
Proof.
  intros Hreq HX HA HB Hset Hch Hm2 Hver challengeMsg. subst challengeMsg.
  destruct req as [cid sch var cont]. simpl in Hreq. subst cont.
  destruct m2 as [cid2 sch2 var2 cont2]. simpl in Hm2. subst cont2.
  unfold SchnorrEC, server.SchnorrEC. simpl.
  rewrite HX. simpl. rewrite HA. simpl. rewrite HB. simpl.
  rewrite Hset. simpl. rewrite Hch. simpl.
  rewrite Hver. simpl.
  destruct r2; repeat split; reflexivity.
Qed.

Ltac crunch_run H :=
  repeat (cbn in H;
          match type of H with
          | context [lift ?o] => destruct o as [? | ?] eqn:?
          | context [match ?l with nil => _ | cons _ _ => _ end] =>
              destruct l as [| [? | ? ?] ?]
          | context [match ?o with Some _ => _ | None => _ end] => destruct o
          | context [let '(_, _) := ?p in _] => is_var p; destruct p
          | context [match ?u with tt => _ end] => is_var u; destruct u
          end);
  try discriminate H.

(** X18: where a returned error comes from.  In every protocol variant and
    whatever the peer sends, an error that the handler returns is an error
    that the stream reported for a send or a receive of this run; a message
    of the wrong kind never becomes a returned error. *)
Theorem SchnorrEC_errors_from_stream (req : pb.Message)
    (protocolType : types.ProtocolType) (curve : Curve)
    (answers : list Answer) (evs : list Event) (e : error) :
  exec (SchnorrEC req protocolType curve) answers =
    (evs, Some (Returned (Some e))) ->
  In (AnsSend (Some e)) answers \/
  exists resp, In (AnsMessage resp (Some e)) answers.
Proof.
  intros H. unfold SchnorrEC, server.SchnorrEC, server.openingRound in H.
  destruct protocolType; crunch_run H;
    injection H as _ <-;
    first [left; simpl; tauto | right; eexists; simpl; eauto 8].
Qed.

(** X19: a whole run of the ZKP and ZKPOK variants.  The request carries
    the committer's h; the handler first sends the verifier's opening
    reply to h, receives the prover's random data, and then goes through
    the three moves on the verifier as the opening left it: challenge
    message (with the bytes of r2 in R when GetChallenge returns one),
    proof data, Status. *)
Theorem SchnorrEC_zkp_run (req m1 m2 : pb.Message)
    (protocolType : types.ProtocolType) (curve : Curve)
    (ecge : pb.ECGroupElement) (h commitment : types.ECGroupElement)
    (pX pA pB : option pb.ECGroupElement) (x a b : types.ECGroupElement)
    (v0 v1 v2 v3 : SchnorrECVerifier) (ch : Z) (r2 : option Z)
    (Zb Tb : pb.bytes) (valid : bool) :
  protocolType <> types.Sigma ->
  pb.GetContent req = Some (pb.Message_EcGroupElement ecge) ->
  ToECGroupElement (Some ecge) = Returned h ->
  GetOpeningMsgReply h (NewSchnorrECVerifier curve protocolType) =
    Returned (commitment, v0) ->
  pb.GetContent m1 = Some (pb.Message_SchnorrEcProofRandomData pX pA pB) ->
  ToECGroupElement pX = Returned x ->
  ToECGroupElement pA = Returned a ->
  ToECGroupElement pB = Returned b ->
  SetProofRandomData x a b v0 = Returned (tt, v1) ->
  GetChallenge v1 = Returned ((ch, r2), v2) ->
  pb.GetContent m2 = Some (pb.Message_SchnorrProofData Zb Tb) ->
  Verify (big.SetBytes Zb) (big.SetBytes Tb) v2 = Returned (valid, v3) ->
  exec (SchnorrEC req protocolType curve)
    [AnsSend None; AnsMessage (Some m1) None; AnsSend None;
     AnsMessage (Some m2) None; AnsSend None] =
  ([EvSend (pb.WithContent
              (pb.Message_EcGroupElement (ToPbECGroupElement commitment)));
    EvReceive;
    EvSend (pb.WithContent
              (pb.Message_PedersenDecommitment (big.Bytes ch)
                 (big.Bytes (match r2 with Some r => r | None => 0 end))));
    EvReceive;
    EvSend (pb.WithContent (pb.Message_Status valid))],
   Some (Returned None)).
Proof.
  intros Hpt Hreq Hh Hopen Hm1 HX HA HB Hset Hch Hm2 Hver.
  destruct req as [cid sch var cont]. simpl in Hreq. subst cont.
  destruct m1 as [cid1 sch1 var1 cont1]. simpl in Hm1. subst cont1.
  destruct m2 as [cid2 sch2 var2 cont2]. simpl in Hm2. subst cont2.
  unfold SchnorrEC, server.SchnorrEC, server.openingRound.
  destruct protocolType; [contradiction | |]; simpl;
    rewrite Hh; simpl; rewrite Hopen; simpl;
    rewrite HX; simpl; rewrite HA; simpl; rewrite HB; simpl;
    rewrite Hset; simpl; rewrite Hch; simpl; rewrite Hver; simpl;
    destruct r2; reflexivity.
Qed.

Ltac crunch_sent H :=
  repeat (cbn in H;
          match type of H with
          | sent (Send _ _) _ =>
              apply sent_Send_inv in H; destruct H as [-> | [? H]]
          | sent (Receive _) _ =>
              apply sent_Receive_inv in H; destruct H as [[? ?] H]
          | sent (Done _) _ => apply sent_Done_inv in H; contradiction
          | sent (Crash _) _ => apply sent_Crash_inv in H; contradiction
          | context [lift ?o] => destruct o as [? | ?] eqn:?
          | context [match ?o with Some _ => _ | None => _ end] => destruct o
          | context [let '(_, _) := ?p in _] => is_var p; destruct p
          | context [match ?u with tt => _ end] => is_var u; destruct u
          end).

(** X20: the header of what the handler sends.  Every message that the
    handler sends, in every protocol variant, is built with its Content
    only: its client id is 0 and its schema and schema variant are the
    zero values of the enumerations, PEDERSEN and SIGMA, whatever the
    request says. *)
Theorem SchnorrEC_reply_header (req : pb.Message)
    (protocolType : types.ProtocolType) (curve : Curve) (m : pb.Message) :
  sent (SchnorrEC req protocolType curve) m ->
  pb.ClientId m = 0 /\
  pb.Schema m = pb.PEDERSEN /\ pbnum.SchemaType_number (pb.Schema m) = 0 /\
  pb.Variant m = pb.SchemaVariant_SIGMA /\
  pbnum.SchemaVariant_number (pb.Variant m) = 0.
Proof.
  intros H. unfold SchnorrEC, server.SchnorrEC, server.openingRound in H.
  destruct protocolType; crunch_sent H; repeat split; reflexivity.
Qed.

End ServerRuns.

(** ** Runs of the CA client *)

Section ClientRuns.
Import stream run.

Variable SchnorrProver : Type.
Variable GetProofRandomData : Z -> Z -> M SchnorrProver Z.
Variable GroupExp : SchnorrProver -> Z -> Z -> Z.
Variable GetProofData : Z -> M SchnorrProver (Z * option Z).

Let ObtainCertificate :=
  client.ObtainCertificate SchnorrProver GetProofRandomData GroupExp GetProofData.

Ltac crunch_client H :=
  repeat (cbn in H;
          match type of H with
          | context [lift ?o] => destruct o as [? | ?] eqn:?
          | context [match ?l with nil => _ | cons _ _ => _ end] =>
              destruct l as [| [? | ? ?] ?]
          | context [match ?o with Some _ => _ | None => _ end] => destruct o
          | context [let '(_, _) := ?p in _] => is_var p; destruct p
          | context [match ?u with tt => _ end] => is_var u; destruct u
          end);
  try discriminate H.

(** X21: the stream is opened first and closed last.  Every run of
    ObtainCertificate that comes to an end, by a certificate, by an error
    of the stream or by a panic on a message of the wrong kind, starts with
    openStream and ends with closeStream, and neither happens in
    between. *)
Theorem ObtainCertificate_stream_bracket
    (c : client.PseudonymsysCAClient SchnorrProver) (userSecret : Z)
    (nym : pseudonymsys.Pseudonym) (answers : list Answer)
    (evs : list Event)
    (r : outcome (option pseudonymsys.CACertificate * option error)) :
  exec (ObtainCertificate c userSecret nym) answers = (evs, Some r) ->
  exists mid,
    evs = EvOpenStream :: mid ++ [EvCloseStream] /\
    ~ In EvOpenStream mid /\ ~ In EvCloseStream mid.
Proof.
  intros H.
  unfold ObtainCertificate, client.ObtainCertificate,
    client.obtainCertificateBody in H.
  crunch_client H; injection H as <- _;
    match goal with
    | |- exists mid, EvOpenStream :: ?l = _ /\ _ => exists (removelast l)
    end;
    (split; [reflexivity |]); simpl; split; intros F;
    repeat (destruct F as [F | F]; [discriminate F |]); exact F.
Qed.

(** X22: a whole run of ObtainCertificate.  The client sends the random
    data x, the pseudonym's A and b = A^userSecret under its id, the schema
    PSEUDONYMSYS_CA and the variant SIGMA; it reads the challenge from the
    Bigint answer, sends the response z with an empty trapdoor, and
    returns the certificate whose four scalars are read from the bytes of
    the last answer. *)
Theorem ObtainCertificate_run
    (c : client.PseudonymsysCAClient SchnorrProver) (userSecret : Z)
    (nym : pseudonymsys.Pseudonym) (m1 m2 : pb.Message)
    (x z : Z) (t : option Z) (p1 p2 : SchnorrProver)
    (X1 cA cB cR cS : pb.bytes) :
  GetProofRandomData userSecret (pseudonymsys.A nym) (client.prover _ c) =
    Returned (x, p1) ->
  pb.GetContent m1 = Some (pb.Message_Bigint X1) ->
  GetProofData (big.SetBytes X1) p1 = Returned ((z, t), p2) ->
  pb.GetContent m2 = Some (pb.Message_PseudonymsysCaCertificate cA cB cR cS) ->
  exec (ObtainCertificate c userSecret nym)
    [AnsMessage (Some m1) None; AnsMessage (Some m2) None] =
  ([EvOpenStream;
    EvExchange
      (pb.MkMessage (client.id _ c) pb.PSEUDONYMSYS_CA pb.SchemaVariant_SIGMA
         (Some (pb.Message_SchnorrProofRandomData (big.Bytes x)
                  (big.Bytes (pseudonymsys.A nym))
                  (big.Bytes (GroupExp p1 (pseudonymsys.A nym) userSecret)))));
    EvExchange (pb.WithContent (pb.Message_SchnorrProofData (big.Bytes z) []));
    EvCloseStream],
   Some (Returned
           (Some (pseudonymsys.NewCACertificate (big.SetBytes cA)
                    (big.SetBytes cB) (big.SetBytes cR) (big.SetBytes cS)),
            None))).
Proof.
  intros Hx Hm1 Hz Hm2.
  destruct m1 as [cid1 sch1 var1 cont1]. simpl in Hm1. subst cont1.
  destruct m2 as [cid2 sch2 var2 cont2]. simpl in Hm2. subst cont2.
  unfold ObtainCertificate, client.ObtainCertificate,
    client.obtainCertificateBody.
  rewrite Hx. simpl. rewrite Hz. simpl. reflexivity.
Qed.

(** X23: how a run of ObtainCertificate fails.  An error of the first
    exchange is returned with no certificate and the response is never
    sent; an error of the second exchange is returned likewise; an answer
    to the first message that is no Bigint makes the client panic, after
    which the stream is still closed. *)
Theorem ObtainCertificate_failures
    (c : client.PseudonymsysCAClient SchnorrProver) (userSecret : Z)
    (nym : pseudonymsys.Pseudonym) (m1 : pb.Message)
    (x z : Z) (t : option Z) (p1 p2 : SchnorrProver) (X1 : pb.bytes)
    (e : error) (resp : option pb.Message) (rest : list Answer) :
  GetProofRandomData userSecret (pseudonymsys.A nym) (client.prover _ c) =
    Returned (x, p1) ->
  pb.GetContent m1 = Some (pb.Message_Bigint X1) ->
  GetProofData (big.SetBytes X1) p1 = Returned ((z, t), p2) ->
  let initMsg :=
    pb.MkMessage (client.id _ c) pb.PSEUDONYMSYS_CA pb.SchemaVariant_SIGMA
      (Some (pb.Message_SchnorrProofRandomData (big.Bytes x)
               (big.Bytes (pseudonymsys.A nym))
               (big.Bytes (GroupExp p1 (pseudonymsys.A nym) userSecret)))) in
  let proofMsg :=
    pb.WithContent (pb.Message_SchnorrProofData (big.Bytes z) []) in
  exec (ObtainCertificate c userSecret nym) (AnsMessage resp (Some e) :: rest) =
    ([EvOpenStream; EvExchange initMsg; EvCloseStream],
     Some (Returned (None, Some e))) /\
  exec (ObtainCertificate c userSecret nym)
    (AnsMessage (Some m1) None :: AnsMessage resp (Some e) :: rest) =
    ([EvOpenStream; EvExchange initMsg; EvExchange proofMsg; EvCloseStream],
     Some (Returned (None, Some e))) /\
  (pb.GetBigint resp = None ->
   exec (ObtainCertificate c userSecret nym) (AnsMessage resp None :: rest) =
     ([EvOpenStream; EvExchange initMsg; EvCloseStream],
      Some (Panicked NilPointerDereference))).
Proof.
  intros Hx Hm1 Hz initMsg proofMsg. subst initMsg proofMsg.
  destruct m1 as [cid1 sch1 var1 cont1]. simpl in Hm1. subst cont1.
  unfold ObtainCertificate, client.ObtainCertificate,
    client.obtainCertificateBody.
  rewrite Hx. simpl. rewrite Hz. simpl.
  repeat split; try reflexivity.
  intros Hresp. rewrite Hresp. reflexivity.
Qed.

End ClientRuns.

(** ** Scalars on the wire *)

Section WireScalars.
Import stream run.

Lemma to_N_byte_of_N (n : N) : (n < 256)%N -> Byte.to_N (big.byte_of_N n) = n.
Proof.
  intros Hn. unfold big.byte_of_N.
  destruct (Byte.of_N n) as [b |] eqn:E.
  - apply Byte.to_of_N. exact E.
  - apply Byte.of_N_None_iff in E. lia.
Qed.

Lemma SetBytes_snoc (D : list byte) (b : byte) :
  big.SetBytes (D ++ [b]) = big.SetBytes D * 256 + Z.of_N (Byte.to_N b).
Proof. unfold big.SetBytes. rewrite fold_left_app. reflexivity. Qed.

(** The digits that bytes_acc puts in front of its accumulator read back
    as the number. *)
Lemma bytes_acc_digits (fuel : nat) : forall (n : N) (acc : list byte),
  (n < 2 ^ N.of_nat fuel)%N ->
  exists D, big.bytes_acc fuel n acc = D ++ acc /\ big.SetBytes D = Z.of_N n.
Proof.
  induction fuel as [| fuel IH]; intros n acc Hn.
  - exists []. simpl in *. split; [reflexivity |].
    assert (n = 0%N) by lia. subst n. reflexivity.
  - simpl big.bytes_acc.
    destruct (N.eqb_spec n 0) as [-> | Hn0].
    + exists []. split; reflexivity.
    + assert (Hdiv : (n / 256 < 2 ^ N.of_nat fuel)%N).
      { apply N.Div0.div_lt_upper_bound.
        rewrite Nnat.Nat2N.inj_succ, N.pow_succ_r' in Hn. lia. }
      destruct (IH (n / 256)%N (big.byte_of_N (n mod 256) :: acc) Hdiv)
        as (D & HD & HV).
      exists (D ++ [big.byte_of_N (n mod 256)]). split.
      * rewrite HD, <- app_assoc. reflexivity.
      * rewrite SetBytes_snoc, HV.
        rewrite to_N_byte_of_N by (apply N.mod_lt; discriminate).
        rewrite N2Z.inj_div, N2Z.inj_mod.
        change (Z.of_N 256) with 256.
        pose proof (Z.div_mod (Z.of_N n) 256 ltac:(lia)). lia.
Qed.

(** What Bytes writes, SetBytes reads back, up to the sign. *)
Lemma SetBytes_Bytes (x : Z) : big.SetBytes (big.Bytes x) = Z.abs x.
Proof.
  unfold big.Bytes.
  destruct (bytes_acc_digits (N.to_nat (N.size (Z.abs_N x))) (Z.abs_N x) [])
    as (D & HD & HV).
  - rewrite Nnat.N2Nat.id. apply N.size_gt.
  - cbv zeta. rewrite HD, app_nil_r, HV. apply N2Z.inj_abs_N.
Qed.

End WireScalars.

Section ReadBack.
Import stream run.

Variable Curve : Type.
Variable SchnorrECVerifier : Type.
Variable NewSchnorrECVerifier : Curve -> types.ProtocolType -> SchnorrECVerifier.
Variable GetOpeningMsgReply :
  types.ECGroupElement -> M SchnorrECVerifier types.ECGroupElement.
Variable SetProofRandomData :
  types.ECGroupElement -> types.ECGroupElement -> types.ECGroupElement ->
  M SchnorrECVerifier unit.
Variable GetChallenge : M SchnorrECVerifier (Z * option Z).
Variable Verify : Z -> Z -> M SchnorrECVerifier bool.
Variable ToECGroupElement : option pb.ECGroupElement -> outcome types.ECGroupElement.
Variable ToPbECGroupElement : types.ECGroupElement -> pb.ECGroupElement.

Variable SchnorrProver : Type.
Variable GetProofRandomData : Z -> Z -> M SchnorrProver Z.
Variable GroupExp : SchnorrProver -> Z -> Z -> Z.
Variable GetProofData : Z -> M SchnorrProver (Z * option Z).

Let SchnorrEC :=
  server.SchnorrEC Curve SchnorrECVerifier NewSchnorrECVerifier
    GetOpeningMsgReply SetProofRandomData GetChallenge Verify
    ToECGroupElement ToPbECGroupElement.

Let ObtainCertificate :=
  client.ObtainCertificate SchnorrProver GetProofRandomData GroupExp GetProofData.

(** X24: the server reads the proof data back.  When the peer wrote the
    response z and the trapdoor t into the proof data with Bytes, as the
    clients do, the handler calls Verify on their magnitudes |z| and |t|
    (on z and t themselves when they are non-negative), and the Status
    carries that result. *)
Theorem SchnorrEC_reads_proof_data (req m2 : pb.Message) (curve : Curve)
    (pX pA pB : option pb.ECGroupElement) (x a b : types.ECGroupElement)
    (v1 v2 v3 : SchnorrECVerifier) (ch : Z) (r2 : option Z)
    (z t : Z) (valid : bool) :
  pb.GetContent req = Some (pb.Message_SchnorrEcProofRandomData pX pA pB) ->
  ToECGroupElement pX = Returned x ->
  ToECGroupElement pA = Returned a ->
  ToECGroupElement pB = Returned b ->
  SetProofRandomData x a b (NewSchnorrECVerifier curve types.Sigma) =
    Returned (tt, v1) ->
  GetChallenge v1 = Returned ((ch, r2), v2) ->
  pb.GetContent m2 =
    Some (pb.Message_SchnorrProofData (big.Bytes z) (big.Bytes t)) ->
  Verify (Z.abs z) (Z.abs t) v2 = Returned (valid, v3) ->
  exists challengeMsg,
    exec (SchnorrEC req types.Sigma curve)
      [AnsSend None; AnsMessage (Some m2) None; AnsSend None] =
    ([EvSend challengeMsg; EvReceive;
      EvSend (pb.WithContent (pb.Message_Status valid))],
     Some (Returned None)).
Proof.
  intros Hreq HX HA HB Hset Hch Hm2 Hver.
  destruct req as [cid sch var cont]. simpl in Hreq. subst cont.
  destruct m2 as [cid2 sch2 var2 cont2]. simpl in Hm2. subst cont2.
  unfold SchnorrEC, server.SchnorrEC.
  cbn [negb types.ProtocolType_eqb pbind pb.GetSchnorrEcProofRandomData lift].
  rewrite HX. cbn [pbind lift]. rewrite HA. cbn [pbind lift].
  rewrite HB. cbn [pbind lift]. rewrite Hset. cbn [pbind lift].
  rewrite Hch. cbn [pbind lift send receive exec pb.GetSchnorrProofData].
  rewrite !SetBytes_Bytes, Hver.
  cbn [pbind lift send exec]. eexists. reflexivity.
Qed.

(** X25: the client reads the answers back.  When the CA wrote the
    challenge and the four scalars of the certificate with Bytes, the
    client calls GetProofData on the magnitude of the challenge and
    returns the certificate made of the magnitudes of the four scalars
    (the scalars themselves when they are non-negative). *)
Theorem ObtainCertificate_reads_answers
    (c : client.PseudonymsysCAClient SchnorrProver) (userSecret : Z)
    (nym : pseudonymsys.Pseudonym) (m1 m2 : pb.Message)
    (x z ch bA bB sR sS : Z) (t : option Z) (p1 p2 : SchnorrProver) :
  GetProofRandomData userSecret (pseudonymsys.A nym) (client.prover _ c) =
    Returned (x, p1) ->
  pb.GetContent m1 = Some (pb.Message_Bigint (big.Bytes ch)) ->
  GetProofData (Z.abs ch) p1 = Returned ((z, t), p2) ->
  pb.GetContent m2 =
    Some (pb.Message_PseudonymsysCaCertificate
            (big.Bytes bA) (big.Bytes bB) (big.Bytes sR) (big.Bytes sS)) ->
  exists evs,
    exec (ObtainCertificate c userSecret nym)
      [AnsMessage (Some m1) None; AnsMessage (Some m2) None] =
    (evs,
     Some (Returned
             (Some (pseudonymsys.NewCACertificate
                      (Z.abs bA) (Z.abs bB) (Z.abs sR) (Z.abs sS)),
              None))).
Proof.
  intros Hx Hm1 Hz Hm2.
  destruct m1 as [cid1 sch1 var1 cont1]. simpl in Hm1. subst cont1.
  destruct m2 as [cid2 sch2 var2 cont2]. simpl in Hm2. subst cont2.
  unfold ObtainCertificate, client.ObtainCertificate,
    client.obtainCertificateBody.
  rewrite Hx.
  cbn [pbind lift openStream getResponseTo deferred exec pb.GetBigint].
  rewrite SetBytes_Bytes, Hz.
  cbn [pbind lift getResponseTo deferred exec pb.GetPseudonymsysCaCertificate
       closeStream].
  rewrite !SetBytes_Bytes. eexists. reflexivity.
Qed.

End ReadBack.


(** ** The further theorems at concrete inputs *)

Section MoreInstances.
Import toy concrete samples stream run.

Lemma GetDecommitMsg_latest_accepted_witness :
  commitments.PedersenECCommitter.h committer = Some (dlog.baseExp curve 6) /\
  0 <= 4 <= 19 /\
  exists c',
    (commitments.PedersenECCommitter.GetCommitMsg 4 9 ;;;
     commitments.PedersenECCommitter.GetCommitMsg 20 3 ;;;
     commitments.PedersenECCommitter.GetDecommitMsg) committer =
    Returned ((Some 4, Some 9), c').
Proof.
  split; [reflexivity |]. split; [lia |].
  exact (GetDecommitMsg_latest_accepted committer (dlog.baseExp curve 6)
           4 9 20 3 eq_refl ltac:(simpl; unfold q; lia)).
Defined.

Lemma base_is_G (k : Z) : 0 <= k -> dlog.baseExp curve k = dlog.exp curve G k.
Proof. reflexivity. Qed.

Lemma trapdoor_equivocation_witness :
  (1 + 6 * 0) mod 19 = (4 + 6 * 9) mod 19 /\
  exists c committer' receiver',
    commitments.PedersenECCommitter.GetCommitMsg 4 9
      (commitments.PedersenECCommitter.set_h (Some (dlog.baseExp curve 6))
         (commitments.NewPedersenECCommitter Curve NewECDLog F17)) =
      Returned ((Some c, None), committer') /\
    commitments.PedersenECReceiver.GetH
      (commitments.NewPedersenECReceiver Curve NewECDLog F17 6) =
      Returned (Some (dlog.baseExp curve 6),
                commitments.NewPedersenECReceiver Curve NewECDLog F17 6) /\
    (commitments.PedersenECReceiver.SetCommitment c ;;;
     commitments.PedersenECReceiver.CheckDecommitment 0 1)
      (commitments.NewPedersenECReceiver Curve NewECDLog F17 6) =
    Returned (true, receiver').
Proof.
  split; [reflexivity |].
  apply (trapdoor_equivocation Curve NewECDLog F17 toy_facts.laws G 6 4 9 1 0).
  - exact toy_facts.G_on_curve.
  - exact base_is_G.
  - lia.
  - simpl. unfold q. lia.
  - lia.
  - lia.
  - lia.
  - reflexivity.
Defined.

Lemma commitments_multiply_witness :
  dlog.mul curve
    (dlog.mul curve (dlog.baseExp curve 4) (dlog.exp curve P3 9))
    (dlog.mul curve (dlog.baseExp curve 2) (dlog.exp curve P3 5)) =
  dlog.mul curve (dlog.baseExp curve (4 + 2)) (dlog.exp curve P3 (9 + 5)).
Proof.
  refine (proj1 (commitments_multiply curve toy_facts.laws G P3
                   (commitments.PedersenECReceiver.Build curve (Some 6)
                      (Some P3) None)
                   4 9 2 5 toy_facts.G_on_curve base_is_G
                   toy_facts.P3_on_curve _ _ _ _ eq_refl eq_refl)); lia.
Defined.

Lemma Verify_true_iff_witness :
  dlogproofs.PartialECDLogVerifier.challenge (honestVerifier 9) = Some 9 /\
  exists b : bool,
    dlogproofs.PartialECDLogVerifier.Verify 2 0 11 13 (honestVerifier 9) =
      Returned (b, honestVerifier 9).
Proof.
  split; [reflexivity |].
  destruct (Verify_true_iff (honestVerifier 9) honestTriple1 honestTriple2
              9 2 0 11 13 eq_refl eq_refl eq_refl) as (b & E & _).
  exists b. exact E.
Defined.

Lemma Verify_xor_mismatch_witness :
  dlogproofs.PartialECDLogVerifier.challenge
    (dlogproofs.PartialECDLogVerifier.Build curve None None (Some 9)) = Some 9 /\
  Z.lxor 1 3 <> 9 /\
  dlogproofs.PartialECDLogVerifier.Verify 1 2 3 4
    (dlogproofs.PartialECDLogVerifier.Build curve None None (Some 9)) =
  Returned (false, dlogproofs.PartialECDLogVerifier.Build curve None None (Some 9)).
Proof.
  split; [reflexivity |]. split; [discriminate |].
  apply (Verify_xor_mismatch _ 9); [reflexivity | discriminate].
Defined.

Lemma simulated_triple_verifies_witness :
  on_curve G /\ on_curve P3 /\
  exists t1 t2 p',
    dlogproofs.PartialECDLogProver.GetProofRandomData 7 G P7 G P3 5 11 13 0
      (dlogproofs.NewPartialECDLogProver curve) = Returned ((t1, t2), p') /\
    dlogproofs.PartialECDLogVerifier.verifyTriple (Some t2) 11 13
      (dlogproofs.NewPartialECDLogVerifier curve) =
    Returned (true, dlogproofs.NewPartialECDLogVerifier curve).
Proof.
  split; [exact toy_facts.G_on_curve |].
  split; [exact toy_facts.P3_on_curve |].
  destruct (simulated_triple_verifies curve toy_facts.laws
              (dlogproofs.NewPartialECDLogProver curve)
              (dlogproofs.NewPartialECDLogVerifier curve)
              7 G P7 G P3 5 11 13 0 eq_refl eq_refl
              toy_facts.G_on_curve toy_facts.P3_on_curve
              ltac:(lia) ltac:(lia))
    as (t1 & t2 & p' & E & _ & _ & EV).
  exists t1, t2, p'. split; [exact E | exact EV].
Defined.

Lemma GetProofData_ranges_witness :
  0 < 19 /\ 0 <= 11 < 2 ^ 5 /\ 0 <= 9 < 2 ^ 5 /\
  exists c z,
    dlogproofs.PartialECDLogProver.GetProofData 9 honestProver =
      Returned ((c, z, 11, 13), honestProver) /\
    c = Z.lxor 11 9 /\
    z = (c * 7 + 5) mod 19 /\
    0 <= c < 2 ^ 5 /\ 0 <= z < 19.
Proof.
  split; [lia |]. split; [lia |]. split; [lia |].
  exact (GetProofData_ranges honestProver 7 5 11 13 9 5
           ltac:(simpl; unfold q; lia) eq_refl eq_refl eq_refl eq_refl
           ltac:(lia) ltac:(lia)).
Defined.

Lemma GetProofData_nonce_reuse_witness :
  0 < 19 /\
  exists c z c' z',
    (first <- dlogproofs.PartialECDLogProver.GetProofData 9 ;;
     second <- dlogproofs.PartialECDLogProver.GetProofData 10 ;;
     ret (first, second)) honestProver =
    Returned (((c, z, 11, 13), (c', z', 11, 13)), honestProver) /\
    c = Z.lxor 11 9 /\ c' = Z.lxor 11 10 /\
    (z - z') mod 19 = ((c - c') * 7) mod 19.
Proof.
  split; [lia |].
  exact (GetProofData_nonce_reuse honestProver 7 5 11 13 9 10
           ltac:(simpl; unfold q; lia) eq_refl eq_refl eq_refl eq_refl).
Defined.

Lemma GetProofData_total_after_setup_witness :
  dlog.OrderOfSubgroup curve <> 0 /\
  provercalls.proverCalls
    [provercalls.CallGetProofRandomData 7 G P7 G P3 5 11 13 0;
     provercalls.CallGetProofData 9]
    (dlogproofs.NewPartialECDLogProver curve) = Returned (tt, honestProver) /\
  exists res,
    dlogproofs.PartialECDLogProver.GetProofData 10 honestProver =
    Returned (res, honestProver).
Proof.
  assert (Hq : dlog.OrderOfSubgroup curve <> 0) by (simpl; unfold q; lia).
  assert (H : provercalls.proverCalls
                [provercalls.CallGetProofRandomData 7 G P7 G P3 5 11 13 0;
                 provercalls.CallGetProofData 9]
                (dlogproofs.NewPartialECDLogProver curve) =
              Returned (tt, honestProver)) by reflexivity.
  split; [exact Hq |]. split; [exact H |].
  exact (proj1 (GetProofData_total_after_setup curve _ honestProver 10 Hq H)
           eq_refl).
Defined.

Lemma ordering_bit_swaps_both_witness :
  dlog.OrderOfSubgroup
    (dlogproofs.PartialECDLogProver.DLog (dlogproofs.NewPartialECDLogProver curve))
    <> 0 /\
  1 <> 0 /\
  exists tA tB p0 p1,
    dlogproofs.PartialECDLogProver.GetProofRandomData 7 G P7 G P3 5 11 13 0
      (dlogproofs.NewPartialECDLogProver curve) = Returned ((tA, tB), p0) /\
    dlogproofs.PartialECDLogProver.GetProofRandomData 7 G P7 G P3 5 11 13 1
      (dlogproofs.NewPartialECDLogProver curve) = Returned ((tB, tA), p1).
Proof.
  assert (Hq : dlog.OrderOfSubgroup
                 (dlogproofs.PartialECDLogProver.DLog
                    (dlogproofs.NewPartialECDLogProver curve)) <> 0)
    by (simpl; unfold q; lia).
  split; [exact Hq |]. split; [discriminate |].
  destruct (ordering_bit_swaps_both (dlogproofs.NewPartialECDLogProver curve)
              7 G P7 G P3 5 11 13 1 9 Hq ltac:(discriminate))
    as (tA & tB & p0 & p1 & cA & zA & cB & zB & E0 & E1 & _).
  exists tA, tB, p0, p1. split; [exact E0 | exact E1].
Defined.

Lemma accepted_challenges_differ_witness :
  dlogproofs.PartialECDLogVerifier.Verify 2 0 11 13 (honestVerifier 9) =
    Returned (true, honestVerifier 9) /\
  dlogproofs.PartialECDLogVerifier.Verify 1 12 11 13 (honestVerifier 10) =
    Returned (true, honestVerifier 10) /\
  9 <> 10 /\
  (2 <> 1 \/ 11 <> 11).
Proof.
  assert (H1 : dlogproofs.PartialECDLogVerifier.Verify 2 0 11 13 (honestVerifier 9) =
               Returned (true, honestVerifier 9)) by reflexivity.
  assert (H2 : dlogproofs.PartialECDLogVerifier.Verify 1 12 11 13
                 (honestVerifier 10) =
               Returned (true, honestVerifier 10)) by reflexivity.
  split; [exact H1 |]. split; [exact H2 |]. split; [discriminate |].
  exact (accepted_challenges_differ (honestVerifier 9) (honestVerifier 10) _ _
           9 10 2 0 11 13 1 12 11 13 eq_refl eq_refl ltac:(discriminate) H1 H2).
Defined.

Lemma SchnorrEC_sigma_run_witness :
  pb.GetContent request =
    Some (pb.Message_SchnorrEcProofRandomData
            (Some (ToPbECGroupElement P3)) (Some (ToPbECGroupElement G))
            (Some (ToPbECGroupElement P3))) /\
  exec (concrete.SchnorrEC request types.Sigma F17)
    [AnsSend None; AnsMessage (Some proofDataMsg) None; AnsSend None] =
  ([EvSend (pb.WithContent
              (pb.Message_PedersenDecommitment (big.Bytes 7) (big.Bytes 0)));
    EvReceive; EvSend statusMsg],
   Some (Returned None)).
Proof.
  split; [reflexivity |].
  unfold concrete.SchnorrEC.
  eapply SchnorrEC_sigma_run with (r2 := None) (ch := 7) (valid := true);
    reflexivity.
Defined.

Lemma SchnorrEC_wrong_message_panics_witness :
  pb.GetSchnorrEcProofRandomData (Some proofDataMsg) = None /\
  exec (concrete.SchnorrEC proofDataMsg types.Sigma F17) [] =
  ([], Some (Panicked NilPointerDereference)).
Proof.
  split; [reflexivity |].
  unfold concrete.SchnorrEC.
  apply (proj1 (SchnorrEC_wrong_message_panics Curve SchnorrECVerifier
                  NewSchnorrECVerifier GetOpeningMsgReply SetProofRandomData
                  GetChallenge Verify ToECGroupElement ToPbECGroupElement
                  proofDataMsg F17 [])).
  reflexivity.
Defined.

Lemma SchnorrEC_stream_errors_witness :
  exec (concrete.SchnorrEC request types.Sigma F17)
    [AnsSend (Some "broken pipe"%string)] =
  ([EvSend (pb.WithContent
              (pb.Message_PedersenDecommitment (big.Bytes 7) (big.Bytes 0)))],
   Some (Returned (Some "broken pipe"%string))).
Proof.
  unfold concrete.SchnorrEC.
  eapply proj1.
  eapply SchnorrEC_stream_errors
    with (r2 := None) (ch := 7) (valid := true) (m2 := proofDataMsg)
         (resp := None);
    reflexivity.
Defined.

Lemma SchnorrEC_errors_from_stream_witness :
  exec (concrete.SchnorrEC request types.Sigma F17)
    [AnsSend None; AnsMessage None (Some "deadline"%string)] =
  ([EvSend (pb.WithContent
              (pb.Message_PedersenDecommitment (big.Bytes 7) (big.Bytes 0)));
    EvReceive],
   Some (Returned (Some "deadline"%string))) /\
  (In (AnsSend (Some "deadline"%string))
      [AnsSend None; AnsMessage None (Some "deadline"%string)] \/
   exists resp,
     In (AnsMessage resp (Some "deadline"%string))
       [AnsSend None; AnsMessage None (Some "deadline"%string)]).
Proof.
  assert (H : exec (concrete.SchnorrEC request types.Sigma F17)
                [AnsSend None; AnsMessage None (Some "deadline"%string)] =
              ([EvSend (pb.WithContent
                          (pb.Message_PedersenDecommitment (big.Bytes 7)
                             (big.Bytes 0)));
                EvReceive],
               Some (Returned (Some "deadline"%string)))) by reflexivity.
  split; [exact H |].
  unfold concrete.SchnorrEC in H.
  exact (SchnorrEC_errors_from_stream _ _ _ _ _ _ _ _ _ _ _ _ _ _ _ H).
Defined.

Lemma SchnorrEC_zkp_run_witness :
  types.ZKP <> types.Sigma /\
  exec (concrete.SchnorrEC openingRequest types.ZKP F17)
    [AnsSend None; AnsMessage (Some request) None; AnsSend None;
     AnsMessage (Some proofDataMsg) None; AnsSend None] =
  ([EvSend (pb.WithContent
              (pb.Message_EcGroupElement
                 (ToPbECGroupElement
                    (dlog.mul curve (dlog.baseExp curve 7) (dlog.exp curve G 3)))));
    EvReceive;
    EvSend (pb.WithContent
              (pb.Message_PedersenDecommitment (big.Bytes 7) (big.Bytes 3)));
    EvReceive; EvSend statusMsg],
   Some (Returned None)).
Proof.
  split; [discriminate |].
  unfold concrete.SchnorrEC.
  eapply SchnorrEC_zkp_run
    with (r2 := Some 3) (ch := 7) (valid := true) (h := G);
    first [discriminate | reflexivity].
Defined.

Lemma SchnorrEC_reply_header_witness :
  sent (concrete.SchnorrEC request types.Sigma F17)
    (pb.WithContent
       (pb.Message_PedersenDecommitment (big.Bytes 7) (big.Bytes 0))) /\
  pb.Schema
    (pb.WithContent
       (pb.Message_PedersenDecommitment (big.Bytes 7) (big.Bytes 0))) =
  pb.PEDERSEN.
Proof.
  assert (H : sent (concrete.SchnorrEC request types.Sigma F17)
                (pb.WithContent
                   (pb.Message_PedersenDecommitment (big.Bytes 7) (big.Bytes 0))))
    by exact (sent_Send _ _).
  split; [exact H |].
  unfold concrete.SchnorrEC in H.
  exact (proj1 (proj2 (SchnorrEC_reply_header _ _ _ _ _ _ _ _ _ _ _ _ _ H))).
Defined.

Lemma ObtainCertificate_run_witness :
  exec (concrete.ObtainCertificate caClient 3 nym)
    [AnsMessage (Some bigintMsg) None; AnsMessage (Some certificateMsg) None] =
  ([EvOpenStream;
    EvExchange
      (pb.MkMessage 1 pb.PSEUDONYMSYS_CA pb.SchemaVariant_SIGMA
         (Some (pb.Message_SchnorrProofRandomData (big.Bytes 9) (big.Bytes 2)
                  (big.Bytes 8))));
    EvExchange (pb.WithContent (pb.Message_SchnorrProofData (big.Bytes 6) []));
    EvCloseStream],
   Some (Returned (Some (pseudonymsys.NewCACertificate 2 3 5 7), None))).
Proof.
  unfold concrete.ObtainCertificate.
  eapply ObtainCertificate_run
    with (x := 9) (z := 6) (t := None) (p1 := (5, 3)) (p2 := (5, 3))
         (X1 := big.Bytes 4) (cA := big.Bytes 2) (cB := big.Bytes 3)
         (cR := big.Bytes 5) (cS := big.Bytes 7);
    reflexivity.
Defined.

Lemma ObtainCertificate_stream_bracket_witness :
  exists mid,
    fst (exec (concrete.ObtainCertificate caClient 3 nym)
           [AnsMessage (Some bigintMsg) None;
            AnsMessage (Some certificateMsg) None]) =
    EvOpenStream :: mid ++ [EvCloseStream] /\
    ~ In EvOpenStream mid /\ ~ In EvCloseStream mid.
Proof.
  assert (H : exec (concrete.ObtainCertificate caClient 3 nym)
                [AnsMessage (Some bigintMsg) None;
                 AnsMessage (Some certificateMsg) None] =
              (fst (exec (concrete.ObtainCertificate caClient 3 nym)
                      [AnsMessage (Some bigintMsg) None;
                       AnsMessage (Some certificateMsg) None]),
               Some (Returned
                       (Some (pseudonymsys.NewCACertificate 2 3 5 7), None))))
    by reflexivity.
  unfold concrete.ObtainCertificate in H.
  exact (ObtainCertificate_stream_bracket _ _ _ _ _ _ _ _ _ _ H).
Defined.

Lemma ObtainCertificate_failures_witness :
  exec (concrete.ObtainCertificate caClient 3 nym)
    [AnsMessage None (Some "unavailable"%string)] =
  ([EvOpenStream;
    EvExchange
      (pb.MkMessage 1 pb.PSEUDONYMSYS_CA pb.SchemaVariant_SIGMA
         (Some (pb.Message_SchnorrProofRandomData (big.Bytes 9) (big.Bytes 2)
                  (big.Bytes 8))));
    EvCloseStream],
   Some (Returned (None, Some "unavailable"%string))).
Proof.
  unfold concrete.ObtainCertificate.
  eapply proj1.
  eapply ObtainCertificate_failures
    with (x := 9) (z := 6) (t := None) (m1 := bigintMsg) (resp := None)
         (p1 := (5, 3)) (p2 := (5, 3)) (X1 := big.Bytes 4);
    reflexivity.
Defined.

Lemma SchnorrEC_reads_proof_data_witness :
  exists challengeMsg,
    exec (concrete.SchnorrEC request types.Sigma F17)
      [AnsSend None; AnsMessage (Some proofDataMsg) None; AnsSend None] =
    ([EvSend challengeMsg; EvReceive; EvSend statusMsg], Some (Returned None)).
Proof.
  unfold concrete.SchnorrEC.
  eapply SchnorrEC_reads_proof_data
    with (r2 := None) (ch := 7) (valid := true) (z := 5) (t := 0);
    reflexivity.
Defined.

Lemma ObtainCertificate_reads_answers_witness :
  exists evs,
    exec (concrete.ObtainCertificate caClient 3 nym)
      [AnsMessage (Some bigintMsg) None; AnsMessage (Some certificateMsg) None] =
    (evs, Some (Returned (Some (pseudonymsys.NewCACertificate 2 3 5 7), None))).
Proof.
  unfold concrete.ObtainCertificate.
  eapply (ObtainCertificate_reads_answers _ _ _ _ caClient 3 nym
            bigintMsg certificateMsg 9 6 4 2 3 5 7 None);
    reflexivity.
Defined.

Lemma CheckDecommitment_latest_commitment_witness :
  calls.receiverCalls
    [calls.CallSetCommitment P3; calls.CallGetH; calls.CallSetCommitment G]
    (commitments.NewPedersenECReceiver Curve NewECDLog F17 6) =
    Returned (tt, receiverWithCommitment) /\
  exists b : bool,
    commitments.PedersenECReceiver.CheckDecommitment 9 4 receiverWithCommitment =
    Returned (b, receiverWithCommitment).
Proof.
  assert (H : calls.receiverCalls
                [calls.CallSetCommitment P3; calls.CallGetH;
                 calls.CallSetCommitment G]
                (commitments.NewPedersenECReceiver Curve NewECDLog F17 6) =
              Returned (tt, receiverWithCommitment)) by reflexivity.
  split; [exact H |].
  destruct (CheckDecommitment_latest_commitment Curve NewECDLog F17 6 _ _ 9 4 H)
    as (b & E & _).
  exists b. exact E.
Defined.

End MoreInstances.
